(** * 2Mean user module: CRUD and authentication controllers

    A shallow embedding of [user.crud.controller] and
    [user-auth.controller.js] and the properties of their handlers.

    - JavaScript values are a tree type [value]; a user document, a request
      body, an error and a mail are objects, kept as association lists in
      insertion order (the order [JSON.stringify] prints).
    - Numbers are the integers the handlers compute with (page numbers,
      millisecond timestamps, the Mongo error code).
    - A promise that settled is a [Promise]: resolved with a value or
      rejected with an error object; [.then] and [.catch] chains are
      written as matches on it.
    - The user collection is a list of documents in natural order; the
      queries the handlers issue are list functions on it.
    - What lives outside the two files (the schema, the configuration, the
      hashing helper, the mailer, the clock) is a variable of the section or
      an argument of the handler. *)

From Stdlib Require Import ZArith List String Ascii Bool Lia DecimalString.
From Stdlib Require Import Sorting.Sorted Sorting.Permutation.
From Stdlib Require DecimalPos DecimalZ.
Import ListNotations.
Local Open Scope string_scope.
Local Open Scope Z_scope.

(* ------------------------------------------------------------------ *)
(** ** JavaScript values *)

Unset Elimination Schemes.
Inductive value : Type :=
| VUndef
| VNull
| VBool (b : bool)
| VNum (n : Z)
| VStr (s : string)
| VDate (ms : Z)
| VArr (xs : list value)
| VObj (props : list (string * value)).
Set Elimination Schemes.

(** The own properties of an object, first binding of a key first. *)
Definition obj : Type := list (string * value).

(** [o[k]]: the value of property [k], [undefined] when [o] has none. *)
Fixpoint lookup (k : string) (o : obj) : value :=
  match o with
  | [] => VUndef
  | (k', v) :: r => if (k =? k')%string then v else lookup k r
  end.

(** [k in o] for own properties. *)
Fixpoint has_key (k : string) (o : obj) : bool :=
  match o with
  | [] => false
  | (k', _) :: r => if (k =? k')%string then true else has_key k r
  end.

(** [o[k] = v]: an existing property keeps its place, a new one goes last. *)
Fixpoint assign (k : string) (v : value) (o : obj) : obj :=
  match o with
  | [] => [(k, v)]
  | (k', v') :: r =>
      if (k =? k')%string then (k', v) :: r else (k', v') :: assign k v r
  end.

Fixpoint remove_key (k : string) (o : obj) : obj :=
  match o with
  | [] => []
  | (k', v) :: r =>
      if (k =? k')%string then remove_key k r else (k', v) :: remove_key k r
  end.

(** ToBoolean. *)
Definition truthy (v : value) : bool :=
  match v with
  | VUndef | VNull => false
  | VBool b => b
  | VNum n => negb (n =? 0)
  | VStr s => negb (s =? "")%string
  | VDate _ | VArr _ | VObj _ => true
  end.

(** [v === 's'] for a string literal or a string-typed operand. *)
Definition is_str (v : value) (s : string) : bool :=
  match v with
  | VStr t => (t =? s)%string
  | _ => false
  end.

(** [v.k] for the keys the handlers read ([token], [expires]), which no
    primitive, array or date inherits: [None] is the TypeError of reading a
    property of [undefined] or [null]. *)
Definition member (v : value) (k : string) : option value :=
  match v with
  | VUndef | VNull => None
  | VObj p => Some (lookup k p)
  | _ => Some VUndef
  end.

(** [v.k = x] on a truthy [v].  On a primitive the assignment is dropped
    (neither file is in strict mode); on an array it adds a named property
    next to the elements, which neither the elements nor the JSON text
    show, so the elements stay as they are. *)
Definition setMember (v : value) (k : string) (x : value) : value :=
  match v with
  | VObj p => VObj (assign k x p)
  | _ => v
  end.

(** [o.a.b] read defensively: [undefined] when [o.a] is not an object. *)
Definition path2 (o : obj) (a b : string) : value :=
  match lookup a o with
  | VObj p => lookup b p
  | _ => VUndef
  end.

(** Whether [o.a] is an object that owns a property [b]. *)
Definition has_path2 (o : obj) (a b : string) : bool :=
  match lookup a o with
  | VObj p => has_key b p
  | _ => false
  end.

(** [JSON.parse(JSON.stringify(o))] on the properties of an object, given
    the copy [f] of a value: a property whose value has no JSON text
    ([f v = None]) is left out. *)
Definition copyProps (f : value -> option value) : obj -> obj :=
  fix go (ps : obj) : obj :=
    match ps with
    | [] => []
    | (k, v) :: r =>
        let r' := remove_key k (go r) in
        match f v with
        | None => r'
        | Some y => (k, y) :: r'
        end
    end.

Definition orNull (o : option value) : value :=
  match o with Some y => y | None => VNull end.

Definition orUndef (o : option value) : value :=
  match o with Some y => y | None => VUndef end.

(** Structural equality of two values, the comparison of a stored field
    with a query operand. *)
Fixpoint value_eqb (a b : value) : bool :=
  match a, b with
  | VUndef, VUndef | VNull, VNull => true
  | VBool x, VBool y => Bool.eqb x y
  | VNum x, VNum y => x =? y
  | VStr x, VStr y => (x =? y)%string
  | VDate x, VDate y => x =? y
  | VArr xs, VArr ys =>
      (fix go (xs ys : list value) : bool :=
         match xs, ys with
         | [], [] => true
         | x :: xs', y :: ys' => value_eqb x y && go xs' ys'
         | _, _ => false
         end) xs ys
  | VObj ps, VObj qs =>
      (fix go (ps qs : obj) : bool :=
         match ps, qs with
         | [], [] => true
         | (k, v) :: ps', (k', v') :: qs' =>
             (k =? k')%string && value_eqb v v' && go ps' qs'
         | _, _ => false
         end) ps qs
  | _, _ => false
  end.

Definition nullish (v : value) : bool :=
  match v with VUndef | VNull => true | _ => false end.

(** The filter [{field: q}] of a Mongo query on a field holding [v]: the
    field equals the operand, or is an array with an element that does, or
    is missing while the operand is null.  Operands are compared as they
    are: the casting of an operand to the schema type, the operators an
    operand object may carry, and arrays of subdocuments on a dotted path
    are outside the model. *)
Definition queryEq (v q : value) : bool :=
  value_eqb v q
  || match v with
     | VArr xs => existsb (fun x => value_eqb x q) xs
     | _ => false
     end
  || (nullish v && nullish q).

(** ** Promises and responses *)

Inductive Promise (A : Type) : Type :=
| Resolved (a : A)
| Rejected (error : obj).
Arguments Resolved {A} a.
Arguments Rejected {A} error.

Definition then_ {A B : Type} (p : Promise A) (f : A -> Promise B) : Promise B :=
  match p with
  | Resolved a => f a
  | Rejected e => Rejected e
  end.

Definition catch_ {A : Type} (p : Promise A) (h : obj -> A) : A :=
  match p with
  | Resolved a => a
  | Rejected e => h e
  end.

(** [new Error(message)]. *)
Definition Error (message : string) : obj := [("message", VStr message)].

(** The error the runtime throws on [undefined.x] or on a call of something
    that is not a function. *)
Definition TypeError : obj :=
  [("name", VStr "TypeError"); ("message", VStr "TypeError")].

(** What [res.status(status).send(body)] sent; [send()] has body [undefined]. *)
Record Response : Type := { status : Z; body : value }.

Definition send (status : Z) (body : value) : Response :=
  {| status := status; body := body |}.

(** ** Numbers and strings *)

Definition Z_to_string (n : Z) : string := NilZero.string_of_int (Z.to_int n).

(** StringToNumber on the numerals of the integer model: an optional sign
    and decimal digits; the empty string is 0.  [None] is NaN; numerals
    with blanks, a fraction, an exponent or a radix prefix are read as NaN
    too. *)
Definition stringToNumber (s : string) : option Z :=
  match s with
  | EmptyString => Some 0
  | String "+" r => option_map Z.of_uint (NilZero.uint_of_string r)
  | _ => option_map Z.of_int (NilZero.int_of_string s)
  end.

(** [String.prototype.toLowerCase] on the ASCII letters. *)
Definition lower_ascii (c : ascii) : ascii :=
  let n := nat_of_ascii c in
  if (Nat.leb 65 n && Nat.leb n 90)%bool then ascii_of_nat (n + 32) else c.

Fixpoint toLowerCase (s : string) : string :=
  match s with
  | EmptyString => EmptyString
  | String c r => String (lower_ascii c) (toLowerCase r)
  end.

(** [s.split(' ')] for a one-character separator. *)
Fixpoint split (sep : ascii) (s : string) : list string :=
  match s with
  | EmptyString => [EmptyString]
  | String c r =>
      if Ascii.eqb c sep then EmptyString :: split sep r
      else match split sep r with
           | w :: ws => String c w :: ws
           | [] => [String c EmptyString]
           end
  end.

(** [xs.indexOf(w)], -1 when [w] is not an element. *)
Fixpoint indexOf (w : string) (xs : list string) : Z :=
  match xs with
  | [] => -1
  | x :: r =>
      if (x =? w)%string then 0
      else let i := indexOf w r in if i <? 0 then -1 else i + 1
  end.

(** [xs[i]] as a value, [undefined] out of range. *)
Definition at_index (xs : list string) (i : Z) : value :=
  if i <? 0 then VUndef
  else match nth_error xs (Z.to_nat i) with
       | Some w => VStr w
       | None => VUndef
       end.

(** [s.includes(t)] on strings. *)
Definition str_includes (s t : string) : bool :=
  match index 0 t s with Some _ => true | None => false end.

(** [no_space s]: [s] has no blank in it. *)
Fixpoint no_space (s : string) : bool :=
  match s with
  | EmptyString => true
  | String c r => negb (Ascii.eqb c " ") && no_space r
  end.

(** The text of the server's E11000 error: the namespace of the
    collection, the name of the unique index that refused the document,
    and the key that was there already. *)
Definition dupKeyMessage (ns idx key : string) : string :=
  "E11000 duplicate key error collection: " ++ ns
  ++ " index: " ++ idx ++ " dup key: " ++ key.

(* ------------------------------------------------------------------ *)
(** ** What the controllers are configured with *)

(** The settings the controller reads from [config]. *)
Record Config : Type := {
  allowRegistration : bool;          (* config.app.allowRegistration *)
  defaultUserRole : value;           (* config.app.defaultUserRole *)
  requireEmailVerification : bool;   (* config.app.requireEmailVerification *)
  emailVerificationTTL : Z;          (* config.app.emailVerificationTTL *)
  passwordStrengthRe : value -> bool;(* config.auth.passwordStrengthRe.test *)
  invalidPasswordMessage : string;   (* config.auth.invalidPasswordMessage *)
  emailFrom : value                  (* config.email.from *)
}.

(** What the controller is handed in [shared]. *)
Record Shared : Type := {
  hashPassword : value -> Promise value;  (* shared.authHelpers.hashPassword *)
  generateUrl : string;                   (* shared.authHelpers.generateUrl() *)
  sendMail : obj -> Promise value         (* shared.mail.sendMail *)
}.

(** The collection and the mails handed to the mailer so far. *)
Record World : Type := { users : list obj; outbox : list obj }.

(* ------------------------------------------------------------------ *)
(** ** A sample installation

    One configuration, one set of helpers and a few users, for running the
    handlers on. *)

Module Demo.

(** Stand-ins for the date printers and the digest: they print the
    milliseconds and return the text. *)
Definition toISOString (ms : Z) : string := "date:" ++ Z_to_string ms.
Definition dateToString (ms : Z) : string := "Date " ++ Z_to_string ms.
Definition md5 (s : string) : string := "md5:" ++ s.

(** Every source is a regular expression here, and matches a username that
    contains the text between the [[a-z]*] and the [+?] of the source. *)
Definition usernameRegExp (source : string) : option (value -> bool) :=
  let search := substring 6 (String.length source - 8) source in
  Some (fun v => match v with
                 | VStr s => str_includes s search
                 | _ => false
                 end).

Definition in_range (lo hi : nat) (c : ascii) : bool :=
  (Nat.leb lo (nat_of_ascii c) && Nat.leb (nat_of_ascii c) hi)%bool.

Definition is_upper := in_range 65 90.
Definition is_lower := in_range 97 122.
Definition is_digit := in_range 48 57.
Definition is_symbol (c : ascii) : bool :=
  negb (is_upper c || is_lower c || is_digit c).

(** The default policy: an upper-case letter, a lower-case letter, a digit
    and a symbol, at least 8 characters. *)
Definition strong (s : string) : bool :=
  let cs := list_ascii_of_string s in
  (Nat.leb 8 (List.length cs) && existsb is_upper cs && existsb is_lower cs
   && existsb is_digit cs && existsb is_symbol cs)%bool.

Definition config : Config :=
  {| allowRegistration := true;
     defaultUserRole := VStr "user";
     requireEmailVerification := true;
     emailVerificationTTL := 86400000;
     passwordStrengthRe :=
       fun v => match v with VStr s => strong s | _ => false end;
     invalidPasswordMessage := "use upper case, lower case, a digit and a symbol";
     emailFrom := VStr "noreply@example.org" |}.

(** The same installation with registration switched off. *)
Definition closedConfig : Config :=
  {| allowRegistration := false;
     defaultUserRole := defaultUserRole config;
     requireEmailVerification := requireEmailVerification config;
     emailVerificationTTL := emailVerificationTTL config;
     passwordStrengthRe := passwordStrengthRe config;
     invalidPasswordMessage := invalidPasswordMessage config;
     emailFrom := emailFrom config |}.

Definition shared : Shared :=
  {| hashPassword :=
       fun v => match v with
                | VStr s => Resolved (VStr ("hashed:" ++ s))
                | _ => Rejected (Error "data must be a string")
                end;
     generateUrl := "https://example.org";
     sendMail := fun _ => Resolved (VObj [("accepted", VBool true)]) |}.

Definition schemaFields : list string :=
  ["firstName"; "lastName"; "displayName"; "email"; "username"; "password";
   "profileImageURL"; "role"; "subroles"; "verified"; "verification";
   "resetPassword"; "updated"; "created"].

Definition newUsers : obj :=
  [("_id", VStr "fresh"); ("subroles", VArr []); ("verified", VBool false)].

(** A store with unique indexes on the username and on the email. *)
Definition uniqueIndexes : list (string * string) :=
  [("username_1", "username"); ("email_1", "email")].

Definition saveNew (db : list obj) (doc : obj) : Promise obj :=
  match
    List.find
      (fun ix => existsb (fun d => value_eqb (lookup (snd ix) d)
                                             (lookup (snd ix) doc)) db)
      uniqueIndexes
  with
  | Some (idx, field) =>
      Rejected
        [("name", VStr "MongoError");
         ("code", VNum 11000);
         ("errmsg",
          VStr (dupKeyMessage "mean.users" idx
                  ("{ : " ++ match lookup field doc with
                             | VStr s => s
                             | _ => ""
                             end ++ " }")))]
  | None => Resolved doc
  end.

Definition alice : obj :=
  [("_id", VStr "a1"); ("username", VStr "alice");
   ("email", VStr "alice@example.org"); ("password", VStr "hashed:Alice#2020");
   ("role", VStr "admin"); ("subroles", VArr [VStr "admin"; VStr "user"]);
   ("verified", VBool true); ("created", VDate 1500000000000)].

Definition bob : obj :=
  [("_id", VStr "b2"); ("username", VStr "bob");
   ("email", VStr "bob@example.org"); ("password", VStr "hashed:Bob#2021x");
   ("role", VStr "editor"); ("subroles", VArr [VStr "user"]);
   ("verified", VBool false);
   ("verification",
    VObj [("token", VStr "verify-bob"); ("expires", VNum 1000)]);
   ("resetPassword",
    VObj [("token", VStr "reset-bob"); ("expires", VNum 9000)])].

Definition carol : obj :=
  [("_id", VStr "c3"); ("username", VStr "carol");
   ("email", VStr "carol@example.org"); ("password", VStr "hashed:Carol#22");
   ("role", VStr "user"); ("subroles", VArr [VStr "user"]);
   ("verified", VBool true)].

Definition world : World :=
  {| users := [carol; alice; bob]; outbox := [] |}.

(** Sixty users whose usernames are not in order in the store. *)
Definition member_no (n : nat) : obj :=
  let k := Z.of_nat ((n * 37) mod 60) in
  [("_id", VStr ("id" ++ Z_to_string (Z.of_nat n)));
   ("username", VStr ("user" ++ Z_to_string (100 + k)));
   ("password", VStr "hashed:secret");
   ("role", VStr "user"); ("subroles", VArr [VStr "user"])].

Definition crowd : list obj := map member_no (seq 0 60).

Definition weakBody : obj :=
  [("username", VStr "dave"); ("email", VStr "Dave@Example.org");
   ("password", VStr "abc")].

Definition takenBody : obj :=
  [("username", VStr "bob"); ("email", VStr "robert@example.org");
   ("password", VStr "NewStrongP@ss1")].

Definition resetBody : obj :=
  [("password", VStr "NewStrongP@ss1"); ("token", VStr "reset-bob")].

(** The role module: the admin role and the subroles it gives a role. *)
Definition roleConfigAdmin : string := "admin".

Definition determineSubroles (role : value) : Promise value :=
  match role with
  | VStr r =>
      if (r =? "admin")%string
      then Resolved (VArr [VStr "admin"; VStr "user"])
      else Resolved (VArr [VStr r])
  | _ => Rejected (Error "no such role")
  end.

(** The stand-in for the hash comparison. *)
Definition verifyPassword (hash password : value) : Promise value :=
  match hash, password with
  | VStr h, VStr p => Resolved (VBool (h =? "hashed:" ++ p)%string)
  | _, _ => Rejected (Error "data and hash must be strings")
  end.

(** A store that refuses a changed user without a username. *)
Definition saveChanged (db : list obj) (doc : obj) : Promise obj :=
  if truthy (lookup "username" doc) then Resolved doc
  else Rejected
         [("message", VStr "User validation failed");
          ("errors",
           VObj [("username",
                  VObj [("name", VStr "ValidatorError");
                        ("message", VStr "Path `username` is required.")])])].

(** The helpers with a mailer that is down. *)
Definition sharedNoMail : Shared :=
  {| hashPassword := hashPassword shared;
     generateUrl := generateUrl shared;
     sendMail := fun _ => Rejected (Error "connect ECONNREFUSED") |}.

Definition daveBody : obj :=
  [("username", VStr "dave"); ("email", VStr "Dave@Example.org");
   ("password", VStr "Dav3#Strong"); ("role", VStr "admin");
   ("nickname", VStr "d")].

(** A stored record the store no longer accepts: it has lost its
    username. *)
Definition nameless : obj :=
  [("_id", VStr "n9"); ("email", VStr "nobody@example.org");
   ("password", VStr "hashed:Old#Pass1");
   ("verification",
    VObj [("token", VStr "verify-n9"); ("expires", VNum 9000)]);
   ("resetPassword",
    VObj [("token", VStr "reset-n9"); ("expires", VNum 9000)])].

Definition strayWorld : World :=
  {| users := [carol; nameless]; outbox := [] |}.

End Demo.

Section Controllers.

(** [Date.prototype.toISOString], which [JSON.stringify] prints a date with. *)
Variable toISOString : Z -> string.

(** [JSON.parse(JSON.stringify(v))]: [None] when [JSON.stringify] gives
    [undefined].  Inside an array such an element is printed as [null]. *)
Fixpoint jsonValue (v : value) : option value :=
  match v with
  | VUndef => None
  | VNull => Some VNull
  | VBool b => Some (VBool b)
  | VNum n => Some (VNum n)
  | VStr s => Some (VStr s)
  | VDate ms => Some (VStr (toISOString ms))
  | VArr xs => Some (VArr (map (fun x => orNull (jsonValue x)) xs))
  | VObj ps => Some (VObj (copyProps jsonValue ps))
  end.

Definition jsonCopy (o : obj) : obj := copyProps jsonValue o.

(** A value that is its own JSON copy: no [undefined], no date, no key
    bound twice. *)
Fixpoint plain (v : value) : bool :=
  match v with
  | VUndef | VDate _ => false
  | VNull | VBool _ | VNum _ | VStr _ => true
  | VArr xs => forallb plain xs
  | VObj ps =>
      (fix go (ps : obj) : bool :=
         match ps with
         | [] => true
         | (k, v) :: r => plain v && negb (has_key k r) && go r
         end) ps
  end.

(** [Date.prototype.toString], the text of a date in a string concatenation. *)
Variable dateToString : Z -> string.

(** ToString, as [+] applies it to an operand of a string. *)
Fixpoint toStr (v : value) : string :=
  match v with
  | VUndef => "undefined"
  | VNull => "null"
  | VBool true => "true"
  | VBool false => "false"
  | VNum n => Z_to_string n
  | VStr s => s
  | VDate ms => dateToString ms
  | VArr xs =>
      String.concat "," (map (fun x => if nullish x then "" else toStr x) xs)
  | VObj _ => "[object Object]"
  end.

(** ToNumber, as [-] and [>] apply it; [None] is NaN. *)
Definition toNumber (v : value) : option Z :=
  match v with
  | VUndef => None
  | VNull => Some 0
  | VBool b => Some (if b then 1 else 0)
  | VNum n => Some n
  | VStr s => stringToNumber s
  | VDate ms => Some ms
  | VArr _ => stringToNumber (toStr v)
  | VObj _ => None
  end.

(** [a > v] for a number [a]: false when [v] is NaN. *)
Definition gt (a : Z) (v : value) : bool :=
  match toNumber v with
  | Some n => a >? n
  | None => false
  end.

(* ------------------------------------------------------------------ *)
(** ** The user collection *)

(** [Users.findOne(filter)]: the first document the filter selects. *)
Definition findOne (sel : obj -> bool) (db : list obj) : option obj :=
  List.find sel db.

(** [Users.find(filter)]. *)
Definition find (sel : obj -> bool) (db : list obj) : list obj :=
  List.filter sel db.

(** [Users.update(filter, change, {multi: true})]. *)
Definition updateMany (sel : obj -> bool) (change : obj -> obj)
    (db : list obj) : list obj :=
  map (fun d => if sel d then change d else d) db.

(** The stored documents with the identifier [id] give way to [doc]. *)
Definition replaceById (id : value) (doc : obj) (db : list obj) : list obj :=
  updateMany (fun d => value_eqb (lookup "_id" d) id) (fun _ => doc) db.

(** The place of a value in the order a Mongo sort compares types with:
    missing and null first, then numbers, strings, objects, arrays,
    booleans, dates. *)
Definition bsonRank (v : value) : Z :=
  match v with
  | VUndef | VNull => 1
  | VNum _ => 2
  | VStr _ => 3
  | VObj _ => 4
  | VArr _ => 5
  | VBool _ => 8
  | VDate _ => 9
  end.

(** Ascending sort order on a field: by type, then numbers by size,
    strings by their bytes, false before true, dates by time.  Two objects
    or two arrays are left in the order they have. *)
Definition sortLe (a b : value) : bool :=
  match a, b with
  | VNum x, VNum y => x <=? y
  | VStr x, VStr y => String.leb x y
  | VBool x, VBool y => implb x y
  | VDate x, VDate y => x <=? y
  | _, _ => bsonRank a <=? bsonRank b
  end.

(** The order [.sort(field)] arranges documents in. *)
Definition ascending (field : string) (a b : obj) : Prop :=
  sortLe (lookup field a) (lookup field b) = true.

Fixpoint insertBy (le : obj -> obj -> bool) (d : obj) (l : list obj) : list obj :=
  match l with
  | [] => [d]
  | e :: r => if le d e then d :: l else e :: insertBy le d r
  end.

(** [.sort(field)]: ascending, documents that compare equal keep their
    natural order. *)
Definition sortBy (field : string) (l : list obj) : list obj :=
  fold_right
    (insertBy (fun a b => sortLe (lookup field a) (lookup field b))) [] l.

(** [.skip(n).limit(m)]. *)
Definition skipLimit (n m : Z) (l : list obj) : list obj :=
  firstn (Z.to_nat m) (skipn (Z.to_nat n) l).

(* ------------------------------------------------------------------ *)
(** ** user.crud.controller: private functions *)

Definition ADMIN_ROLE_NAME : string := "admin".
Definition pageLimit : Z := 25.

(** [user._id === id], with identifiers in their string form. *)
Definition isSelf (user : obj) (id : string) : bool :=
  if is_str (lookup "_id" user) id then true else false.

(** [user.subroles.includes(ADMIN_ROLE_NAME)]: membership in an array,
    containment in a string; any other [subroles] has no [includes] and the
    call throws ([None]).  The action is not looked at. *)
Definition isAuthorized (user : obj) (action : string) : option bool :=
  match lookup "subroles" user with
  | VArr xs => Some (existsb (fun x => is_str x ADMIN_ROLE_NAME) xs)
  | VStr s => Some (str_includes s ADMIN_ROLE_NAME)
  | _ => None
  end.

Definition sanitizeUser (user : obj) : obj :=
  let sanitized := jsonCopy user in
  let sanitized := assign "password" VUndef sanitized in
  let sanitized :=
    if truthy (lookup "verification" sanitized)
    then assign "verification"
           (setMember (lookup "verification" sanitized) "token" VUndef)
           sanitized
    else sanitized in
  let sanitized :=
    if truthy (lookup "resetPassword" sanitized)
    then assign "resetPassword"
           (setMember (lookup "resetPassword" sanitized) "token" VUndef)
           sanitized
    else sanitized in
  sanitized.

(** The shape the two conditional assignments of [sanitizeUser] share:
    [if (o[parent]) { o[parent].token = undefined; }]. *)
Definition dropToken (parent : string) (o : obj) : obj :=
  if truthy (lookup parent o)
  then assign parent (setMember (lookup parent o) "token" VUndef) o
  else o.

(* ------------------------------------------------------------------ *)
(** ** user.crud.controller: handlers *)

(** [req.params.userId || null]: an empty parameter counts as missing. *)
Definition orNullId (userId : option string) : option string :=
  match userId with
  | Some s => if (s =? "")%string then None else Some s
  | None => None
  end.

(** [Users.findOne({ _id: id })], the target of a read. *)
Definition target (db : list obj) (id : string) : option obj :=
  findOne (fun d => queryEq (lookup "_id" d) (VStr id)) db.

(** The promise [read] builds before its [.then]: the authorization gate
    and the lookup. *)
Definition readGate (db : list obj) (user : obj) (id : option string)
    : Promise (option obj) :=
  match id with
  | None => Rejected (Error "Malformed request")
  | Some id =>
      let lookupTarget := Resolved (target db id) in
      if isSelf user id then lookupTarget
      else match isAuthorized user "read" with
           | None => Rejected TypeError
           | Some true => lookupTarget
           | Some false => Rejected (Error "Forbidden")
           end
  end.

Definition read (db : list obj) (user : obj) (userId : option string)
    : Response :=
  let id := orNullId userId in
  catch_
    (then_ (readGate db user id) (fun foundUser =>
       match foundUser with
       | Some _ => Resolved (send 200 (VObj (sanitizeUser user)))
       | None => Rejected (Error "Not found")
       end))
    (fun error =>
       if is_str (lookup "message" error) "Malformed request"
       then send 400 (VObj [("error", lookup "message" error)])
       else if is_str (lookup "message" error) "Forbidden"
       then send 403 VUndef
       else if is_str (lookup "message" error) "Not found"
       then send 404 VUndef
       else send 500 VUndef).

(** The username filter of a search: [new RegExp(source, 'i')] applied by
    the store to a username; [None] when the source is no regular
    expression and the constructor throws. *)
Variable usernameRegExp : string -> option (value -> bool).

(** [list]; the query parameters are strings when present.  [None]: the
    exception of the RegExp constructor leaves the handler, no response is
    sent by it.  A skip that is not a whole number or is negative is
    refused by the store, and the promise is rejected. *)
Definition list_ (db : list obj) (queryPage querySearch : option string)
    : option Response :=
  let page :=
    match queryPage with
    | Some s => if (s =? "")%string then VNum 1 else VStr s
    | None => VNum 1
    end in
  let search :=
    match querySearch with
    | Some s => s
    | None => ""
    end in
  let skip := option_map (fun n => (n - 1) * pageLimit) (toNumber page) in
  let queryObj : option (obj -> bool) :=
    if (search =? "")%string then Some (fun _ => true)
    else option_map (fun re d => re (lookup "username" d))
           (usernameRegExp ("[a-z]*" ++ search ++ "+?")) in
  match queryObj with
  | None => None
  | Some sel =>
      let exec : Promise (list obj) :=
        match skip with
        | Some n =>
            if n <? 0 then Rejected (Error "skip")
            else Resolved
                   (skipLimit n pageLimit (sortBy "username" (find sel db)))
        | None => Rejected (Error "skip")
        end in
      Some (catch_
              (then_ exec (fun foundUsers =>
                 Resolved
                   (send 200
                      (VArr (map (fun u => VObj (sanitizeUser u)) foundUsers)))))
              (fun error => send 500 VUndef))
  end.

(** [flushSubroles]: the bulk update it starts, once the store has run it. *)
Definition flushSubroles (parentRole : string) (subroles : list string)
    (db : list obj) : list obj :=
  updateMany (fun d => queryEq (lookup "role" d) (VStr parentRole))
             (assign "subroles" (VArr (map VStr subroles))) db.

(* ------------------------------------------------------------------ *)
(** ** user-auth.controller *)

Variable config : Config.
Variable shared : Shared.

(** [Object.keys(Users.schema.obj)] and [new Users()]. *)
Variable schemaFields : list string.
Variable newUsers : obj.

(** [newUser.save()] of a document that is not in the collection yet: the
    verdict of the store, which validates it and checks the unique indexes
    against the collection.  Resolved, the saved document joins the
    collection; rejected, the collection stays as it is. *)
Variable saveNew : list obj -> obj -> Promise obj.

Variable md5 : string -> string.

(** [doc.save()] on a document read from the collection and changed by a
    request: the verdict of the store, which validates the document and
    checks the unique indexes.  Resolved, the saved document takes the
    place of the stored one; rejected, the collection stays as it is. *)
Variable saveChanged : list obj -> obj -> Promise obj.

Definition mapUser (now : Z) (body : obj) : obj :=
  let user :=
    fold_left
      (fun user realIndex =>
         if truthy (lookup realIndex body)
         then assign realIndex (lookup realIndex body) user
         else user)
      schemaFields newUsers in
  let user := assign "updated" (VDate now) user in
  let user := assign "created" (VDate now) user in
  user.

Definition isStrongPassword (password : value) : bool :=
  passwordStrengthRe config password.

(** [None]: [email.toLowerCase] is not a function, or [email] is undefined. *)
Definition generateProfileImageURL (email : value) : option string :=
  match email with
  | VStr e =>
      let hash := md5 (toLowerCase e) in
      Some ("https://gravatar.com/avatar/" ++ hash ++ "?d=identicon")
  | _ => None
  end.

(** The parameters [sendEmailVerificationEmail] hands to the mailer;
    [None] when [user.verification] cannot be read from. *)
Definition emailVerificationEmail (user : obj) : option obj :=
  match member (lookup "verification" user) "token" with
  | None => None
  | Some token =>
      let url := generateUrl shared ++ "/verifyEmail;token=" ++ toStr token in
      Some [("from", emailFrom config);
            ("to", lookup "email" user);
            ("text", VStr ("Verify your email by going here: " ++ url));
            ("subject", VStr "Verification Email")]
  end.

(** The parameters [sendPasswordChangeEmail] hands to the mailer. *)
Definition passwordChangeEmail (user : obj) : option obj :=
  match member (lookup "verification" user) "token" with
  | None => None
  | Some token =>
      let url := generateUrl shared ++ "/reset-password;token=" ++ toStr token in
      Some [("from", emailFrom config);
            ("to", lookup "email" user);
            ("text", VStr ("Change your password by going here: " ++ url));
            ("subject", VStr "Change Password")]
  end.

(** Sending a mail: the parameters reach the mailer, whose promise is the
    result; a TypeError while building them reaches nobody. *)
Definition deliver (mail : option obj) (w : World) : Promise value * World :=
  match mail with
  | None => (Rejected TypeError, w)
  | Some m =>
      (sendMail shared m, {| users := users w; outbox := outbox w ++ [m] |})
  end.

Definition sendEmailVerificationEmail (user : obj) (w : World)
    : Promise value * World :=
  deliver (emailVerificationEmail user) w.

Definition sendPasswordChangeEmail (user : obj) (w : World)
    : Promise value * World :=
  deliver (passwordChangeEmail user) w.

(** The [catch] block around [newUser.save()] in [register]; [None] when
    the block itself throws ([errmsg] is not a string).  [error.toJSON()]
    is the error with the fields the driver gave it. *)
Definition registerSaveFailed (error : obj) : option Response :=
  if value_eqb (lookup "code" error) (VNum 11000) then
    let errObj := error in
    match lookup "errmsg" errObj with
    | VStr errmsg =>
        let errmsgList := split " " errmsg in
        let index := at_index errmsgList (indexOf "index:" errmsgList + 1) in
        if is_str index "username_1"
        then Some (send 400 (VObj [("error", VStr "Username is taken")]))
        else Some (send 500 VUndef)
    | _ => None
    end
  else Some (send 500 VUndef).

(** [register]: [now] is the clock, [token] the value
    [generateUniqueToken()] returns.  No response ([None]) is sent when the
    async function throws outside its [try] blocks. *)
Definition register (now : Z) (token : string) (body : obj) (w : World)
    : option Response * World :=
  let newUser := mapUser now body in
  match generateProfileImageURL (lookup "email" newUser) with
  | None => (None, w)
  | Some url =>
      let newUser := assign "profileImageURL" (VStr url) newUser in
      let newUser := assign "role" (defaultUserRole config) newUser in
      if negb (allowRegistration config) then (Some (send 500 VUndef), w)
      else if negb (isStrongPassword (lookup "password" newUser)) then
        (Some (send 400
                 (VObj [("error",
                         VStr ("Invalid password: "
                               ++ invalidPasswordMessage config))])), w)
      else
        match hashPassword shared (lookup "password" newUser) with
        | Rejected _ => (None, w)
        | Resolved hash =>
            let newUser := assign "password" hash newUser in
            let newUser :=
              assign "verification"
                (VObj [("token", VStr token);
                       ("expires", VNum (now + emailVerificationTTL config))])
                newUser in
            match saveNew (users w) newUser with
            | Rejected error => (registerSaveFailed error, w)
            | Resolved savedUser =>
                let w :=
                  {| users := users w ++ [savedUser]; outbox := outbox w |} in
                if requireEmailVerification config then
                  match sendEmailVerificationEmail newUser w with
                  | (Resolved _, w) =>
                      (Some (send 201 (VObj [("user", VObj savedUser)])), w)
                  | (Rejected _, w) =>
                      (Some (send 201
                               (VObj [("user", VObj savedUser);
                                      ("message",
                                       VStr "Verification email not sent")])),
                       w)
                  end
                else (Some (send 201 (VObj [("user", VObj savedUser)])), w)
            end
        end
  end.

(** The document [register] hands to [save]: the mapped user with its
    avatar, the default role, the hashed password and a fresh verification. *)
Definition registrant (now : Z) (token : string) (body : obj)
    (url : string) (hash : value) : obj :=
  assign "verification"
    (VObj [("token", VStr token);
           ("expires", VNum (now + emailVerificationTTL config))])
    (assign "password" hash
       (assign "role" (defaultUserRole config)
          (assign "profileImageURL" (VStr url) (mapUser now body)))).

(** The [.catch] of [verifyEmail]. *)
Definition verifyEmailFailed (error : obj) : Response :=
  if is_str (lookup "message" error) "Token has expired"
  then send 400 (VObj [("message", VStr "Token has expired")])
  else if is_str (lookup "message" error) "Token invalid"
  then send 400 (VObj [("message", VStr "Token invalid")])
  else send 500 VUndef.

(** [verifyEmail], for a request that carries the [token] parameter. *)
Definition verifyEmail (now : Z) (token : string) (w : World)
    : Response * World :=
  match
    findOne (fun d => queryEq (path2 d "verification" "token") (VStr token))
            (users w)
  with
  | None => (verifyEmailFailed (Error "Token invalid"), w)
  | Some user =>
      match member (lookup "verification" user) "expires" with
      | None => (verifyEmailFailed TypeError, w)
      | Some expires =>
          if gt now expires
          then (verifyEmailFailed (Error "Token has expired"), w)
          else
            let user :=
              assign "verification"
                (setMember (lookup "verification" user) "expires" VUndef)
                user in
            let user := assign "verified" (VBool true) user in
            match saveChanged (users w) user with
            | Resolved savedUser =>
                (send 204 VUndef,
                 {| users := replaceById (lookup "_id" user) savedUser (users w);
                    outbox := outbox w |})
            | Rejected error => (verifyEmailFailed error, w)
            end
      end
  end.

(** The [.catch] of [requestChangePasswordEmail]. *)
Definition requestChangePasswordEmailFailed (error : obj) : Response :=
  if is_str (lookup "message" error) "Missing email"
  then send 400 (VObj [("error", VStr "Missing email")])
  else if is_str (lookup "message" error) "Email not found"
  then send 400 (VObj [("error", VStr "Email not found")])
  else send 500 VUndef.

(** [requestChangePasswordEmail]: [email] is [req.query.email], [token] the
    value [generateUniqueToken()] returns. *)
Definition requestChangePasswordEmail (now : Z) (token : string)
    (email : option string) (w : World) : Response * World :=
  match email with
  | None => (requestChangePasswordEmailFailed (Error "Missing email"), w)
  | Some email =>
      if negb (truthy (VStr email))
      then (requestChangePasswordEmailFailed (Error "Missing email"), w)
      else
        match find (fun d => queryEq (lookup "email" d) (VStr email)) (users w)
        with
        | [user] =>
            let user :=
              assign "resetPassword"
                (VObj [("token", VStr token);
                       ("expires", VNum (now + emailVerificationTTL config))])
                user in
            match saveChanged (users w) user with
            | Rejected error => (requestChangePasswordEmailFailed error, w)
            | Resolved savedUser =>
                let w :=
                  {| users :=
                       replaceById (lookup "_id" user) savedUser (users w);
                     outbox := outbox w |} in
                match sendPasswordChangeEmail savedUser w with
                | (Resolved _, w) => (send 204 VUndef, w)
                | (Rejected error, w) =>
                    (requestChangePasswordEmailFailed error, w)
                end
            end
        | _ => (requestChangePasswordEmailFailed (Error "Email not found"), w)
        end
  end.

(** The [.catch] of [resetPassword]. *)
Definition resetPasswordFailed (error : obj) : Response :=
  if is_str (lookup "message" error) "Missing token"
  then send 400 (VObj [("error", VStr "Missing token")])
  else if is_str (lookup "message" error) "Missing password"
  then send 400 (VObj [("error", VStr "Missing password")])
  else if is_str (lookup "message" error) "Token invalid"
  then send 400 (VObj [("error", VStr "Token invalid")])
  else if is_str (lookup "message" error) "Password invalid"
  then send 400 (VObj [("error", VStr "Password invalid")])
  else if is_str (lookup "message" error) "Token has expired"
  then send 400 (VObj [("error", VStr "Token has expired")])
  else send 500 VUndef.

(** The first promise of [resetPassword]: the checks on the body and the
    query by token. *)
Definition resetPasswordQuery (body : obj) (db : list obj)
    : Promise (list obj) :=
  if negb (truthy (lookup "password" body))
  then Rejected (Error "Missing password")
  else if negb (truthy (lookup "token" body))
  then Rejected (Error "Missing token")
  else if isStrongPassword (lookup "password" body)
  then Resolved
         (find (fun d => queryEq (path2 d "resetPassword" "token")
                                 (lookup "token" body)) db)
  else Rejected (Error "Password invalid").

(** The document [resetPassword] saves for [user] once the password is
    hashed. *)
Definition resetUser (hashed : value) (user : obj) : obj :=
  let user := assign "password" hashed user in
  let user := assign "resetPassword" (VObj []) user in
  let user := assign "verified" (VBool true) user in
  user.

Definition resetPassword (now : Z) (body : obj) (w : World)
    : Response * World :=
  let changed : Promise obj :=
    then_ (resetPasswordQuery body (users w)) (fun found =>
      match found with
      | [user] =>
          match member (lookup "resetPassword" user) "expires" with
          | None => Rejected TypeError
          | Some expires =>
              if gt now expires then Rejected (Error "Token has expired")
              else
                then_ (hashPassword shared (lookup "password" body))
                      (fun hashed => Resolved (resetUser hashed user))
          end
      | _ => Rejected (Error "Token invalid")
      end) in
  match changed with
  | Resolved user =>
      match saveChanged (users w) user with
      | Resolved savedUser =>
          (send 204 VUndef,
           {| users := replaceById (lookup "_id" user) savedUser (users w);
              outbox := outbox w |})
      | Rejected error => (resetPasswordFailed error, w)
      end
  | Rejected error => (resetPasswordFailed error, w)
  end.

(* ------------------------------------------------------------------ *)
(** ** The rest of user.crud.controller *)

(** [roleConfig.ADMIN_ROLE_NAME], the admin role of the role module. *)
Variable roleConfigAdmin : string.

(** [Users.update(filter, change)] and [findOneAndUpdate]: the first
    document the filter selects is changed. *)
Fixpoint updateFirst (sel : obj -> bool) (change : obj -> obj)
    (db : list obj) : list obj :=
  match db with
  | [] => []
  | d :: r => if sel d then change d :: r else d :: updateFirst sel change r
  end.

(** [{$set: changes}] on a document: every key of [changes] gets the value
    [changes] has for it. *)
Definition setAll (changes : obj) (doc : obj) : obj :=
  fold_left (fun d kv => assign (fst kv) (lookup (fst kv) changes) d)
            changes doc.

(** [{$pull: {field: q}}] on a document: the elements equal to [q] leave
    the array; a missing field stays missing; [None] when the field holds
    something else and the server refuses the change. *)
Definition pull (field : string) (q : value) (d : obj) : option obj :=
  match lookup field d with
  | VArr xs =>
      Some (assign field
              (VArr (filter (fun x => negb (value_eqb x q)) xs)) d)
  | VUndef => Some d
  | _ => None
  end.

(** A multi-update whose change the server may refuse: it goes through the
    collection in natural order and ends at the first refusal. *)
Fixpoint updateManyOrStop (sel : obj -> bool) (change : obj -> option obj)
    (db : list obj) : list obj :=
  match db with
  | [] => []
  | d :: r =>
      if sel d then
        match change d with
        | Some d' => d' :: updateManyOrStop sel change r
        | None => d :: r
        end
      else d :: updateManyOrStop sel change r
  end.

(** [v !== undefined]. *)
Definition defined (v : value) : bool :=
  match v with VUndef => false | _ => true end.

(** [v != s] negated, for a string [s]: null and undefined equal no
    string, a number or boolean is compared with the number the string
    reads as, an object with its text. *)
Definition looseEqStr (v : value) (s : string) : bool :=
  match v with
  | VUndef | VNull => false
  | VBool b =>
      match stringToNumber s with
      | Some n => n =? (if b then 1 else 0)
      | None => false
      end
  | VNum m =>
      match stringToNumber s with
      | Some n => n =? m
      | None => false
      end
  | VStr t => (t =? s)%string
  | VDate _ | VArr _ | VObj _ => (toStr v =? s)%string
  end.

Definition mapOverUser (updates user : obj) : obj :=
  fold_left
    (fun user realIndex =>
       if defined (lookup realIndex updates)
       then assign realIndex (lookup realIndex updates) user
       else user)
    schemaFields user.

(** The [.catch] of [create]. *)
Definition createFailed (error : obj) : Response :=
  if truthy (lookup "errors" error)
  then send 400 (VObj [("error", lookup "errors" error)])
  else if is_str (lookup "message" error) "Forbidden"
  then send 403 VUndef
  else send 500 VUndef.

(** The promise of [create] before its [.then]: the authorization, the
    mapping of the body and the save. *)
Definition createSave (now : Z) (user body : obj) (db : list obj)
    : Promise obj :=
  match isAuthorized user "create" with
  | None => Rejected TypeError
  | Some true =>
      let newUser := mapUser now body in
      match generateProfileImageURL (lookup "email" newUser) with
      | None => Rejected TypeError
      | Some url =>
          let newUser := assign "profileImageURL" (VStr url) newUser in
          saveNew db newUser
      end
  | Some false => Rejected (Error "Forbidden")
  end.

Definition create (now : Z) (user body : obj) (db : list obj)
    : Response * list obj :=
  match createSave now user body db with
  | Resolved savedUser =>
      (send 201 (VObj (sanitizeUser savedUser)), (db ++ [savedUser])%list)
  | Rejected error => (createFailed error, db)
  end.

(** The document [update] hands to [save] for the stored [foundUser]. *)
Definition updatedUser (now : Z) (updates foundUser : obj) : obj :=
  let foundUser := mapOverUser updates foundUser in
  let foundUser := assign "updated" (VDate now) foundUser in
  foundUser.

(** [update]; the acting user is read from the request and not used. *)
Definition update (now : Z) (user updates : obj) (db : list obj)
    : Response * list obj :=
  if truthy (lookup "_id" updates) then
    match
      findOne (fun d => queryEq (lookup "_id" d) (lookup "_id" updates)) db
    with
    | None => (send 404 VUndef, db)
    | Some foundUser =>
        match saveChanged db (updatedUser now updates foundUser) with
        | Rejected error =>
            (if truthy (lookup "errors" error)
             then send 400 (VObj [("error", lookup "errors" error)])
             else if is_str (lookup "message" error) "Not found"
             then send 404 VUndef
             else send 500 VUndef, db)
        | Resolved savedUser =>
            (send 200 (VObj (sanitizeUser savedUser)),
             replaceById (lookup "_id" foundUser) savedUser db)
        end
    end
  else (send 400 (VObj [("error", VStr "Missing user._id")]), db).

(** The filter [{_id: {$in: userList}}] selects [d]. *)
Definition idIn (userList : list string) (d : obj) : bool :=
  existsb (fun id => queryEq (lookup "_id" d) (VStr id)) userList.

(** [readList]; [userList] is the route parameter and [exec] the promise
    the driver makes of the documents the query selects: resolved with
    them, or rejected when the store fails.  The controller defines no
    [SANITIZED_SELECTION], so the selection is [undefined] and every field
    is read. *)
Definition readList (exec : list obj -> Promise (list obj))
    (userList : string) (db : list obj) : Response :=
  let userList := split "," userList in
  match exec (find (idIn userList) db) with
  | Resolved foundUsers =>
      send 200 (VArr (map (fun u => VObj (sanitizeUser u)) foundUsers))
  | Rejected error => send 500 VUndef
  end.

(** [deleteUser]; [userId] is the route parameter.  The removal takes
    every document with that identifier. *)
Definition deleteUser (user : obj) (userId : string) (db : list obj)
    : Response * list obj :=
  match isAuthorized user "delete" with
  | None => (send 500 VUndef, db)
  | Some true =>
      (send 204 VUndef,
       filter (fun d => negb (queryEq (lookup "_id" d) (VStr userId))) db)
  | Some false => (send 403 VUndef, db)
  end.

(** [adminUpdate]; [roleModule] is [self.roleModule.determineSubroles] once
    [setRoleModule] has run.  No response ([None]) when the async function
    throws outside its [try] blocks. *)
Definition adminUpdate (roleModule : option (value -> Promise value))
    (reqUser body : obj) (db : list obj) : option Response * list obj :=
  if negb (looseEqStr (lookup "role" reqUser) roleConfigAdmin)
  then (Some (send 403 VUndef), db)
  else
    let user := body in
    let withSubroles : Promise obj :=
      if truthy (lookup "role" user) then
        match roleModule with
        | None => Rejected TypeError
        | Some determineSubroles =>
            then_ (determineSubroles (lookup "role" user))
                  (fun subroles => Resolved (assign "subroles" subroles user))
        end
      else Resolved user in
    match withSubroles with
    | Rejected _ => (None, db)
    | Resolved user =>
        let withPassword : Promise obj :=
          if truthy (lookup "password" user) then
            then_ (hashPassword shared (lookup "password" user))
                  (fun hash => Resolved (assign "password" hash user))
          else Resolved user in
        match withPassword with
        | Rejected _ => (Some (send 500 VUndef), db)
        | Resolved user =>
            (Some (send 204 VUndef),
             updateFirst
               (fun d => queryEq (lookup "_id" d) (lookup "_id" body))
               (setAll user) db)
        end
    end.

(** [removeSubroles]: one bulk update per label, each once the store has
    run it. *)
Definition removeSubroles (subroles : list string) (db : list obj)
    : list obj :=
  fold_left
    (fun db s =>
       updateManyOrStop (fun d => queryEq (lookup "subroles" d) (VStr s))
                        (pull "subroles" (VStr s)) db)
    subroles db.

Definition updateUserRoles (userId targetRole : string)
    (subroles : list string) (db : list obj) : list obj :=
  updateFirst (fun d => queryEq (lookup "_id" d) (VStr userId))
    (setAll [("role", VStr targetRole);
             ("subroles", VArr (map VStr subroles))]) db.

Definition readSelf (user : obj) : Response :=
  send 200 (VObj (sanitizeUser user)).

(* ------------------------------------------------------------------ *)
(** ** The rest of user-auth.controller *)

(** [shared.authHelpers.verifyPassword(hash, password)]. *)
Variable verifyPassword : value -> value -> Promise value.

(** [for (var field in error) errors.push(error[field])]: the values of an
    object, the elements of an array, the characters of a string, nothing
    for anything else. *)
Definition extractMongooseErrors (error : value) : list value :=
  match error with
  | VObj ps => map snd ps
  | VArr xs => xs
  | VStr s => map (fun c => VStr (String c EmptyString)) (list_ascii_of_string s)
  | _ => []
  end.

(** [_.filter(errors, (o) => o.name === 'ValidatorError')]; [None] when an
    element is [null] or [undefined] and reading its name throws. *)
Fixpoint validatorErrors (errors : list value) : option (list value) :=
  match errors with
  | [] => Some []
  | o :: r =>
      match member o "name", validatorErrors r with
      | Some name, Some rest =>
          Some (if is_str name "ValidatorError" then o :: rest else rest)
      | _, _ => None
      end
  end.

(** The [.catch] of [changePassword]; [None] when it throws itself. *)
Definition changePasswordFailed (error : obj) : option Response :=
  let errors := extractMongooseErrors (lookup "errors" error) in
  match validatorErrors errors with
  | None => None
  | Some validation =>
      Some
        (if negb (Nat.eqb (List.length validation) 0)
         then send 400 (VObj [("message", lookup "message" error)])
         else if is_str (lookup "message" error) "Invalid password"
         then send 400
                (VObj [("message",
                        VStr ("Invalid password: "
                              ++ invalidPasswordMessage config))])
         else if is_str (lookup "message" error) "Incorrect password"
         then send 400 (VObj [("message", VStr "Incorrect Username/Password")])
         else send 500 VUndef)
  end.

(** The promise of [changePassword] up to the save. *)
Definition changePasswordSave (user body : obj) (db : list obj)
    : Promise obj :=
  let oldPassword := lookup "oldPassword" body in
  let newPassword := lookup "newPassword" body in
  then_ (verifyPassword (lookup "password" user) oldPassword) (fun match_ =>
    if truthy match_ then
      if negb (isStrongPassword newPassword)
      then Rejected (Error "Invalid password")
      else then_ (hashPassword shared newPassword) (fun hash =>
             saveChanged db (assign "password" hash user))
    else Rejected (Error "Incorrect password")).

Definition changePassword (user body : obj) (w : World)
    : option Response * World :=
  match changePasswordSave user body (users w) with
  | Resolved savedUser =>
      (Some (send 200 (VObj savedUser)),
       {| users := replaceById (lookup "_id" user) savedUser (users w);
          outbox := outbox w |})
  | Rejected error => (changePasswordFailed error, w)
  end.

(** [requestVerifcationEmail]: [user] is the acting user, [token] the
    value [generateUniqueToken()] returns.  [None]: the assignment to
    [user.verification.token] throws before any promise is made. *)
Definition requestVerifcationEmail (now : Z) (token : string) (user : obj)
    (w : World) : option Response * World :=
  match member (lookup "verification" user) "token" with
  | None => (None, w)
  | Some _ =>
      let verification :=
        setMember (lookup "verification" user) "token" (VStr token) in
      let verification :=
        setMember verification "expires"
          (VNum (now + emailVerificationTTL config)) in
      let user := assign "verification" verification user in
      match saveChanged (users w) user with
      | Rejected _ => (Some (send 500 VUndef), w)
      | Resolved savedUser =>
          let w :=
            {| users := replaceById (lookup "_id" user) savedUser (users w);
               outbox := outbox w |} in
          match sendEmailVerificationEmail savedUser w with
          | (Resolved _, w) => (Some (send 204 VUndef), w)
          | (Rejected _, w) => (Some (send 500 VUndef), w)
          end
      end
  end.

(** The filter [{_id: id}] selects [d]; on a string identifier, [d._id] is
    [id]. *)
Definition hasId (id : string) (d : obj) : Prop :=
  queryEq (lookup "_id" d) (VStr id) = true.

(** [l'] is [l] with some documents taken out, the others in the order
    they have in [l]. *)
Inductive keptIn : list obj -> list obj -> Prop :=
| kept_nil : keptIn [] []
| kept_cons d l' l : keptIn l' l -> keptIn (d :: l') (d :: l)
| kept_skip d l' l : keptIn l' l -> keptIn l' (d :: l).

(** A record that shows no secret: the password and the two tokens read
    [undefined]. *)
Definition noSecrets (o : obj) : Prop :=
  lookup "password" o = VUndef
  /\ path2 o "verification" "token" = VUndef
  /\ path2 o "resetPassword" "token" = VUndef.

(** What is left of a list of subroles once the [labels] are pulled. *)
Definition withoutLabels (labels : list string) (xs : list value)
    : list value :=
  filter (fun x => negb (existsb (fun s => value_eqb x (VStr s)) labels)) xs.

(** A user once [removeSubroles labels] has gone over the collection. *)
Definition pulled (labels : list string) (d : obj) : obj :=
  match lookup "subroles" d with
  | VArr xs => assign "subroles" (VArr (withoutLabels labels xs)) d
  | _ => d
  end.

(** The document [verifyEmail] saves for [user]. *)
Definition verifiedUser (user : obj) : obj :=
  let user :=
    assign "verification"
      (setMember (lookup "verification" user) "expires" VUndef) user in
  let user := assign "verified" (VBool true) user in
  user.

(** The filter [{'verification.token': token}] selects [d]. *)
Definition hasVerificationToken (token : string) (d : obj) : bool :=
  queryEq (path2 d "verification" "token") (VStr token).

(** The filter [{'resetPassword.token': token}] selects [d]. *)
Definition hasResetToken (token : value) (d : obj) : bool :=
  queryEq (path2 d "resetPassword" "token") token.

(* ================================================================== *)
(** * Properties *)

(** Induction on a value, with the hypothesis for every element of an
    array and every property of an object. *)
Lemma value_ind (P : value -> Prop)
    (Hundef : P VUndef) (Hnull : P VNull)
    (Hbool : forall b, P (VBool b)) (Hnum : forall n, P (VNum n))
    (Hstr : forall s, P (VStr s)) (Hdate : forall ms, P (VDate ms))
    (Harr : forall xs, Forall P xs -> P (VArr xs))
    (Hobj : forall ps, Forall (fun kv => P (snd kv)) ps -> P (VObj ps)) :
  forall v, P v.
Proof.
  fix IH 1.
  intros [ | | b | n | s | ms | xs | ps];
    [ exact Hundef | exact Hnull | apply Hbool | apply Hnum | apply Hstr
    | apply Hdate | | ].
  - apply Harr. revert xs. fix IHxs 1.
    intros [|x xs]; constructor; [apply IH | apply IHxs].
  - apply Hobj. revert ps. fix IHps 1.
    intros [|[k v] ps]; constructor; [apply IH | apply IHps].
Qed.

(** ** Objects *)

Lemma lookup_assign_eq k v o : lookup k (assign k v o) = v.
Proof.
  induction o as [|[k' v'] r IH]; simpl.
  - now rewrite String.eqb_refl.
  - destruct (k =? k')%string eqn:E; simpl; rewrite E; auto.
Qed.

Lemma lookup_assign_neq k k' v o :
  k <> k' -> lookup k (assign k' v o) = lookup k o.
Proof.
  intros Hk. induction o as [|[k0 v0] r IH]; simpl.
  - apply String.eqb_neq in Hk. now rewrite Hk.
  - destruct (k' =? k0)%string eqn:E; simpl.
    + apply String.eqb_eq in E. subst k0.
      apply String.eqb_neq in Hk. now rewrite Hk.
    + now rewrite IH.
Qed.

Lemma lookup_remove_key_eq k o : lookup k (remove_key k o) = VUndef.
Proof.
  induction o as [|[k' v'] r IH]; simpl; auto.
  destruct (k =? k')%string eqn:E; simpl; auto. now rewrite E.
Qed.

Lemma has_key_remove_key_eq k o : has_key k (remove_key k o) = false.
Proof.
  induction o as [|[k' v'] r IH]; simpl; auto.
  destruct (k =? k')%string eqn:E; simpl; auto. now rewrite E.
Qed.

Lemma lookup_remove_key_neq k k' o :
  k <> k' -> lookup k (remove_key k' o) = lookup k o.
Proof.
  intros Hk. induction o as [|[k0 v0] r IH]; simpl; auto.
  destruct (k' =? k0)%string eqn:E; simpl.
  - apply String.eqb_eq in E. subst k0.
    apply String.eqb_neq in Hk. now rewrite Hk.
  - now rewrite IH.
Qed.

Lemma has_key_remove_key_neq k k' o :
  k <> k' -> has_key k (remove_key k' o) = has_key k o.
Proof.
  intros Hk. induction o as [|[k0 v0] r IH]; simpl; auto.
  destruct (k' =? k0)%string eqn:E; simpl.
  - apply String.eqb_eq in E. subst k0.
    apply String.eqb_neq in Hk. now rewrite Hk.
  - now rewrite IH.
Qed.

Lemma remove_key_absent k o : has_key k o = false -> remove_key k o = o.
Proof.
  induction o as [|[k' v'] r IH]; simpl; auto.
  destruct (k =? k')%string; [discriminate|]. intros H. now rewrite IH.
Qed.

Lemma has_key_false_lookup k o : has_key k o = false -> lookup k o = VUndef.
Proof.
  induction o as [|[k' v'] r IH]; simpl; auto.
  destruct (k =? k')%string; [discriminate | auto].
Qed.

(** ** The JSON copy *)

(** Reading a property of the copy is copying the property read. *)
Lemma lookup_jsonCopy k o :
  lookup k (jsonCopy o) = orUndef (jsonValue (lookup k o)).
Proof.
  unfold jsonCopy.
  induction o as [|[k' v] r IH]; simpl; auto.
  destruct (k =? k')%string eqn:E.
  - apply String.eqb_eq in E. subst k'.
    destruct (jsonValue v); simpl.
    + now rewrite String.eqb_refl.
    + apply lookup_remove_key_eq.
  - assert (Hk : k <> k') by now apply String.eqb_neq.
    destruct (jsonValue v); simpl; [rewrite E|];
      rewrite lookup_remove_key_neq; auto.
Qed.

(** The copy owns a property exactly when its value has a JSON text. *)
Lemma has_key_jsonCopy k o :
  has_key k (jsonCopy o)
  = match jsonValue (lookup k o) with Some _ => true | None => false end.
Proof.
  unfold jsonCopy.
  induction o as [|[k' v] r IH]; simpl; auto.
  destruct (k =? k')%string eqn:E.
  - apply String.eqb_eq in E. subst k'.
    destruct (jsonValue v); simpl.
    + now rewrite String.eqb_refl.
    + apply has_key_remove_key_eq.
  - assert (Hk : k <> k') by now apply String.eqb_neq.
    destruct (jsonValue v); simpl; [rewrite E|];
      rewrite has_key_remove_key_neq; auto.
Qed.

Lemma jsonValue_never_undef v : orUndef (jsonValue v) = VUndef -> v = VUndef.
Proof. destruct v; simpl; auto; discriminate. Qed.

(** A plain value is its own copy. *)
Lemma plain_jsonValue v : plain v = true -> jsonValue v = Some v.
Proof.
  induction v as [ | | b | n | s | ms | xs IH | ps IH] using value_ind;
    simpl; try discriminate; auto.
  - intros Hp. do 2 f_equal.
    induction IH as [|x xs Hx _ IHxs]; simpl in *; auto.
    apply andb_prop in Hp as [Hp1 Hp2].
    rewrite (Hx Hp1), (IHxs Hp2). reflexivity.
  - intros Hp. do 2 f_equal.
    induction IH as [|[k v] r Hv _ IHr]; simpl in *; auto.
    apply andb_prop in Hp as [Hp Hr]. apply andb_prop in Hp as [Hp Hk].
    rewrite (Hv Hp), (IHr Hr).
    rewrite remove_key_absent; auto.
    now destruct (has_key k r).
Qed.

Lemma plain_orUndef v : plain v = true -> orUndef (jsonValue v) = v.
Proof. intros H. now rewrite plain_jsonValue. Qed.

(** ** sanitizeUser *)

Lemma sanitizeUser_unfold u :
  sanitizeUser u
  = dropToken "resetPassword"
      (dropToken "verification" (assign "password" VUndef (jsonCopy u))).
Proof. reflexivity. Qed.

Lemma dropToken_lookup_other parent k o :
  k <> parent -> lookup k (dropToken parent o) = lookup k o.
Proof.
  intros Hk. unfold dropToken.
  destruct (truthy (lookup parent o)); auto.
  now apply lookup_assign_neq.
Qed.

Lemma dropToken_path2_other parent parent' k o :
  parent' <> parent ->
  path2 (dropToken parent o) parent' k = path2 o parent' k.
Proof.
  intros Hk. unfold path2. now rewrite dropToken_lookup_other.
Qed.

Lemma dropToken_token parent o :
  path2 (dropToken parent o) parent "token" = VUndef.
Proof.
  unfold dropToken, path2.
  destruct (lookup parent o) as [ | | b | n | s | ms | xs | ps] eqn:E; simpl;
    try (rewrite E; reflexivity).
  - destruct b; [rewrite lookup_assign_eq | rewrite E]; reflexivity.
  - destruct (negb (n =? 0)); [rewrite lookup_assign_eq | rewrite E];
      reflexivity.
  - destruct (negb (s =? "")%string); [rewrite lookup_assign_eq | rewrite E];
      reflexivity.
  - now rewrite lookup_assign_eq.
  - now rewrite lookup_assign_eq.
  - rewrite lookup_assign_eq. apply lookup_assign_eq.
Qed.

Lemma dropToken_sibling parent k o :
  k <> "token" -> path2 (dropToken parent o) parent k = path2 o parent k.
Proof.
  intros Hk. unfold dropToken, path2.
  destruct (truthy (lookup parent o)) eqn:T; auto.
  rewrite lookup_assign_eq.
  destruct (lookup parent o); simpl; auto.
  now apply lookup_assign_neq.
Qed.

Lemma dropToken_not_object parent o :
  (forall p, lookup parent o <> VObj p) ->
  lookup parent (dropToken parent o) = lookup parent o.
Proof.
  intros Hn. unfold dropToken.
  destruct (truthy (lookup parent o)); auto.
  rewrite lookup_assign_eq.
  destruct (lookup parent o) eqn:E; simpl; auto.
  now destruct (Hn props).
Qed.

Lemma path2_jsonCopy o a b :
  path2 (jsonCopy o) a b = orUndef (jsonValue (path2 o a b)).
Proof.
  unfold path2. rewrite lookup_jsonCopy.
  destruct (lookup a o); simpl; auto.
  apply (lookup_jsonCopy b props).
Qed.

Lemma has_path2_jsonCopy o a b :
  path2 o a b = VUndef -> has_path2 (jsonCopy o) a b = false.
Proof.
  unfold path2, has_path2. rewrite lookup_jsonCopy.
  destruct (lookup a o); simpl; auto.
  intros H. fold (jsonCopy props). rewrite has_key_jsonCopy. now rewrite H.
Qed.

Lemma plain_lookup k ps :
  plain (VObj ps) = true -> orUndef (jsonValue (lookup k ps)) = lookup k ps.
Proof.
  induction ps as [|[k' v] r IH]; simpl; auto.
  intros Hp. apply andb_prop in Hp as [Hp Hr]. apply andb_prop in Hp as [Hv _].
  destruct (k =? k')%string; [now apply plain_orUndef | now apply IH].
Qed.

Lemma plain_path2 o a b :
  plain (lookup a o) = true ->
  orUndef (jsonValue (path2 o a b)) = path2 o a b.
Proof.
  unfold path2. destruct (lookup a o); simpl; auto.
  apply (plain_lookup b props).
Qed.

(** C1.  The copy [sanitizeUser] returns reads [undefined] for [password],
    [verification.token] and [resetPassword.token], whatever the user held
    there, and the JSON text sent for it has no such property; every other
    field, and every other property of [verification] and [resetPassword],
    is the JSON copy of the user's, which for plain data is the value
    itself. *)
Theorem sanitizeUser_strips_secrets_keeps_rest (u : obj) :
  let s := sanitizeUser u in
  (lookup "password" s = VUndef
   /\ path2 s "verification" "token" = VUndef
   /\ path2 s "resetPassword" "token" = VUndef)
  /\ (has_key "password" (jsonCopy s) = false
      /\ has_path2 (jsonCopy s) "verification" "token" = false
      /\ has_path2 (jsonCopy s) "resetPassword" "token" = false)
  /\ (forall k,
        k <> "password" -> k <> "verification" -> k <> "resetPassword" ->
        lookup k s = orUndef (jsonValue (lookup k u))
        /\ (plain (lookup k u) = true -> lookup k s = lookup k u))
  /\ (forall parent k,
        parent = "verification" \/ parent = "resetPassword" ->
        k <> "token" ->
        path2 s parent k = orUndef (jsonValue (path2 u parent k))
        /\ (plain (lookup parent u) = true ->
            path2 s parent k = path2 u parent k)
        /\ ((forall p, lookup parent u <> VObj p) ->
            lookup parent s = orUndef (jsonValue (lookup parent u)))).
Proof.
  intros s. subst s. rewrite sanitizeUser_unfold.
  set (s1 := assign "password" VUndef (jsonCopy u)).
  assert (Hpw : lookup "password"
                  (dropToken "resetPassword" (dropToken "verification" s1))
                = VUndef).
  { rewrite !dropToken_lookup_other by discriminate.
    apply lookup_assign_eq. }
  assert (Hv : path2 (dropToken "resetPassword" (dropToken "verification" s1))
                 "verification" "token" = VUndef).
  { rewrite dropToken_path2_other by discriminate. apply dropToken_token. }
  assert (Hr : path2 (dropToken "resetPassword" (dropToken "verification" s1))
                 "resetPassword" "token" = VUndef) by apply dropToken_token.
  repeat split; auto.
  - rewrite has_key_jsonCopy. now rewrite Hpw.
  - now apply has_path2_jsonCopy.
  - now apply has_path2_jsonCopy.
  - rewrite !dropToken_lookup_other by auto.
    unfold s1. rewrite lookup_assign_neq by auto. apply lookup_jsonCopy.
  - intros Hp.
    rewrite !dropToken_lookup_other by auto.
    unfold s1. rewrite lookup_assign_neq by auto.
    rewrite lookup_jsonCopy. now apply plain_orUndef.
  - destruct H as [-> | ->].
    + rewrite dropToken_path2_other by discriminate.
      rewrite dropToken_sibling by auto.
      unfold s1, path2 at 1. rewrite lookup_assign_neq by discriminate.
      apply path2_jsonCopy.
    + rewrite dropToken_sibling by auto.
      rewrite dropToken_path2_other by discriminate.
      unfold s1, path2 at 1. rewrite lookup_assign_neq by discriminate.
      apply path2_jsonCopy.
  - intros Hp. destruct H as [-> | ->].
    + rewrite dropToken_path2_other by discriminate.
      rewrite dropToken_sibling by auto.
      unfold s1, path2 at 1. rewrite lookup_assign_neq by discriminate.
      fold (path2 (jsonCopy u) "verification" k).
      rewrite path2_jsonCopy. now apply plain_path2.
    + rewrite dropToken_sibling by auto.
      rewrite dropToken_path2_other by discriminate.
      unfold s1, path2 at 1. rewrite lookup_assign_neq by discriminate.
      fold (path2 (jsonCopy u) "resetPassword" k).
      rewrite path2_jsonCopy. now apply plain_path2.
  - intros Hn.
    assert (Hc : forall parent,
               (forall p, lookup parent u <> VObj p) ->
               forall p, lookup parent (jsonCopy u) <> VObj p).
    { intros parent' Hn' p. rewrite lookup_jsonCopy.
      specialize (Hn' ).
      destruct (lookup parent' u) eqn:E; simpl; try discriminate.
      now destruct (Hn' props). }
    destruct H as [-> | ->].
    + rewrite dropToken_lookup_other by discriminate.
      rewrite dropToken_not_object.
      * unfold s1. rewrite lookup_assign_neq by discriminate.
        apply lookup_jsonCopy.
      * unfold s1. rewrite lookup_assign_neq by discriminate. now apply Hc.
    + rewrite dropToken_not_object.
      * rewrite dropToken_lookup_other by discriminate.
        unfold s1. rewrite lookup_assign_neq by discriminate.
        apply lookup_jsonCopy.
      * rewrite dropToken_lookup_other by discriminate.
        unfold s1. rewrite lookup_assign_neq by discriminate. now apply Hc.
Qed.

(** ** read *)

Lemma is_str_true v s : is_str v s = true <-> v = VStr s.
Proof.
  destruct v; simpl; split; try discriminate.
  - intros H. apply String.eqb_eq in H. now subst.
  - intros H. injection H as ->. apply String.eqb_refl.
Qed.

Lemma includes_admin subs :
  existsb (fun x => is_str x ADMIN_ROLE_NAME) subs = true
  <-> In (VStr ADMIN_ROLE_NAME) subs.
Proof.
  rewrite existsb_exists. split.
  - intros (x & Hin & Hx). apply is_str_true in Hx. now subst.
  - intros Hin. exists (VStr ADMIN_ROLE_NAME).
    split; [exact Hin | now apply is_str_true].
Qed.

Lemma isSelf_true user id : isSelf user id = true <-> lookup "_id" user = VStr id.
Proof.
  unfold isSelf. rewrite <- is_str_true.
  destruct (is_str (lookup "_id" user) id); split; auto.
Qed.

(** C3.  For a read with a target id, by a caller whose subroles are an
    array: the authorization gate lets the request through to the lookup
    exactly when the caller's id is the target id or the subroles contain
    the admin label; when neither holds the promise is rejected with
    Forbidden and the response is 403 with no body, and otherwise the
    response is not 403. *)
Theorem read_gate_self_or_admin
    (db : list obj) (user : obj) (id : string) (subs : list value) :
  id <> "" ->
  lookup "subroles" user = VArr subs ->
  let self := lookup "_id" user = VStr id in
  let admin := In (VStr ADMIN_ROLE_NAME) subs in
  (readGate db user (orNullId (Some id)) = Resolved (target db id)
   <-> self \/ admin)
  /\ (~ (self \/ admin) ->
      readGate db user (orNullId (Some id)) = Rejected (Error "Forbidden")
      /\ read db user (Some id) = send 403 VUndef)
  /\ (self \/ admin -> status (read db user (Some id)) <> 403).
Proof.
  intros Hid Hsub self admin.
  assert (Hnull : orNullId (Some id) = Some id).
  { simpl. apply String.eqb_neq in Hid. now rewrite Hid. }
  assert (Hgate : readGate db user (Some id)
                  = if isSelf user id || existsb (fun x => is_str x ADMIN_ROLE_NAME) subs
                    then Resolved (target db id)
                    else Rejected (Error "Forbidden")).
  { unfold readGate, isAuthorized. rewrite Hsub.
    destruct (isSelf user id); simpl; [reflexivity|].
    destruct (existsb _ subs); reflexivity. }
  assert (Hdec : isSelf user id || existsb (fun x => is_str x ADMIN_ROLE_NAME) subs
                 = true <-> self \/ admin).
  { rewrite orb_true_iff, isSelf_true, includes_admin. reflexivity. }
  unfold read. rewrite Hnull, Hgate.
  destruct (isSelf user id || existsb _ subs) eqn:E.
  - split; [|split].
    + split; auto. intros _. now apply Hdec.
    + intros Hn. destruct Hn. now apply Hdec.
    + intros _. simpl. destruct (target db id); simpl; discriminate.
  - assert (Hn : ~ (self \/ admin)).
    { intros H. apply Hdec in H. discriminate. }
    split; [|split].
    + split; [discriminate | intros H; now destruct Hn].
    + intros _. split; reflexivity.
    + intros H. now destruct Hn.
Qed.

(** On success [read] answers with the sanitized caller. *)
Lemma read_success_body (db : list obj) (user : obj) (id : string) (found : obj) :
  readGate db user (orNullId (Some id)) = Resolved (Some found) ->
  read db user (Some id) = send 200 (VObj (sanitizeUser user)).
Proof. intros H. unfold read. now rewrite H. Qed.

(** ** list *)

Lemma string_leb_trans a :
  forall b c,
    String.leb a b = true -> String.leb b c = true -> String.leb a c = true.
Proof.
  unfold String.leb.
  induction a as [|x a IH]; intros [|y b] [|z c]; simpl; auto; try discriminate.
  unfold Ascii.compare.
  destruct (N.compare_spec (N_of_ascii x) (N_of_ascii y)) as [Exy|Lxy|Gxy];
    destruct (N.compare_spec (N_of_ascii y) (N_of_ascii z)) as [Eyz|Lyz|Gyz];
    destruct (N.compare_spec (N_of_ascii x) (N_of_ascii z)) as [Exz|Lxz|Gxz];
    try discriminate; try lia; auto.
  apply IH.
Qed.

Lemma sortLe_total a b : sortLe a b = false -> sortLe b a = true.
Proof.
  destruct a, b; simpl; try discriminate; auto.
  - destruct b, b0; auto.
  - intros H. apply Z.leb_gt in H. apply Z.leb_le. lia.
  - intros H. destruct (String.leb_total s s0) as [E|E]; congruence.
  - intros H. apply Z.leb_gt in H. apply Z.leb_le. lia.
Qed.

Lemma sortLe_trans a b c :
  sortLe a b = true -> sortLe b c = true -> sortLe a c = true.
Proof.
  destruct a, b, c; simpl; try discriminate; auto.
  - destruct b, b0, b1; auto.
  - intros H1 H2. apply Z.leb_le in H1, H2. apply Z.leb_le. lia.
  - apply string_leb_trans.
  - intros H1 H2. apply Z.leb_le in H1, H2. apply Z.leb_le. lia.
Qed.

Lemma insertBy_perm le d l : Permutation (d :: l) (insertBy le d l).
Proof.
  induction l as [|e r IH]; simpl; auto.
  destruct (le d e); auto.
  apply perm_trans with (e :: d :: r); [apply perm_swap | now constructor].
Qed.

Lemma sortBy_perm field l : Permutation l (sortBy field l).
Proof.
  induction l as [|d r IH]; simpl; auto.
  apply perm_trans with (d :: sortBy field r); [now constructor|].
  apply insertBy_perm.
Qed.

Lemma insertBy_sorted field d l :
  Sorted (ascending field) l ->
  Sorted (ascending field)
    (insertBy (fun a b => sortLe (lookup field a) (lookup field b)) d l).
Proof.
  induction 1 as [|e r Hr IH Hhd]; simpl.
  - repeat constructor.
  - destruct (sortLe (lookup field d) (lookup field e)) eqn:E.
    + constructor; [now constructor | now constructor].
    + constructor; [exact IH|].
      apply sortLe_total in E.
      destruct Hhd as [|f r' Hf]; simpl.
      * now constructor.
      * destruct (sortLe (lookup field d) (lookup field f));
          now constructor.
Qed.

Lemma sortBy_sorted field l : StronglySorted (ascending field) (sortBy field l).
Proof.
  apply Sorted_StronglySorted.
  - intros a b c. apply sortLe_trans.
  - induction l as [|d r IH]; simpl; [constructor | now apply insertBy_sorted].
Qed.

Lemma find_all (db : list obj) : find (fun _ => true) db = db.
Proof.
  unfold find. induction db as [|d r IH]; simpl; [|rewrite IH]; reflexivity.
Qed.

(** C4.  With at least 50 users in the store and no search string,
    [list] with [page=2] responds 200 with the sanitized copies of the 25
    users at positions 26 to 50 of the collection sorted by username
    ascending: it skips (2-1)*25 users and takes 25. *)
Theorem list_page_two (db : list obj) (querySearch : option string) :
  (50 <= List.length db)%nat ->
  querySearch = None \/ querySearch = Some "" ->
  let sorted := sortBy "username" db in
  let page := firstn 25 (skipn 25 sorted) in
  list_ db (Some "2") querySearch
  = Some (send 200 (VArr (map (fun u => VObj (sanitizeUser u)) page)))
  /\ List.length page = 25%nat
  /\ (forall i, (i < 25)%nat -> nth_error page i = nth_error sorted (25 + i))
  /\ StronglySorted (ascending "username") sorted
  /\ Permutation db sorted.
Proof.
  intros Hlen Hq sorted page.
  assert (Hs : List.length sorted = List.length db).
  { symmetry. apply Permutation_length, sortBy_perm. }
  split; [|split; [|split; [|split]]].
  - unfold list_.
    replace (match querySearch with Some s => s | None => "" end) with "".
    2:{ destruct Hq as [-> | ->]; reflexivity. }
    cbn -[sortBy skipLimit sanitizeUser find].
    rewrite find_all. reflexivity.
  - unfold page. rewrite length_firstn, length_skipn. lia.
  - intros i Hi. unfold page.
    rewrite nth_error_firstn.
    destruct (Nat.ltb_spec i 25); [|lia].
    apply nth_error_skipn.
  - apply sortBy_sorted.
  - apply sortBy_perm.
Qed.

(** ** Queries *)

Lemma value_eqb_refl v : value_eqb v v = true.
Proof.
  induction v as [ | | b | n | s | ms | xs IH | ps IH] using value_ind;
    simpl; auto.
  - now destruct b.
  - apply Z.eqb_refl.
  - apply String.eqb_refl.
  - apply Z.eqb_refl.
  - induction IH as [|x xs Hx _ IHxs]; auto. now rewrite Hx.
  - induction IH as [|[k v] r Hv _ IHr]; auto.
    simpl in Hv. now rewrite String.eqb_refl, Hv.
Qed.

Lemma value_eqb_str v s : value_eqb v (VStr s) = true <-> v = VStr s.
Proof.
  destruct v; simpl; split; try discriminate.
  - intros H. apply String.eqb_eq in H. now subst.
  - intros H. injection H as ->. apply String.eqb_refl.
Qed.

(** A string operand selects a field that is that string, or an array
    that holds it. *)
Lemma queryEq_str v s :
  queryEq v (VStr s) = true
  <-> v = VStr s \/ exists xs, v = VArr xs /\ In (VStr s) xs.
Proof.
  unfold queryEq. rewrite !orb_true_iff, andb_true_iff, value_eqb_str.
  split.
  - intros [[H | H] | [_ H]]; auto; [|discriminate].
    destruct v; try discriminate.
    apply existsb_exists in H as (x & Hin & Hx).
    apply value_eqb_str in Hx. subst x. right. now exists xs.
  - intros [H | (xs & -> & Hin)]; auto.
    left. right. apply existsb_exists. exists (VStr s).
    split; [exact Hin | now apply value_eqb_str].
Qed.

Lemma nth_error_updateMany sel change db i :
  nth_error (updateMany sel change db) i
  = option_map (fun d => if sel d then change d else d) (nth_error db i).
Proof. unfold updateMany. apply nth_error_map. Qed.

(** ** flushSubroles *)

(** C9.  After the bulk update of [flushSubroles(P, S)] the collection has
    the same users in the same places; a user whose role is P has subroles
    exactly S and every other field as before; a user whose role is not P
    (nor a list of labels with P among them) is the document it was. *)
Theorem flushSubroles_sets_role_members_only
    (parentRole : string) (subroles : list string) (db : list obj) :
  let db' := flushSubroles parentRole subroles db in
  List.length db' = List.length db
  /\ forall i d,
       nth_error db i = Some d ->
       (lookup "role" d = VStr parentRole ->
        exists d',
          nth_error db' i = Some d'
          /\ lookup "subroles" d' = VArr (map VStr subroles)
          /\ forall k, k <> "subroles" -> lookup k d' = lookup k d)
       /\ (lookup "role" d <> VStr parentRole ->
           (forall xs, lookup "role" d = VArr xs ->
                       ~ In (VStr parentRole) xs) ->
           nth_error db' i = Some d).
Proof.
  intros db'. split.
  - unfold db', flushSubroles, updateMany. apply length_map.
  - intros i d Hd. unfold db', flushSubroles.
    rewrite nth_error_updateMany, Hd. simpl. split.
    + intros Hrole.
      assert (Hq : queryEq (lookup "role" d) (VStr parentRole) = true).
      { apply queryEq_str. now left. }
      rewrite Hq. eexists. split; [reflexivity|]. split.
      * apply lookup_assign_eq.
      * intros k Hk. now apply lookup_assign_neq.
    + intros Hne Harr.
      destruct (queryEq (lookup "role" d) (VStr parentRole)) eqn:Hq; auto.
      apply queryEq_str in Hq as [Hq | (xs & Hxs & Hin)].
      * now destruct Hne.
      * now destruct (Harr xs Hxs).
Qed.

(** ** verifyEmail *)

Lemma path2_object o a b v :
  path2 o a b = v -> v <> VUndef ->
  exists p, lookup a o = VObj p /\ lookup b p = v.
Proof.
  unfold path2. intros H Hv.
  destruct (lookup a o); try (now destruct Hv).
  now exists props.
Qed.

(** C7.  When the token of a [verifyEmail] request selects a user whose
    [verification.expires] is a time before now, the response is 400 with
    the message "Token has expired" and the store is what it was, the
    user's [verified] field included. *)
Theorem verifyEmail_expired_token
    (now : Z) (token : string) (w : World) (user : obj) (expires : Z) :
  findOne (fun d => queryEq (path2 d "verification" "token") (VStr token))
          (users w) = Some user ->
  path2 user "verification" "expires" = VNum expires
  \/ path2 user "verification" "expires" = VDate expires ->
  expires < now ->
  verifyEmail now token w
  = (send 400 (VObj [("message", VStr "Token has expired")]), w).
Proof.
  intros Hfound Hexp Hlt. unfold verifyEmail. rewrite Hfound.
  assert (Hgt : (now >? expires) = true) by (apply Z.gtb_lt; lia).
  destruct Hexp as [Hexp | Hexp];
    apply path2_object in Hexp as (p & Hp & He); try discriminate;
    rewrite Hp; simpl; rewrite He; unfold gt; simpl; rewrite Hgt;
    reflexivity.
Qed.

(** ** resetPassword *)

Lemma find_singleton_In (sel : obj -> bool) (db : list obj) (d : obj) :
  find sel db = [d] -> In d db /\ sel d = true.
Proof.
  intros H. apply filter_In. unfold find in H. rewrite H. now left.
Qed.

Lemma replaceById_spec id doc db :
  replaceById id doc db
  = map (fun d => if value_eqb (lookup "_id" d) id then doc else d) db.
Proof. reflexivity. Qed.

(** A saved document is in the collection when the document it replaces
    was. *)
Lemma replaceById_In doc old db :
  In old db -> In doc (replaceById (lookup "_id" old) doc db).
Proof.
  intros Hin. rewrite replaceById_spec.
  apply in_map_iff. exists old. split; auto.
  now rewrite value_eqb_refl.
Qed.

Lemma gt_not_past now e v :
  v = VNum e \/ v = VDate e -> now <= e -> gt now v = false.
Proof.
  intros [-> | ->] H; unfold gt; simpl; rewrite Z.gtb_ltb; apply Z.ltb_ge; lia.
Qed.

(** C8.  For a [resetPassword] request that carries a password the policy
    accepts and a token that selects exactly one user, whose
    [resetPassword.expires] is not before now, with the password hashed
    to [hashed] and the store accepting the save of the changed user: the
    response is 204 and the store holds, in place of that user, the same
    document with [password] set to [hashed], [resetPassword] emptied (no
    token left) and [verified] true; every other field of the user and
    every other document is as before. *)
Theorem resetPassword_replaces_password
    (now : Z) (body : obj) (w : World) (user : obj) (expires : Z)
    (hashed : value) :
  truthy (lookup "password" body) = true ->
  truthy (lookup "token" body) = true ->
  isStrongPassword (lookup "password" body) = true ->
  find (fun d => queryEq (path2 d "resetPassword" "token")
                         (lookup "token" body)) (users w) = [user] ->
  path2 user "resetPassword" "expires" = VNum expires
  \/ path2 user "resetPassword" "expires" = VDate expires ->
  now <= expires ->
  hashPassword shared (lookup "password" body) = Resolved hashed ->
  saveChanged (users w) (resetUser hashed user)
  = Resolved (resetUser hashed user) ->
  let user' := resetUser hashed user in
  resetPassword now body w
  = (send 204 VUndef,
     {| users := replaceById (lookup "_id" user) user' (users w);
        outbox := outbox w |})
  /\ (lookup "password" user' = hashed
      /\ lookup "resetPassword" user' = VObj []
      /\ path2 user' "resetPassword" "token" = VUndef
      /\ lookup "verified" user' = VBool true)
  /\ (forall k,
        k <> "password" -> k <> "resetPassword" -> k <> "verified" ->
        lookup k user' = lookup k user)
  /\ In user' (replaceById (lookup "_id" user) user' (users w))
  /\ (forall i d,
        nth_error (users w) i = Some d ->
        nth_error (replaceById (lookup "_id" user) user' (users w)) i
        = Some (if value_eqb (lookup "_id" d) (lookup "_id" user)
                then user' else d)).
Proof.
  intros Hpw Htok Hstrong Hfind Hexp Hfuture Hhash Hsave user'.
  assert (Hid : lookup "_id" user' = lookup "_id" user).
  { unfold user', resetUser. now rewrite !lookup_assign_neq by discriminate. }
  split; [|split; [|split; [|split]]].
  - unfold resetPassword, resetPasswordQuery.
    rewrite Hpw, Htok, Hstrong. simpl. rewrite Hfind.
    assert (Hm : member (lookup "resetPassword" user) "expires"
                 = Some (path2 user "resetPassword" "expires")).
    { destruct Hexp as [H | H];
        apply path2_object in H as (p & Hp & He); try discriminate;
        unfold path2; rewrite Hp; reflexivity. }
    rewrite Hm, (gt_not_past now expires) by assumption.
    rewrite Hhash. cbn [then_]. rewrite Hsave. fold user'.
    now rewrite Hid.
  - unfold user', resetUser, path2. repeat split.
    + rewrite !lookup_assign_neq by discriminate. apply lookup_assign_eq.
    + rewrite lookup_assign_neq by discriminate. apply lookup_assign_eq.
    + rewrite lookup_assign_neq by discriminate.
      now rewrite lookup_assign_eq.
    + apply lookup_assign_eq.
  - intros k H1 H2 H3. unfold user', resetUser.
    now rewrite !lookup_assign_neq by auto.
  - apply find_singleton_In in Hfind as [Hin _].
    now apply replaceById_In.
  - intros i d Hd. unfold replaceById.
    now rewrite nth_error_updateMany, Hd.
Qed.

(** ** requestChangePasswordEmail *)

(** C10.  When [requestChangePasswordEmail] finds the one user with the
    given email, that user has a [verification] to read from and the store
    accepts the save of the user with the fresh [resetPassword]: the
    store gets the user with a [resetPassword] made of the fresh token, and
    the mailer gets one mail, to the user's address, whose link ends in the
    text of [verification.token].  When that text is not the fresh token,
    the query [resetPassword] runs with the token of the link does not
    select the saved user. *)
Theorem requestChangePasswordEmail_links_verification_token
    (now : Z) (token email : string) (w : World) (user : obj)
    (vtoken : value) :
  email <> "" ->
  find (fun d => queryEq (lookup "email" d) (VStr email)) (users w) = [user] ->
  member (lookup "verification" user) "token" = Some vtoken ->
  let saved :=
    assign "resetPassword"
      (VObj [("token", VStr token);
             ("expires", VNum (now + emailVerificationTTL config))]) user in
  saveChanged (users w) saved = Resolved saved ->
  let w' := snd (requestChangePasswordEmail now token (Some email) w) in
  let link := generateUrl shared ++ "/reset-password;token=" ++ toStr vtoken in
  users w' = replaceById (lookup "_id" user) saved (users w)
  /\ In saved (users w')
  /\ path2 saved "resetPassword" "token" = VStr token
  /\ (exists mail,
        outbox w' = (outbox w ++ [mail])%list
        /\ lookup "to" mail = lookup "email" user
        /\ lookup "text" mail
           = VStr ("Change your password by going here: " ++ link))
  /\ (toStr vtoken <> token ->
      queryEq (path2 saved "resetPassword" "token") (VStr (toStr vtoken))
      = false).
Proof.
  intros Hemail Hfind Hver saved Hsave w' link.
  assert (Hv : lookup "verification" saved = lookup "verification" user).
  { unfold saved. now rewrite lookup_assign_neq by discriminate. }
  assert (Hid : lookup "_id" saved = lookup "_id" user).
  { unfold saved. now rewrite lookup_assign_neq by discriminate. }
  assert (Hmail : passwordChangeEmail saved
                  = Some [("from", emailFrom config);
                          ("to", lookup "email" user);
                          ("text", VStr ("Change your password by going here: "
                                         ++ link));
                          ("subject", VStr "Change Password")]).
  { unfold passwordChangeEmail. rewrite Hv, Hver.
    unfold saved. now rewrite lookup_assign_neq by discriminate. }
  assert (Hw : w' = {| users := replaceById (lookup "_id" user) saved (users w);
                       outbox := outbox w
                                 ++ [[("from", emailFrom config);
                                      ("to", lookup "email" user);
                                      ("text",
                                       VStr ("Change your password by going here: "
                                             ++ link));
                                      ("subject", VStr "Change Password")]] |}).
  { unfold w', requestChangePasswordEmail.
    apply String.eqb_neq in Hemail. simpl. rewrite Hemail. simpl.
    rewrite Hfind. fold saved. rewrite Hsave, Hid.
    unfold sendPasswordChangeEmail, deliver. rewrite Hmail. simpl.
    destruct (sendMail shared _); reflexivity. }
  rewrite Hw. simpl.
  assert (Htok : path2 saved "resetPassword" "token" = VStr token).
  { unfold path2, saved. now rewrite lookup_assign_eq. }
  split; [reflexivity|]. split; [|split; [exact Htok|split]].
  - apply find_singleton_In in Hfind as [Hin _].
    now apply replaceById_In.
  - eexists. split; [reflexivity|]. split; reflexivity.
  - intros Hne. rewrite Htok.
    destruct (queryEq (VStr token) (VStr (toStr vtoken))) eqn:Hq; auto.
    apply queryEq_str in Hq as [Hq | (xs & Hxs & _)]; [|discriminate].
    injection Hq as Hq. now destruct Hne.
Qed.

(** ** register *)

Lemma mapUser_step_keeps k body fields :
  forall acc,
    lookup k acc = lookup k body ->
    lookup k
      (fold_left
         (fun user realIndex =>
            if truthy (lookup realIndex body)
            then assign realIndex (lookup realIndex body) user
            else user) fields acc)
    = lookup k body.
Proof.
  induction fields as [|f r IH]; intros acc Hacc; simpl; auto.
  apply IH. destruct (truthy (lookup f body)); auto.
  destruct (String.eqb_spec k f) as [-> | Hne].
  - apply lookup_assign_eq.
  - now rewrite lookup_assign_neq.
Qed.

(** A schema field the body holds a truthy value for is copied to the new
    user. *)
Lemma mapUser_field now body k :
  In k schemaFields -> k <> "updated" -> k <> "created" ->
  truthy (lookup k body) = true ->
  lookup k (mapUser now body) = lookup k body.
Proof.
  intros Hin Hu Hc Ht. unfold mapUser.
  rewrite !lookup_assign_neq by auto.
  generalize newUsers as acc.
  induction schemaFields as [|f r IH]; [destruct Hin|].
  intros acc. simpl. destruct Hin as [-> | Hin]; [|now apply IH].
  rewrite Ht. apply mapUser_step_keeps, lookup_assign_eq.
Qed.

(** C5, as the code has it.  With registration enabled and an email string
    on the new user, a registration whose password fails the strength
    policy is answered 400 with the policy message, and the store and the
    mailer are left as they were. *)
Theorem register_weak_password_rejected
    (now : Z) (token : string) (body : obj) (w : World) (email : string) :
  allowRegistration config = true ->
  lookup "email" (mapUser now body) = VStr email ->
  isStrongPassword (lookup "password" (mapUser now body)) = false ->
  register now token body w
  = (Some (send 400
             (VObj [("error",
                     VStr ("Invalid password: "
                           ++ invalidPasswordMessage config))])), w).
Proof.
  intros Hallow Hemail Hweak. unfold register.
  rewrite Hemail. simpl. rewrite Hallow. simpl.
  rewrite !lookup_assign_neq by discriminate.
  now rewrite Hweak.
Qed.

(** Whatever the request, a registration that is answered 400 or 500
    before the save leaves the store as it was. *)
Lemma register_no_write_without_save now token body w :
  allowRegistration config = false
  \/ isStrongPassword (lookup "password" (mapUser now body)) = false ->
  snd (register now token body w) = w.
Proof.
  intros H. unfold register.
  destruct (generateProfileImageURL _); auto. simpl.
  rewrite !lookup_assign_neq by discriminate.
  destruct (allowRegistration config); simpl; auto.
  destruct H as [H | H]; [discriminate|]. now rewrite H.
Qed.

Lemma split_word w rest :
  no_space w = true -> split " " (w ++ String " " rest) = w :: split " " rest.
Proof.
  induction w as [|c w IH]; simpl.
  - reflexivity.
  - intros H. apply andb_prop in H as [Hc Hw].
    apply negb_true_iff in Hc. rewrite Hc, (IH Hw). reflexivity.
Qed.

Lemma indexOf_later w x r :
  x <> w -> 0 <= indexOf w r -> indexOf w (x :: r) = indexOf w r + 1.
Proof.
  intros Hx Hr. simpl. apply String.eqb_neq in Hx. rewrite Hx.
  destruct (Z.ltb_spec (indexOf w r) 0); [lia | reflexivity].
Qed.

(** The word [register] reads after [index:] in an E11000 message is the
    name of the index. *)
Lemma dupKeyMessage_index ns idx key :
  no_space ns = true -> no_space idx = true -> ns <> "index:" ->
  let errmsgList := split " " (dupKeyMessage ns idx key) in
  at_index errmsgList (indexOf "index:" errmsgList + 1) = VStr idx.
Proof.
  intros Hns Hidx Hne errmsgList. subst errmsgList.
  change (dupKeyMessage ns idx key)
    with ("E11000" ++ String " " ("duplicate" ++ String " " ("key"
          ++ String " " ("error" ++ String " " ("collection:"
          ++ String " " (ns ++ String " " ("index:"
          ++ String " " (idx ++ String " " ("dup key: " ++ key))))))))).
  rewrite !split_word by (assumption || reflexivity).
  set (rest := split " " ("dup key: " ++ key)).
  assert (H0 : indexOf "index:" ("index:" :: idx :: rest) = 0) by reflexivity.
  assert (H1 : indexOf "index:" (ns :: "index:" :: idx :: rest) = 1).
  { rewrite indexOf_later; rewrite ?H0; auto; lia. }
  assert (H6 : indexOf "index:"
                 ("E11000" :: "duplicate" :: "key" :: "error"
                  :: "collection:" :: ns :: "index:" :: idx :: rest) = 6).
  { repeat (rewrite indexOf_later; [|discriminate|]); rewrite ?H1; lia. }
  rewrite H6. reflexivity.
Qed.

(** C6.  A registration that gets as far as the save (registration is
    enabled, the avatar address is built from the email, the policy accepts
    the password, and the password is hashed), and whose save the store rejects
    with the duplicate-key error of the index [idx]: the response is 400
    with the error "Username is taken" when [idx] is the username index,
    and 500 with no body for any other index; either way the collection
    and the mailer are as they were. *)
Theorem register_duplicate_key
    (now : Z) (token : string) (body : obj) (w : World)
    (url : string) (hash : value) (error : obj) (ns idx key : string) :
  allowRegistration config = true ->
  generateProfileImageURL (lookup "email" (mapUser now body)) = Some url ->
  isStrongPassword (lookup "password" (mapUser now body)) = true ->
  hashPassword shared (lookup "password" (mapUser now body)) = Resolved hash ->
  saveNew (users w) (registrant now token body url hash) = Rejected error ->
  lookup "code" error = VNum 11000 ->
  lookup "errmsg" error = VStr (dupKeyMessage ns idx key) ->
  no_space ns = true -> no_space idx = true -> ns <> "index:" ->
  register now token body w
  = (Some (if (idx =? "username_1")%string
           then send 400 (VObj [("error", VStr "Username is taken")])
           else send 500 VUndef), w).
Proof.
  intros Hallow Hurl Hstrong Hhash Hsave Hcode Hmsg Hns Hidx Hne.
  unfold register. rewrite Hurl, Hallow. simpl.
  rewrite !lookup_assign_neq by discriminate.
  rewrite Hstrong, Hhash. simpl.
  fold (registrant now token body url hash). rewrite Hsave.
  unfold registerSaveFailed. rewrite Hcode, Hmsg. simpl value_eqb. cbv iota.
  rewrite dupKeyMessage_index by assumption.
  simpl. destruct (idx =? "username_1")%string; reflexivity.
Qed.

(* ------------------------------------------------------------------ *)
(** ** More about read and list *)

Lemma sanitizeUser_noSecrets u : noSecrets (sanitizeUser u).
Proof.
  rewrite sanitizeUser_unfold. repeat split.
  - rewrite !dropToken_lookup_other by discriminate. apply lookup_assign_eq.
  - rewrite dropToken_path2_other by discriminate. apply dropToken_token.
  - apply dropToken_token.
Qed.

(** X1.  [read] looks at the id before the caller: without an id (or with
    an empty one) it answers 400 "Malformed request" whoever asks.  Reading
    one's own id never looks at the subroles: it answers 200, or 404 when
    the record is gone.  A caller whose [subroles] is missing gets 500, not
    403, for any other id. *)
Theorem read_id_before_caller (db : list obj) (user : obj) :
  read db user None = send 400 (VObj [("error", VStr "Malformed request")])
  /\ read db user (Some "")
     = send 400 (VObj [("error", VStr "Malformed request")])
  /\ (forall id,
        id <> "" -> lookup "_id" user = VStr id ->
        read db user (Some id)
        = match target db id with
          | Some _ => send 200 (VObj (sanitizeUser user))
          | None => send 404 VUndef
          end)
  /\ (forall id,
        id <> "" -> lookup "_id" user <> VStr id ->
        lookup "subroles" user = VUndef ->
        read db user (Some id) = send 500 VUndef).
Proof.
  split; [reflexivity|]. split; [reflexivity|]. split.
  - intros id Hid Hself. unfold read, readGate.
    apply String.eqb_neq in Hid. simpl. rewrite Hid.
    apply isSelf_true in Hself. rewrite Hself. simpl.
    destruct (target db id); reflexivity.
  - intros id Hid Hother Hsub. unfold read, readGate, isAuthorized.
    apply String.eqb_neq in Hid. simpl. rewrite Hid.
    destruct (isSelf user id) eqn:E.
    + apply isSelf_true in E. now destruct Hother.
    + rewrite Hsub. reflexivity.
Qed.

(** X2.  An admin, or the user themselves, reading an id that no stored
    record has gets 404 with no body. *)
Theorem read_not_found
    (db : list obj) (user : obj) (id : string) (subs : list value) :
  id <> "" ->
  lookup "subroles" user = VArr subs ->
  lookup "_id" user = VStr id \/ In (VStr ADMIN_ROLE_NAME) subs ->
  (forall d, In d db -> lookup "_id" d <> VStr id) ->
  (forall d xs, In d db -> lookup "_id" d = VArr xs -> ~ In (VStr id) xs) ->
  read db user (Some id) = send 404 VUndef.
Proof.
  intros Hid Hsub Hallowed Hnone Hnone'.
  assert (Ht : target db id = None).
  { unfold target, findOne.
    destruct (List.find _ db) as [d|] eqn:F; auto.
    apply find_some in F as [Hin Hq].
    apply queryEq_str in Hq as [Hq | (xs & Hxs & Hx)].
    - now destruct (Hnone d Hin).
    - now destruct (Hnone' d xs Hin Hxs). }
  unfold read, readGate, isAuthorized.
  apply String.eqb_neq in Hid. simpl. rewrite Hid, Hsub, Ht.
  destruct (isSelf user id) eqn:E; [reflexivity|].
  destruct Hallowed as [H | H].
  - apply isSelf_true in H. congruence.
  - apply includes_admin in H. rewrite H. reflexivity.
Qed.

Lemma stringToNumber_of_int s d :
  NilZero.int_of_string s = Some d ->
  s <> "" /\ stringToNumber s = Some (Z.of_int d).
Proof.
  destruct s as [|a r]; [discriminate|].
  intros H. split; [discriminate|].
  destruct (Ascii.eqb_spec a "+") as [-> | Hne].
  - exfalso. unfold NilZero.int_of_string in H. simpl in H.
    destruct (NilEmpty.uint_of_string r); discriminate.
  - assert (E : stringToNumber (String a r)
                = option_map Z.of_int (NilZero.int_of_string (String a r))).
    { destruct a as [[] [] [] [] [] [] [] []];
        try reflexivity; now destruct Hne. }
    rewrite E, H. reflexivity.
Qed.

(** The decimal text of a number reads back as the number. *)
Lemma stringToNumber_Z_to_string n :
  Z_to_string n <> "" /\ stringToNumber (Z_to_string n) = Some n.
Proof.
  unfold Z_to_string.
  assert (H : NilZero.int_of_string (NilZero.string_of_int (Z.to_int n))
              = Some (Z.to_int n)).
  { destruct n as [|p|p]; [reflexivity| |]; apply NilZero.isi; simpl;
      intros E;
      first [ discriminate
            | injection E as E;
              now apply DecimalPos.Unsigned.to_uint_nonnil in E ]. }
  apply stringToNumber_of_int in H as [H1 H2].
  split; [exact H1|]. rewrite H2. now rewrite DecimalZ.of_to.
Qed.

(** X3.  For every page number [n >= 1] written in decimal and no search
    string, [list] answers 200 with the sanitized copies of the users at
    positions 25(n-1)+1 to 25n of the collection sorted by username, as
    many of them as there are; without a page parameter it answers as for
    page 1. *)
Theorem list_any_page (db : list obj) (n : Z) (querySearch : option string) :
  1 <= n ->
  querySearch = None \/ querySearch = Some "" ->
  let sorted := sortBy "username" db in
  let page := firstn 25 (skipn (Z.to_nat (25 * (n - 1))) sorted) in
  list_ db (Some (Z_to_string n)) querySearch
  = Some (send 200 (VArr (map (fun u => VObj (sanitizeUser u)) page)))
  /\ (forall i, (i < 25)%nat ->
        nth_error page i = nth_error sorted (Z.to_nat (25 * (n - 1)) + i))
  /\ ((List.length db <= Z.to_nat (25 * (n - 1)))%nat -> page = [])
  /\ (n = 1 -> list_ db None querySearch = list_ db (Some "1") querySearch).
Proof.
  intros Hn Hq sorted page.
  destruct (stringToNumber_Z_to_string n) as [Hne Hnum].
  split; [|split; [|split]].
  - unfold list_. apply String.eqb_neq in Hne. rewrite Hne.
    replace (match querySearch with Some s => s | None => "" end) with "".
    2:{ destruct Hq as [-> | ->]; reflexivity. }
    simpl toNumber. rewrite Hnum. simpl.
    destruct (Z.ltb_spec ((n - 1) * pageLimit) 0) as [Hneg | _];
      [unfold pageLimit in Hneg; lia|].
    rewrite find_all. unfold skipLimit, pageLimit.
    replace ((n - 1) * 25) with (25 * (n - 1)) by lia. reflexivity.
  - intros i Hi. unfold page. rewrite nth_error_firstn.
    destruct (Nat.ltb_spec i 25); [|lia]. apply nth_error_skipn.
  - intros Hlen. unfold page. rewrite skipn_all2; [reflexivity|].
    unfold sorted.
    rewrite <- (Permutation_length (sortBy_perm "username" db)). exact Hlen.
  - intros _. reflexivity.
Qed.

Lemma In_skipLimit (n m : Z) (l : list obj) (d : obj) :
  In d (skipLimit n m l) -> In d l.
Proof.
  unfold skipLimit. intros H.
  rewrite <- (firstn_skipn (Z.to_nat n) l). apply in_or_app. right.
  rewrite <- (firstn_skipn (Z.to_nat m) (skipn (Z.to_nat n) l)).
  apply in_or_app. now left.
Qed.

(** X4.  Whatever the page and the search, a response of [list] is either
    500 with no body or 200 with at most 25 records, each the sanitized
    copy of a stored user and none showing a password or a token. *)
Theorem list_bounded_and_sanitized
    (db : list obj) (queryPage querySearch : option string) (r : Response) :
  list_ db queryPage querySearch = Some r ->
  r = send 500 VUndef
  \/ exists found,
       r = send 200 (VArr (map (fun u => VObj (sanitizeUser u)) found))
       /\ (List.length found <= 25)%nat
       /\ incl found db
       /\ Forall (fun u => noSecrets (sanitizeUser u)) found.
Proof.
  unfold list_.
  set (sel := if (_ =? "")%string then _ else _).
  destruct sel as [sel|]; [|discriminate].
  set (skip := option_map _ _).
  intros H. injection H as <-.
  destruct skip as [k|]; [|now left].
  destruct (k <? 0); [now left|].
  right. eexists. split; [reflexivity|]. split; [|split].
  - unfold skipLimit. rewrite length_firstn. apply Nat.le_min_l.
  - intros d Hd. apply In_skipLimit in Hd.
    apply (Permutation_in d (Permutation_sym (sortBy_perm "username" _))) in Hd.
    unfold find in Hd. now apply filter_In in Hd.
  - apply Forall_forall. intros u _. apply sanitizeUser_noSecrets.
Qed.

(* ------------------------------------------------------------------ *)
(** ** mapUser, create and update *)

Lemma existsb_eqb_In k (fields : list string) :
  existsb (String.eqb k) fields = true <-> In k fields.
Proof.
  rewrite existsb_exists. split.
  - intros (f & Hin & E). apply String.eqb_eq in E. now subst.
  - intros Hin. exists k. split; [exact Hin | apply String.eqb_refl].
Qed.

(** The loop [mapUser] and [mapOverUser] share: a field of the list is
    copied from the body when the test [P] accepts the body's value. *)
Lemma copyFields_lookup (P : value -> bool) (body : obj) (k : string)
    (fields : list string) :
  forall acc,
    lookup k
      (fold_left
         (fun user f =>
            if P (lookup f body) then assign f (lookup f body) user else user)
         fields acc)
    = if existsb (String.eqb k) fields && P (lookup k body)
      then lookup k body else lookup k acc.
Proof.
  induction fields as [|f r IH]; intros acc; simpl; [reflexivity|].
  rewrite IH. destruct (String.eqb_spec k f) as [-> | Hne]; simpl.
  - destruct (P (lookup f body)) eqn:EP.
    + rewrite lookup_assign_eq. now rewrite andb_true_r, Tauto.if_same.
    + now rewrite andb_false_r.
  - destruct (P (lookup f body)); [|reflexivity].
    now rewrite lookup_assign_neq.
Qed.

(** X5.  [mapUser] is an allow-list with a truthiness test: a field of the
    new user comes from the body only when the schema lists it and the
    body's value is truthy; a field the schema does not list, and one the
    body gives as [false], [0], [""] or [null], stays as [new Users()] made
    it.  [updated] and [created] are the current time. *)
Theorem mapUser_allow_list (now : Z) (body : obj) :
  lookup "updated" (mapUser now body) = VDate now
  /\ lookup "created" (mapUser now body) = VDate now
  /\ forall k,
       k <> "updated" -> k <> "created" ->
       (In k schemaFields -> truthy (lookup k body) = true ->
        lookup k (mapUser now body) = lookup k body)
       /\ (~ In k schemaFields \/ truthy (lookup k body) = false ->
           lookup k (mapUser now body) = lookup k newUsers).
Proof.
  unfold mapUser. split; [|split].
  - rewrite lookup_assign_neq by discriminate. apply lookup_assign_eq.
  - apply lookup_assign_eq.
  - intros k Hu Hc. rewrite !lookup_assign_neq by assumption.
    rewrite (copyFields_lookup truthy). split.
    + intros Hin Ht. apply existsb_eqb_In in Hin. now rewrite Hin, Ht.
    + intros [Hnot | Hf].
      * destruct (existsb (String.eqb k) schemaFields) eqn:E; [|reflexivity].
        apply existsb_eqb_In in E. now destruct Hnot.
      * now rewrite Hf, andb_false_r.
Qed.

Lemma createFailed_status error : status (createFailed error) <> 201.
Proof.
  unfold createFailed.
  destruct (truthy _); [discriminate|].
  destruct (is_str _ _); discriminate.
Qed.

(** X6.  [create] is for admins: a caller whose subroles do not hold the
    admin label gets 403 with no body and the store is left alone,
    whatever the body.  And [create] writes only when it answers 201: then
    exactly one user joins the store, and the body is that user's sanitized
    copy, showing no password and no token. *)
Theorem create_admin_only_and_writes_on_201
    (now : Z) (user reqBody : obj) (db : list obj) :
  (forall subs,
     lookup "subroles" user = VArr subs ->
     ~ In (VStr ADMIN_ROLE_NAME) subs ->
     create now user reqBody db = (send 403 VUndef, db))
  /\ (status (fst (create now user reqBody db)) <> 201 ->
      snd (create now user reqBody db) = db)
  /\ (status (fst (create now user reqBody db)) = 201 ->
      exists savedUser,
        snd (create now user reqBody db) = (db ++ [savedUser])%list
        /\ body (fst (create now user reqBody db))
           = VObj (sanitizeUser savedUser)
        /\ noSecrets (sanitizeUser savedUser)).
Proof.
  split; [|split].
  - intros subs Hsub Hno. unfold create, createSave, isAuthorized.
    rewrite Hsub.
    destruct (existsb _ subs) eqn:E; [|reflexivity].
    apply includes_admin in E. now destruct Hno.
  - unfold create. destruct (createSave now user reqBody db); simpl; auto.
    intros H. now destruct H.
  - unfold create. destruct (createSave now user reqBody db) as [saved|e]; simpl.
    + intros _. exists saved. repeat split; apply sanitizeUser_noSecrets.
    + intros H. now destruct (createFailed_status e).
Qed.

(** X7.  The document [update] saves for a stored user: every schema field
    the body defines is overwritten with the body's value, [null], [false],
    [0] and [""] included and the password as it came; every other field
    is the stored one; [updated] is the current time. *)
Theorem update_overwrites_defined_fields
    (now : Z) (updates foundUser : obj) :
  let doc := updatedUser now updates foundUser in
  lookup "updated" doc = VDate now
  /\ forall k,
       k <> "updated" ->
       (In k schemaFields -> lookup k updates <> VUndef ->
        lookup k doc = lookup k updates)
       /\ (~ In k schemaFields \/ lookup k updates = VUndef ->
           lookup k doc = lookup k foundUser).
Proof.
  intros doc. unfold doc, updatedUser, mapOverUser. split.
  - apply lookup_assign_eq.
  - intros k Hu. rewrite lookup_assign_neq by assumption.
    rewrite (copyFields_lookup defined). split.
    + intros Hin Hd. apply existsb_eqb_In in Hin. rewrite Hin.
      destruct (lookup k updates); try reflexivity. now destruct Hd.
    + intros [Hnot | Hf].
      * destruct (existsb (String.eqb k) schemaFields) eqn:E; [|reflexivity].
        apply existsb_eqb_In in E. now destruct Hnot.
      * now rewrite Hf, andb_false_r.
Qed.

(** X8.  [update] asks for no permission: the response and the store after
    it do not depend on who calls.  Without a truthy [_id] in the body it
    answers 400 "Missing user._id", for an id that selects nobody 404; and
    it changes the store only when it answers 200, by putting the saved
    document in the place of the one it found. *)
Theorem update_caller_blind_and_writes_on_200
    (now : Z) (user updates : obj) (db : list obj) :
  (forall user', update now user' updates db = update now user updates db)
  /\ (truthy (lookup "_id" updates) = false ->
      update now user updates db
      = (send 400 (VObj [("error", VStr "Missing user._id")]), db))
  /\ (truthy (lookup "_id" updates) = true ->
      findOne (fun d => queryEq (lookup "_id" d) (lookup "_id" updates)) db
      = None ->
      update now user updates db = (send 404 VUndef, db))
  /\ (status (fst (update now user updates db)) <> 200 ->
      snd (update now user updates db) = db)
  /\ (status (fst (update now user updates db)) = 200 ->
      exists foundUser savedUser,
        In foundUser db
        /\ saveChanged db (updatedUser now updates foundUser)
           = Resolved savedUser
        /\ update now user updates db
           = (send 200 (VObj (sanitizeUser savedUser)),
              replaceById (lookup "_id" foundUser) savedUser db)).
Proof.
  split; [reflexivity|]. unfold update.
  destruct (truthy (lookup "_id" updates)) eqn:T.
  2:{ repeat split; try discriminate; auto. }
  destruct (findOne _ db) as [found|] eqn:F.
  2:{ repeat split; try discriminate; auto. }
  split; [discriminate|]. split; [discriminate|].
  destruct (saveChanged db (updatedUser now updates found)) as [saved|e] eqn:S;
    simpl.
  - split; [intros H; now destruct H|].
    intros _. exists found, saved. repeat split; auto.
    unfold findOne in F. now apply find_some in F.
  - split; [reflexivity|].
    destruct (truthy (lookup "errors" e)); [simpl; discriminate|].
    destruct (is_str (lookup "message" e) "Not found"); simpl; discriminate.
Qed.

(* ------------------------------------------------------------------ *)
(** ** deleteUser, readList and adminUpdate *)

Lemma hasId_string id d t : lookup "_id" d = VStr t -> hasId id d <-> t = id.
Proof.
  intros H. unfold hasId. rewrite H, queryEq_str. split.
  - intros [E | (xs & E & _)]; [now injection E | discriminate].
  - intros ->. now left.
Qed.

Lemma target_none_iff db id :
  target db id = None <-> forall d, In d db -> ~ hasId id d.
Proof.
  unfold target, findOne, hasId. split.
  - intros H d Hin Hd.
    pose proof (find_none _ _ H d Hin) as Hf. simpl in Hf. congruence.
  - intros H. destruct (List.find _ db) as [d|] eqn:F; [|reflexivity].
    apply find_some in F as [Hin Hq]. now destruct (H d Hin).
Qed.

Lemma keptIn_filter (f : obj -> bool) (l : list obj) : keptIn (filter f l) l.
Proof.
  induction l as [|d r IH]; simpl; [constructor|].
  destruct (f d); now constructor.
Qed.

(** X9.  An admin's [deleteUser] answers 204 and takes exactly the records
    with that id out of the store, the others staying in their order: the
    new store is the old one with records taken out, every record taken
    out has that id and none that is left has it.  Deleting an id that is
    not there, or deleting twice, changes nothing more and is still 204;
    and a read of the id by that admin then answers 404.  Anyone else gets
    403 and the store is left alone. *)
Theorem deleteUser_removes_that_id
    (user : obj) (userId : string) (db : list obj) (subs : list value) :
  lookup "subroles" user = VArr subs ->
  (~ In (VStr ADMIN_ROLE_NAME) subs ->
   deleteUser user userId db = (send 403 VUndef, db))
  /\ (In (VStr ADMIN_ROLE_NAME) subs ->
      let db' := snd (deleteUser user userId db) in
      fst (deleteUser user userId db) = send 204 VUndef
      /\ (forall d, In d db' <-> In d db /\ ~ hasId userId d)
      /\ keptIn db' db
      /\ (exists gone, Permutation db (gone ++ db')
                       /\ Forall (hasId userId) gone)
      /\ ((forall d, In d db -> ~ hasId userId d) -> db' = db)
      /\ deleteUser user userId db' = (send 204 VUndef, db')
      /\ (userId <> "" -> read db' user (Some userId) = send 404 VUndef)).
Proof.
  intros Hsub. unfold deleteUser, isAuthorized. rewrite Hsub. split.
  - intros Hno. destruct (existsb _ subs) eqn:E; [|reflexivity].
    apply includes_admin in E. now destruct Hno.
  - intros Hadmin. apply includes_admin in Hadmin as E. rewrite E. simpl.
    set (keep := fun d => negb (queryEq (lookup "_id" d) (VStr userId))).
    assert (Hin : forall d, In d (filter keep db)
                            <-> In d db /\ ~ hasId userId d).
    { intros d. rewrite filter_In. unfold keep, hasId.
      destruct (queryEq _ _); simpl; split; intros [H1 H2].
      - discriminate.
      - now destruct H2.
      - split; [exact H1 | discriminate].
      - split; [exact H1 | reflexivity]. }
    split; [reflexivity|]. split; [exact Hin|].
    split; [apply keptIn_filter|]. split; [|split; [|split]].
    + exists (filter (fun d => negb (keep d)) db). split.
      * clear Hin. induction db as [|d r IH]; simpl; [constructor|].
        destruct (keep d); simpl.
        -- now apply Permutation_cons_app.
        -- now constructor.
      * apply Forall_forall. intros d Hd. apply filter_In in Hd as [_ Hd].
        unfold keep, hasId in *. now destruct (queryEq _ _).
    + intros Hnone. clear Hin.
      induction db as [|d r IH]; simpl; [reflexivity|].
      assert (Hd : keep d = true).
      { unfold keep. specialize (Hnone d (or_introl eq_refl)).
        unfold hasId in Hnone. now destruct (queryEq _ _). }
      rewrite Hd, IH; auto. intros d' Hd'. apply Hnone. now right.
    + f_equal. clear Hin. induction db as [|d r IH]; simpl; [reflexivity|].
      destruct (keep d) eqn:K; simpl; [rewrite K, IH|]; auto.
    + intros Hid.
      assert (Ht : target (filter keep db) userId = None).
      { apply target_none_iff. intros d Hd. now apply Hin in Hd. }
      unfold read, readGate, isAuthorized.
      apply String.eqb_neq in Hid. simpl. rewrite Hid, Hsub, E, Ht.
      destruct (isSelf user userId); reflexivity.
Qed.

(** X10.  [readList] asks for no permission.  When the query is answered,
    the response is 200 and the body holds, in store order, the sanitized
    copy of every stored user whose id is one of the comma-separated ids,
    and of no other; none of them shows a password or a token; ids that
    select nobody add nothing.  When the query is rejected, the response
    is 500 with no body. *)
Theorem readList_sanitized_selection
    (exec : list obj -> Promise (list obj)) (userList : string)
    (db : list obj) :
  exists found,
    (forall d, In d found
               <-> In d db
                   /\ exists id, In id (split "," userList) /\ hasId id d)
    /\ keptIn found db
    /\ (exists others,
          Permutation db (found ++ others)
          /\ Forall (fun d => forall id, In id (split "," userList)
                                         -> ~ hasId id d) others)
    /\ (exec found = Resolved found ->
        readList exec userList db
        = send 200 (VArr (map (fun u => VObj (sanitizeUser u)) found)))
    /\ (forall error, exec found = Rejected error ->
                      readList exec userList db = send 500 VUndef)
    /\ Forall (fun u => noSecrets (sanitizeUser u)) found.
Proof.
  set (sel := idIn (split "," userList)).
  assert (Hsel : forall d, sel d = true
                           <-> exists id, In id (split "," userList)
                                          /\ hasId id d).
  { intros d. unfold sel, idIn. rewrite existsb_exists. reflexivity. }
  exists (filter sel db).
  split; [|split; [|split; [|split; [|split]]]].
  - intros d. now rewrite filter_In, Hsel.
  - apply keptIn_filter.
  - exists (filter (fun d => negb (sel d)) db). split.
    + induction db as [|d r IH]; simpl; [constructor|].
      destruct (sel d); simpl.
      * now constructor.
      * now apply Permutation_cons_app.
    + apply Forall_forall. intros d Hd id Hid Hh.
      apply filter_In in Hd as [_ Hd].
      assert (Hs : sel d = true) by (apply Hsel; now exists id).
      rewrite Hs in Hd. discriminate.
  - intros Hex. unfold readList, find. fold sel. now rewrite Hex.
  - intros error Hex. unfold readList, find. fold sel. now rewrite Hex.
  - apply Forall_forall. intros u _. apply sanitizeUser_noSecrets.
Qed.

Lemma setAll_lookup (changes : obj) (k : string) (doc : obj) :
  lookup k (setAll changes doc)
  = if has_key k changes then lookup k changes else lookup k doc.
Proof.
  unfold setAll.
  assert (G : forall l d,
             lookup k (fold_left
                         (fun d kv =>
                            assign (fst kv) (lookup (fst kv) changes) d) l d)
             = if has_key k l then lookup k changes else lookup k d).
  { induction l as [|[k' v] r IH]; intros d; simpl; [reflexivity|].
    rewrite IH. destruct (String.eqb_spec k k') as [-> | Hne].
    - rewrite lookup_assign_eq. now destruct (has_key k' r).
    - now rewrite lookup_assign_neq. }
  apply G.
Qed.

Lemma has_key_assign k v o : has_key k (assign k v o) = true.
Proof.
  induction o as [|[k' v'] r IH]; simpl.
  - now rewrite String.eqb_refl.
  - destruct (k =? k')%string eqn:E; simpl; rewrite E; auto.
Qed.

(** X11.  [adminUpdate] goes by the caller's role, not by the subroles: a
    caller whose role is a label other than the configured admin role gets
    403 and nothing is written, even with the admin label among the
    subroles; a caller with the admin role is never answered 403. *)
Theorem adminUpdate_checks_role
    (roleModule : option (value -> Promise value))
    (reqUser reqBody : obj) (db : list obj) (role : string) :
  lookup "role" reqUser = VStr role ->
  (role <> roleConfigAdmin ->
   adminUpdate roleModule reqUser reqBody db = (Some (send 403 VUndef), db))
  /\ (role = roleConfigAdmin ->
      fst (adminUpdate roleModule reqUser reqBody db)
      <> Some (send 403 VUndef)).
Proof.
  intros Hrole. unfold adminUpdate. rewrite Hrole. simpl. split.
  - intros Hne. apply String.eqb_neq in Hne. now rewrite Hne.
  - intros ->. rewrite String.eqb_refl. simpl.
    destruct (truthy (lookup "role" reqBody)).
    + destruct roleModule as [f|]; simpl; [|discriminate].
      destruct (f (lookup "role" reqBody)); simpl; [|discriminate].
      destruct (truthy _); simpl; [|discriminate].
      destruct (hashPassword shared _); simpl; discriminate.
    + destruct (truthy _); simpl; [|discriminate].
      destruct (hashPassword shared _); simpl; discriminate.
Qed.


(* ------------------------------------------------------------------ *)
(** ** removeSubroles and updateUserRoles *)

Lemma assign_same k o :
  has_key k o = true -> assign k (lookup k o) o = o.
Proof.
  induction o as [|[k' v] r IH]; simpl; [discriminate|].
  destruct (k =? k')%string; [reflexivity|].
  intros H. now rewrite IH.
Qed.

Lemma assign_assign k v v' o : assign k v (assign k v' o) = assign k v o.
Proof.
  induction o as [|[k' v0] r IH]; simpl.
  - now rewrite String.eqb_refl.
  - destruct (k =? k')%string eqn:E; simpl; rewrite E; [|rewrite IH];
      reflexivity.
Qed.

Lemma lookup_has_key k o : lookup k o <> VUndef -> has_key k o = true.
Proof.
  intros H. destruct (has_key k o) eqn:E; [reflexivity|].
  now apply has_key_false_lookup in E.
Qed.

Lemma filter_all_true {A} (p : A -> bool) (l : list A) :
  (forall x, In x l -> p x = true) -> filter p l = l.
Proof.
  induction l as [|a r IH]; simpl; [reflexivity|].
  intros H. rewrite (H a (or_introl eq_refl)), IH; auto.
Qed.

Lemma filter_filter {A} (p q : A -> bool) (l : list A) :
  filter p (filter q l) = filter (fun x => q x && p x) l.
Proof.
  induction l as [|a r IH]; simpl; [reflexivity|].
  destruct (q a); simpl; [destruct (p a)|]; now rewrite IH.
Qed.

(** One bulk update of [removeSubroles], when no user has a bare string
    for subroles: every user loses the label. *)
Lemma pull_pass (s : string) (db : list obj) :
  Forall (fun d => forall t, lookup "subroles" d <> VStr t) db ->
  updateManyOrStop (fun d => queryEq (lookup "subroles" d) (VStr s))
                   (pull "subroles" (VStr s)) db
  = map (pulled [s]) db.
Proof.
  induction 1 as [|d r Hd _ IH]; cbn [updateManyOrStop map];
    [reflexivity|].
  assert (Hsame : forall xs,
             lookup "subroles" d = VArr xs ->
             assign "subroles"
               (VArr (filter (fun x => negb (value_eqb x (VStr s))) xs)) d
             = pulled [s] d).
  { intros xs E. unfold pulled, withoutLabels. rewrite E. do 2 f_equal.
    apply filter_ext. intros x. simpl. now rewrite orb_false_r. }
  destruct (queryEq (lookup "subroles" d) (VStr s)) eqn:Q.
  - apply queryEq_str in Q as [Q | (xs & Q & _)]; [now destruct (Hd s)|].
    rewrite IH. unfold pull. rewrite Q. f_equal. now apply Hsame.
  - rewrite IH. f_equal.
    destruct (lookup "subroles" d) as [ | | | | | | xs | ] eqn:E;
      try (unfold pulled; rewrite E; reflexivity).
    rewrite <- (Hsame xs eq_refl). rewrite filter_all_true.
    + rewrite <- E. symmetry. apply assign_same, lookup_has_key.
      rewrite E. discriminate.
    + intros x Hx.
      destruct (value_eqb x (VStr s)) eqn:V; [|reflexivity].
      apply value_eqb_str in V. subst x.
      assert (queryEq (VArr xs) (VStr s) = true); [|congruence].
      apply queryEq_str. right. now exists xs.
Qed.

Lemma pulled_pulled s labels d :
  pulled labels (pulled [s] d) = pulled (s :: labels) d.
Proof.
  unfold pulled.
  destruct (lookup "subroles" d) as [ | | | | | | xs | ] eqn:E;
    rewrite ?E; try reflexivity.
  rewrite lookup_assign_eq, assign_assign. do 2 f_equal.
  unfold withoutLabels. rewrite filter_filter.
  apply filter_ext. intros x. simpl.
  rewrite orb_false_r. now destruct (value_eqb x (VStr s)).
Qed.

Lemma pulled_not_string labels d :
  (forall t, lookup "subroles" d <> VStr t) ->
  forall t, lookup "subroles" (pulled labels d) <> VStr t.
Proof.
  intros H t. unfold pulled.
  destruct (lookup "subroles" d) eqn:E; rewrite ?E; try discriminate.
  - apply H.
  - now rewrite lookup_assign_eq.
Qed.

Lemma removeSubroles_map (labels : list string) :
  forall db,
    Forall (fun d => forall t, lookup "subroles" d <> VStr t) db ->
    removeSubroles labels db = map (pulled labels) db.
Proof.
  unfold removeSubroles.
  induction labels as [|s labels IH]; intros db H; simpl.
  - symmetry. rewrite <- (map_id db) at 2. apply map_ext_in.
    intros d _. unfold pulled, withoutLabels.
    destruct (lookup "subroles" d) eqn:E; try reflexivity.
    rewrite filter_all_true by reflexivity. rewrite <- E.
    apply assign_same, lookup_has_key. rewrite E. discriminate.
  - rewrite pull_pass by assumption. rewrite IH.
    + rewrite map_map. apply map_ext. intros d. apply pulled_pulled.
    + apply Forall_forall. intros d' Hd'.
      apply in_map_iff in Hd' as (d & <- & Hd).
      apply pulled_not_string. rewrite Forall_forall in H. now apply H.
Qed.

(** X13.  In a store where no user has a bare string for subroles,
    [removeSubroles(labels)] leaves every user in place with the same
    fields, except that a list of subroles loses exactly the labels given:
    none of them is left, and every other entry stays, in order. *)
Theorem removeSubroles_pulls_labels (labels : list string) (db : list obj) :
  Forall (fun d => forall t, lookup "subroles" d <> VStr t) db ->
  let db' := removeSubroles labels db in
  List.length db' = List.length db
  /\ forall i d,
       nth_error db i = Some d ->
       exists d',
         nth_error db' i = Some d'
         /\ (forall k, k <> "subroles" -> lookup k d' = lookup k d)
         /\ ((forall xs, lookup "subroles" d <> VArr xs) -> d' = d)
         /\ forall xs,
              lookup "subroles" d = VArr xs ->
              exists xs',
                lookup "subroles" d' = VArr xs'
                /\ xs' = withoutLabels labels xs
                /\ (forall s, In s labels -> ~ In (VStr s) xs')
                /\ (forall x, In x xs ->
                              (forall s, In s labels -> x <> VStr s) ->
                              In x xs').
Proof.
  intros H db'. unfold db'. rewrite removeSubroles_map by assumption.
  split; [apply length_map|].
  intros i d Hd. exists (pulled labels d).
  split; [rewrite nth_error_map, Hd; reflexivity|].
  unfold pulled. split; [|split].
  - intros k Hk. destruct (lookup "subroles" d); try reflexivity.
    now apply lookup_assign_neq.
  - intros Hn. destruct (lookup "subroles" d) eqn:E; try reflexivity.
    now destruct (Hn xs).
  - intros xs Hxs. rewrite Hxs. eexists.
    split; [apply lookup_assign_eq|]. split; [reflexivity|].
    unfold withoutLabels. split.
    + intros s Hs Hin. apply filter_In in Hin as [_ Hf].
      apply negb_true_iff in Hf.
      assert (existsb (fun s0 => value_eqb (VStr s) (VStr s0)) labels = true);
        [|congruence].
      apply existsb_exists. exists s. split; [exact Hs|].
      apply value_eqb_refl.
    + intros x Hx Hnot. apply filter_In. split; [exact Hx|].
      apply negb_true_iff.
      destruct (existsb _ labels) eqn:E; [|reflexivity].
      apply existsb_exists in E as (s & Hs & V).
      apply value_eqb_str in V. now destruct (Hnot s Hs).
Qed.

Lemma updateFirst_none sel change (db : list obj) :
  (forall d, In d db -> sel d = false) -> updateFirst sel change db = db.
Proof.
  induction db as [|d r IH]; simpl; [reflexivity|].
  intros H. rewrite (H d (or_introl eq_refl)), IH; auto.
Qed.

Lemma updateFirst_first sel change (before after : list obj) (d : obj) :
  (forall x, In x before -> sel x = false) -> sel d = true ->
  updateFirst sel change (before ++ d :: after)
  = (before ++ change d :: after)%list.
Proof.
  intros Hb Hd. induction before as [|x r IH]; simpl.
  - now rewrite Hd.
  - rewrite (Hb x (or_introl eq_refl)), IH; auto.
    intros y Hy. apply Hb. now right.
Qed.

(** X14.  [updateUserRoles(id, role, subroles)] changes the first user
    with that id and nobody else: the user gets the role and exactly those
    subroles and keeps every other field, and from then on passes the
    admin check of the controller exactly when "admin" is among the
    subroles given.  When no user has the id the store is as it was. *)
Theorem updateUserRoles_first_user_only
    (userId targetRole : string) (subroles : list string)
    (before after : list obj) (d : obj) :
  (forall x, In x before -> ~ hasId userId x) ->
  (hasId userId d ->
   exists d',
     updateUserRoles userId targetRole subroles (before ++ d :: after)
     = (before ++ d' :: after)%list
     /\ lookup "role" d' = VStr targetRole
     /\ lookup "subroles" d' = VArr (map VStr subroles)
     /\ (forall k, k <> "role" -> k <> "subroles" -> lookup k d' = lookup k d)
     /\ (forall action,
           isAuthorized d' action = Some true <-> In ADMIN_ROLE_NAME subroles))
  /\ (~ hasId userId d -> (forall x, In x after -> ~ hasId userId x) ->
      updateUserRoles userId targetRole subroles (before ++ d :: after)
      = (before ++ d :: after)%list).
Proof.
  intros Hb.
  assert (Hb' : forall x, In x before ->
                          queryEq (lookup "_id" x) (VStr userId) = false).
  { intros x Hx. specialize (Hb x Hx). unfold hasId in Hb.
    now destruct (queryEq _ _). }
  split.
  - intros Hd. unfold updateUserRoles.
    rewrite updateFirst_first by assumption.
    eexists. split; [reflexivity|].
    change (setAll [("role", VStr targetRole);
                    ("subroles", VArr (map VStr subroles))] d)
      with (assign "subroles" (VArr (map VStr subroles))
              (assign "role" (VStr targetRole) d)).
    split; [|split; [|split]].
    + rewrite lookup_assign_neq by discriminate. apply lookup_assign_eq.
    + apply lookup_assign_eq.
    + intros k Hr Hs. now rewrite !lookup_assign_neq by assumption.
    + intros action. unfold isAuthorized. rewrite lookup_assign_eq.
      split.
      * intros E. injection E as E.
        apply existsb_exists in E as (x & Hx & Hs).
        apply in_map_iff in Hx as (s & <- & Hin).
        simpl in Hs. apply String.eqb_eq in Hs. now subst.
      * intros Hin. f_equal. apply existsb_exists.
        exists (VStr ADMIN_ROLE_NAME). split; [now apply in_map|].
        apply String.eqb_refl.
  - intros Hd Ha. unfold updateUserRoles. apply updateFirst_none.
    intros x Hx. apply in_app_or in Hx as [Hx | [<- | Hx]].
    + now apply Hb'.
    + unfold hasId in Hd. now destruct (queryEq _ _).
    + specialize (Ha x Hx). unfold hasId in Ha. now destruct (queryEq _ _).
Qed.

(* ------------------------------------------------------------------ *)
(** ** verifyEmail and requestVerifcationEmail *)

Lemma find_split {A} (f : A -> bool) (l : list A) (x : A) :
  List.find f l = Some x ->
  exists before after,
    l = (before ++ x :: after)%list
    /\ forall y, In y before -> f y = false.
Proof.
  induction l as [|a r IH]; simpl; [discriminate|].
  destruct (f a) eqn:E.
  - intros H. injection H as <-. exists [], r. split; [reflexivity|].
    intros y [].
  - intros H. destruct (IH H) as (before & after & -> & Hb).
    exists (a :: before), after. split; [reflexivity|].
    intros y [<- | Hy]; auto.
Qed.

Lemma find_first {A} (f : A -> bool) (before after : list A) (x : A) :
  (forall y, In y before -> f y = false \/ y = x) -> f x = true ->
  List.find f (before ++ x :: after) = Some x.
Proof.
  intros Hb Hx. induction before as [|a r IH]; simpl.
  - now rewrite Hx.
  - destruct (Hb a (or_introl eq_refl)) as [E | ->].
    + rewrite E. apply IH. intros y Hy. apply Hb. now right.
    + now rewrite Hx.
Qed.

Lemma verifiedUser_id user :
  lookup "_id" (verifiedUser user) = lookup "_id" user.
Proof.
  unfold verifiedUser. now rewrite !lookup_assign_neq by discriminate.
Qed.

Lemma verifiedUser_token token user :
  hasVerificationToken token user = true ->
  hasVerificationToken token (verifiedUser user) = true
  /\ member (lookup "verification" (verifiedUser user)) "expires"
     = Some VUndef.
Proof.
  unfold hasVerificationToken, verifiedUser, path2. intros H.
  rewrite lookup_assign_neq by discriminate. rewrite lookup_assign_eq.
  destruct (lookup "verification" user); try discriminate.
  simpl. rewrite lookup_assign_neq by discriminate.
  split; [exact H|]. now rewrite lookup_assign_eq.
Qed.

Lemma verifiedUser_again token user :
  hasVerificationToken token user = true ->
  verifiedUser (verifiedUser user) = verifiedUser user.
Proof.
  unfold hasVerificationToken, path2. intros H.
  destruct (lookup "verification" user) as [ | | | | | | | p] eqn:E;
    try discriminate.
  unfold verifiedUser. rewrite E. simpl.
  rewrite lookup_assign_neq by discriminate. rewrite lookup_assign_eq.
  simpl. rewrite assign_assign.
  set (v := VObj (assign "expires" VUndef p)).
  set (u1 := assign "verified" (VBool true) (assign "verification" v user)).
  assert (Hv : lookup "verification" u1 = v).
  { unfold u1. rewrite lookup_assign_neq by discriminate.
    apply lookup_assign_eq. }
  assert (Ht : lookup "verified" u1 = VBool true)
    by apply lookup_assign_eq.
  rewrite <- Hv at 1. rewrite assign_same.
  - rewrite <- Ht at 1. apply assign_same, lookup_has_key.
    rewrite Ht. discriminate.
  - apply lookup_has_key. rewrite Hv. discriminate.
Qed.

Lemma replaceById_again id doc db :
  lookup "_id" doc = id ->
  replaceById id doc (replaceById id doc db) = replaceById id doc db.
Proof.
  intros Hid. rewrite !replaceById_spec, map_map. apply map_ext. intros d.
  destruct (value_eqb (lookup "_id" d) id) eqn:E.
  - now rewrite Hid, value_eqb_refl.
  - now rewrite E.
Qed.

(** [verifyEmail] on the first user the token selects, when the expiry has
    not passed and the store accepts the save. *)
Lemma verifyEmail_accepts
    (now : Z) (token : string) (w : World) (user : obj) :
  findOne (hasVerificationToken token) (users w) = Some user ->
  (forall expires,
     member (lookup "verification" user) "expires" = Some expires ->
     gt now expires = false) ->
  saveChanged (users w) (verifiedUser user) = Resolved (verifiedUser user) ->
  verifyEmail now token w
  = (send 204 VUndef,
     {| users := replaceById (lookup "_id" user) (verifiedUser user) (users w);
        outbox := outbox w |}).
Proof.
  intros Hfound Hexp Hsave. unfold verifyEmail.
  change (fun d : obj =>
            queryEq (path2 d "verification" "token") (VStr token))
    with (hasVerificationToken token).
  rewrite Hfound.
  assert (Hsel : hasVerificationToken token user = true).
  { unfold findOne in Hfound. now apply find_some in Hfound. }
  destruct (member (lookup "verification" user) "expires") as [e|] eqn:M.
  - rewrite (Hexp e eq_refl). fold (verifiedUser user).
    now rewrite Hsave, verifiedUser_id.
  - unfold hasVerificationToken, path2 in Hsel.
    destruct (lookup "verification" user); discriminate.
Qed.

(** [verifyEmail] when the store rejects the save: the [.catch] answers
    and nothing is stored. *)
Lemma verifyEmail_save_rejected
    (now : Z) (token : string) (w : World) (user : obj) (error : obj) :
  findOne (hasVerificationToken token) (users w) = Some user ->
  (forall expires,
     member (lookup "verification" user) "expires" = Some expires ->
     gt now expires = false) ->
  saveChanged (users w) (verifiedUser user) = Rejected error ->
  verifyEmail now token w = (verifyEmailFailed error, w).
Proof.
  intros Hfound Hexp Hsave. unfold verifyEmail.
  change (fun d : obj =>
            queryEq (path2 d "verification" "token") (VStr token))
    with (hasVerificationToken token).
  rewrite Hfound.
  assert (Hsel : hasVerificationToken token user = true).
  { unfold findOne in Hfound. now apply find_some in Hfound. }
  destruct (member (lookup "verification" user) "expires") as [e|] eqn:M.
  - rewrite (Hexp e eq_refl). fold (verifiedUser user).
    now rewrite Hsave.
  - unfold hasVerificationToken, path2 in Hsel.
    destruct (lookup "verification" user); discriminate.
Qed.

(** X15.  A token that selects nobody gets 400 "Token invalid" from
    [verifyEmail], and the store is as it was. *)
Theorem verifyEmail_unknown_token (now : Z) (token : string) (w : World) :
  (forall d, In d (users w) -> hasVerificationToken token d = false) ->
  verifyEmail now token w
  = (send 400 (VObj [("message", VStr "Token invalid")]), w).
Proof.
  intros Hnone. unfold verifyEmail.
  change (fun d : obj =>
            queryEq (path2 d "verification" "token") (VStr token))
    with (hasVerificationToken token).
  destruct (findOne _ (users w)) as [u|] eqn:F; [|reflexivity].
  unfold findOne in F. apply find_some in F as [Hin Hsel].
  rewrite (Hnone u Hin) in Hsel. discriminate.
Qed.

(** X16.  A verification token is not used up.  When [verifyEmail] accepts
    a token whose expiry has not passed and the store accepts the save of
    the verified user, the first user the token selects is stored
    verified, with the expiry removed and the token kept; and from then
    on the same token is accepted again at any later time, with 204 and a
    store that does not change any more, as long as the store accepts
    the save again. *)
Theorem verifyEmail_token_stays_valid
    (now : Z) (token : string) (w : World) (user : obj) (expires : Z) :
  findOne (hasVerificationToken token) (users w) = Some user ->
  path2 user "verification" "expires" = VNum expires
  \/ path2 user "verification" "expires" = VDate expires ->
  now <= expires ->
  saveChanged (users w) (verifiedUser user) = Resolved (verifiedUser user) ->
  saveChanged (replaceById (lookup "_id" user) (verifiedUser user) (users w))
              (verifiedUser user)
  = Resolved (verifiedUser user) ->
  let w' := snd (verifyEmail now token w) in
  verifyEmail now token w = (send 204 VUndef, w')
  /\ users w' = replaceById (lookup "_id" user) (verifiedUser user) (users w)
  /\ In (verifiedUser user) (users w')
  /\ lookup "verified" (verifiedUser user) = VBool true
  /\ path2 (verifiedUser user) "verification" "expires" = VUndef
  /\ path2 (verifiedUser user) "verification" "token"
     = path2 user "verification" "token"
  /\ forall later, verifyEmail later token w' = (send 204 VUndef, w').
Proof.
  intros Hfound Hexp Hnow Hsave Hsave' w'.
  assert (Hsel : hasVerificationToken token user = true).
  { unfold findOne in Hfound. now apply find_some in Hfound. }
  assert (Hin : In user (users w)).
  { unfold findOne in Hfound. now apply find_some in Hfound. }
  assert (Hobj : exists p, lookup "verification" user = VObj p).
  { destruct Hexp as [H | H];
      apply path2_object in H as (p & Hp & _); try discriminate; eauto. }
  destruct Hobj as (p & Hp).
  assert (Hfirst : verifyEmail now token w
                   = (send 204 VUndef,
                      {| users := replaceById (lookup "_id" user)
                                              (verifiedUser user) (users w);
                         outbox := outbox w |})).
  { apply verifyEmail_accepts; [exact Hfound| |exact Hsave].
    intros e He. apply (gt_not_past now expires); [|exact Hnow].
    unfold path2 in Hexp. rewrite Hp in Hexp, He. simpl in He.
    injection He as <-. exact Hexp. }
  assert (Hw : w' = {| users := replaceById (lookup "_id" user)
                                            (verifiedUser user) (users w);
                       outbox := outbox w |}).
  { unfold w'. now rewrite Hfirst. }
  rewrite Hw. simpl.
  split; [exact Hfirst|]. split; [reflexivity|].
  split; [now apply replaceById_In|].
  split; [apply lookup_assign_eq|].
  split.
  { unfold verifiedUser, path2.
    rewrite lookup_assign_neq by discriminate.
    rewrite lookup_assign_eq, Hp. simpl. apply lookup_assign_eq. }
  split.
  { unfold verifiedUser, path2.
    rewrite lookup_assign_neq by discriminate.
    rewrite lookup_assign_eq, Hp. simpl.
    now rewrite lookup_assign_neq by discriminate. }
  intros later.
  destruct (verifiedUser_token token user Hsel) as [Hsel' Hmem].
  assert (Hfound' :
            findOne (hasVerificationToken token)
                    (replaceById (lookup "_id" user) (verifiedUser user)
                                 (users w))
            = Some (verifiedUser user)).
  { unfold findOne in *. apply find_split in Hfound
      as (before & after & Hdb & Hb).
    rewrite Hdb, replaceById_spec, map_app. simpl.
    rewrite value_eqb_refl.
    apply find_first; [|exact Hsel'].
    intros y Hy. apply in_map_iff in Hy as (x & <- & Hx).
    destruct (value_eqb _ _); [now right | left; now apply Hb]. }
  rewrite (verifyEmail_accepts later token _ (verifiedUser user)); simpl.
  - rewrite (verifiedUser_again token) by assumption.
    rewrite verifiedUser_id.
    now rewrite replaceById_again by apply verifiedUser_id.
  - exact Hfound'.
  - intros e He. rewrite Hmem in He. injection He as <-. reflexivity.
  - now rewrite (verifiedUser_again token) by assumption.
Qed.

(* ------------------------------------------------------------------ *)
(** ** register, from the request to the verified user *)

Lemma registerSaveFailed_status error resp :
  registerSaveFailed error = Some resp -> status resp <> 201.
Proof.
  unfold registerSaveFailed.
  destruct (value_eqb _ _).
  - destruct (lookup "errmsg" error); try discriminate.
    destruct (is_str _ _); intros H; injection H as <-; discriminate.
  - intros H. injection H as <-. discriminate.
Qed.

Lemma registrant_fields now token reqBody url hash :
  let newUser := registrant now token reqBody url hash in
  lookup "password" newUser = hash
  /\ lookup "role" newUser = defaultUserRole config
  /\ lookup "profileImageURL" newUser = VStr url
  /\ lookup "verification" newUser
     = VObj [("token", VStr token);
             ("expires", VNum (now + emailVerificationTTL config))].
Proof.
  unfold registrant. repeat split.
  - rewrite lookup_assign_neq by discriminate. apply lookup_assign_eq.
  - rewrite !lookup_assign_neq by discriminate. apply lookup_assign_eq.
  - rewrite !lookup_assign_neq by discriminate. apply lookup_assign_eq.
  - apply lookup_assign_eq.
Qed.

(** X17.  [register] writes only when it answers 201.  And when it does,
    registration is enabled, the policy accepted the password, and the one
    user that joined the store is what the store made of a document whose
    password is the hash, never the password as it came, whose role is the
    configured default, whatever role the body asked for, and whose
    verification holds the fresh token and an expiry one TTL from now.
    The 201 body carries the saved user as it is stored. *)
Theorem register_saves_hash_and_default_role
    (now : Z) (token : string) (reqBody : obj) (w : World) :
  let r := register now token reqBody w in
  ((forall resp, fst r = Some resp -> status resp <> 201) -> snd r = w)
  /\ (forall resp,
        fst r = Some resp -> status resp = 201 ->
        exists url hash savedUser,
          let newUser := registrant now token reqBody url hash in
          allowRegistration config = true
          /\ isStrongPassword (lookup "password" (mapUser now reqBody)) = true
          /\ hashPassword shared (lookup "password" (mapUser now reqBody))
             = Resolved hash
          /\ saveNew (users w) newUser = Resolved savedUser
          /\ users (snd r) = (users w ++ [savedUser])%list
          /\ lookup "password" newUser = hash
          /\ lookup "role" newUser = defaultUserRole config
          /\ lookup "verification" newUser
             = VObj [("token", VStr token);
                     ("expires", VNum (now + emailVerificationTTL config))]
          /\ exists fields,
               body resp = VObj fields /\ lookup "user" fields = VObj savedUser).
Proof.
  intros r. subst r. unfold register.
  destruct (generateProfileImageURL _) as [url|];
    [|split; [reflexivity | discriminate]].
  simpl. rewrite !lookup_assign_neq by discriminate.
  destruct (allowRegistration config) eqn:A; simpl.
  2:{ split; [reflexivity|]. intros resp H. injection H as <-. discriminate. }
  destruct (isStrongPassword _) eqn:S; simpl.
  2:{ split; [reflexivity|]. intros resp H. injection H as <-. discriminate. }
  destruct (hashPassword shared _) as [hash|e] eqn:H;
    [|split; [reflexivity | discriminate]].
  fold (registrant now token reqBody url hash).
  destruct (saveNew (users w) _) as [saved|e] eqn:V.
  2:{ simpl. split; [reflexivity|]. intros resp Hr Hs.
      now apply registerSaveFailed_status in Hr. }
  destruct (registrant_fields now token reqBody url hash)
    as (Hp & Hrole & _ & Hver).
  assert (Hdone : forall fields l resp,
             lookup "user" fields = VObj saved ->
             l = (users w ++ [saved])%list ->
             Some (send 201 (VObj fields)) = Some resp ->
             exists url0 hash0 savedUser,
               let newUser := registrant now token reqBody url0 hash0 in
               true = true
               /\ true = true
               /\ Resolved hash = Resolved hash0
               /\ saveNew (users w) newUser = Resolved savedUser
               /\ l = (users w ++ [savedUser])%list
               /\ lookup "password" newUser = hash0
               /\ lookup "role" newUser = defaultUserRole config
               /\ lookup "verification" newUser
                  = VObj [("token", VStr token);
                          ("expires",
                           VNum (now + emailVerificationTTL config))]
               /\ exists fields0,
                    body resp = VObj fields0
                    /\ lookup "user" fields0 = VObj savedUser).
  { intros fields l resp Hu Hw Hr. injection Hr as <-.
    exists url, hash, saved. repeat split; auto.
    exists fields. split; [reflexivity | exact Hu]. }
  destruct (requireEmailVerification config).
  - unfold sendEmailVerificationEmail, deliver, emailVerificationEmail.
    rewrite Hver. simpl.
    destruct (sendMail shared _); simpl.
    + split.
      * intros Hno. now destruct (Hno _ eq_refl).
      * intros resp Hr _. eapply Hdone; [| |exact Hr]; reflexivity.
    + split.
      * intros Hno. now destruct (Hno _ eq_refl).
      * intros resp Hr _. eapply Hdone; [| |exact Hr]; reflexivity.
  - simpl. split.
    + intros Hno. now destruct (Hno _ eq_refl).
    + intros resp Hr _. eapply Hdone; [| |exact Hr]; reflexivity.
Qed.

(** X18.  A verification mail that cannot be sent does not undo the
    registration: the user is saved all the same, the answer is still 201,
    with the message "Verification email not sent" beside the user, and
    the mail that was handed to the mailer carries the fresh token. *)
Theorem register_mail_failure_keeps_user
    (now : Z) (token : string) (reqBody : obj) (w : World)
    (url : string) (hash : value) (savedUser mail error : obj) :
  let newUser := registrant now token reqBody url hash in
  allowRegistration config = true ->
  requireEmailVerification config = true ->
  generateProfileImageURL (lookup "email" (mapUser now reqBody)) = Some url ->
  isStrongPassword (lookup "password" (mapUser now reqBody)) = true ->
  hashPassword shared (lookup "password" (mapUser now reqBody))
  = Resolved hash ->
  saveNew (users w) newUser = Resolved savedUser ->
  emailVerificationEmail newUser = Some mail ->
  sendMail shared mail = Rejected error ->
  register now token reqBody w
  = (Some (send 201
             (VObj [("user", VObj savedUser);
                    ("message", VStr "Verification email not sent")])),
     {| users := users w ++ [savedUser]; outbox := outbox w ++ [mail] |})
  /\ lookup "text" mail
     = VStr ("Verify your email by going here: "
             ++ generateUrl shared ++ "/verifyEmail;token=" ++ token).
Proof.
  intros newUser Hallow Hreq Hurl Hstrong Hhash Hsave Hmail Hsend.
  split.
  - unfold register. rewrite Hurl, Hallow. simpl.
    rewrite !lookup_assign_neq by discriminate.
    rewrite Hstrong, Hhash. simpl.
    fold (registrant now token reqBody url hash). fold newUser.
    rewrite Hsave, Hreq.
    unfold sendEmailVerificationEmail, deliver. rewrite Hmail. simpl.
    rewrite Hsend. reflexivity.
  - unfold emailVerificationEmail in Hmail.
    destruct (registrant_fields now token reqBody url hash)
      as (_ & _ & _ & Hver).
    fold newUser in Hver. rewrite Hver in Hmail. simpl in Hmail.
    injection Hmail as <-. reflexivity.
Qed.

(** X19.  From registration to a verified user.  When the store saves the
    new user as handed over, under an id and a token that no stored user
    has, and later accepts the save of the verified user, [verifyEmail]
    with that token answers 204 up to the expiry and the new user is then
    stored verified, the other users untouched; once the expiry has passed
    it answers 400 "Token has expired" and nothing changes. *)
Theorem register_then_verifyEmail
    (now later : Z) (token : string) (reqBody : obj) (w : World)
    (url : string) (hash : value) :
  let newUser := registrant now token reqBody url hash in
  let w1 := snd (register now token reqBody w) in
  allowRegistration config = true ->
  generateProfileImageURL (lookup "email" (mapUser now reqBody)) = Some url ->
  isStrongPassword (lookup "password" (mapUser now reqBody)) = true ->
  hashPassword shared (lookup "password" (mapUser now reqBody))
  = Resolved hash ->
  saveNew (users w) newUser = Resolved newUser ->
  saveChanged (users w ++ [newUser])%list (verifiedUser newUser)
  = Resolved (verifiedUser newUser) ->
  (forall d, In d (users w) ->
             hasVerificationToken token d = false
             /\ value_eqb (lookup "_id" d) (lookup "_id" newUser) = false) ->
  users w1 = (users w ++ [newUser])%list
  /\ (later <= now + emailVerificationTTL config ->
      verifyEmail later token w1
      = (send 204 VUndef,
         {| users := users w ++ [verifiedUser newUser];
            outbox := outbox w1 |})
      /\ lookup "verified" (verifiedUser newUser) = VBool true)
  /\ (now + emailVerificationTTL config < later ->
      verifyEmail later token w1
      = (send 400 (VObj [("message", VStr "Token has expired")]), w1)).
Proof.
  intros newUser w1 Hallow Hurl Hstrong Hhash Hsave Hsave' Hfresh.
  destruct (registrant_fields now token reqBody url hash)
    as (_ & _ & _ & Hver).
  fold newUser in Hver.
  assert (Hw1 : users w1 = (users w ++ [newUser])%list).
  { unfold w1, register. rewrite Hurl, Hallow. simpl.
    rewrite !lookup_assign_neq by discriminate.
    rewrite Hstrong, Hhash. simpl.
    fold (registrant now token reqBody url hash). fold newUser.
    rewrite Hsave.
    destruct (requireEmailVerification config); [|reflexivity].
    unfold sendEmailVerificationEmail, deliver, emailVerificationEmail.
    rewrite Hver. simpl. destruct (sendMail shared _); reflexivity. }
  assert (Hsel : hasVerificationToken token newUser = true).
  { unfold hasVerificationToken, path2. rewrite Hver. simpl.
    apply queryEq_str. now left. }
  assert (Hfound : findOne (hasVerificationToken token) (users w1)
                   = Some newUser).
  { rewrite Hw1. unfold findOne. apply find_first; [|exact Hsel].
    intros y Hy. left. now apply Hfresh. }
  split; [exact Hw1|]. split.
  - intros Hlater. split; [|apply lookup_assign_eq].
    rewrite (verifyEmail_accepts later token w1 newUser); auto.
    + f_equal. f_equal. rewrite Hw1, replaceById_spec, map_app.
      cbn [map]. rewrite value_eqb_refl. f_equal.
      rewrite <- (map_id (users w)) at 2. apply map_ext_in.
      intros d Hd. now rewrite (proj2 (Hfresh d Hd)).
    + intros e He. rewrite Hver in He. simpl in He. injection He as <-.
      apply (gt_not_past later (now + emailVerificationTTL config)); auto.
    + now rewrite Hw1.
  - intros Hlate.
    change (fun d : obj =>
              queryEq (path2 d "verification" "token") (VStr token))
      with (hasVerificationToken token) in *.
    unfold verifyEmail.
    change (fun d : obj =>
              queryEq (path2 d "verification" "token") (VStr token))
      with (hasVerificationToken token).
    rewrite Hfound, Hver. simpl. unfold gt. simpl.
    assert (G : (later >? now + emailVerificationTTL config) = true)
      by (apply Z.gtb_lt; lia).
    rewrite G. reflexivity.
Qed.


(* ------------------------------------------------------------------ *)
(** ** resetPassword and requestChangePasswordEmail *)

(** X21.  [resetPassword] checks the body before it asks the store, in
    this order: without a password it answers 400 "Missing password", then
    without a token 400 "Missing token", then for a password the policy
    refuses 400 "Password invalid"; each time the store is not touched,
    whatever it holds. *)
Theorem resetPassword_checks_body_first (now : Z) (reqBody : obj) (w : World) :
  (truthy (lookup "password" reqBody) = false ->
   resetPassword now reqBody w
   = (send 400 (VObj [("error", VStr "Missing password")]), w))
  /\ (truthy (lookup "password" reqBody) = true ->
      truthy (lookup "token" reqBody) = false ->
      resetPassword now reqBody w
      = (send 400 (VObj [("error", VStr "Missing token")]), w))
  /\ (truthy (lookup "password" reqBody) = true ->
      truthy (lookup "token" reqBody) = true ->
      isStrongPassword (lookup "password" reqBody) = false ->
      resetPassword now reqBody w
      = (send 400 (VObj [("error", VStr "Password invalid")]), w)).
Proof.
  unfold resetPassword, resetPasswordQuery. repeat split.
  - intros ->. reflexivity.
  - intros -> ->. reflexivity.
  - intros -> -> ->. reflexivity.
Qed.

Lemma resetPassword_query_ok reqBody db :
  truthy (lookup "password" reqBody) = true ->
  truthy (lookup "token" reqBody) = true ->
  isStrongPassword (lookup "password" reqBody) = true ->
  resetPasswordQuery reqBody db
  = Resolved (find (hasResetToken (lookup "token" reqBody)) db).
Proof.
  intros Hp Ht Hs. unfold resetPasswordQuery. now rewrite Hp, Ht, Hs.
Qed.

(** X22.  With a body that passes the checks, [resetPassword] refuses a
    token that selects no user, or more than one, with 400 "Token invalid",
    and a token whose one user has an expiry before now with 400 "Token
    has expired"; the store is as it was. *)
Theorem resetPassword_refuses_token (now : Z) (reqBody : obj) (w : World) :
  truthy (lookup "password" reqBody) = true ->
  truthy (lookup "token" reqBody) = true ->
  isStrongPassword (lookup "password" reqBody) = true ->
  let found := find (hasResetToken (lookup "token" reqBody)) (users w) in
  (List.length found <> 1%nat ->
   resetPassword now reqBody w
   = (send 400 (VObj [("error", VStr "Token invalid")]), w))
  /\ (forall user expires,
        found = [user] ->
        path2 user "resetPassword" "expires" = VNum expires
        \/ path2 user "resetPassword" "expires" = VDate expires ->
        expires < now ->
        resetPassword now reqBody w
        = (send 400 (VObj [("error", VStr "Token has expired")]), w)).
Proof.
  intros Hp Ht Hs found. unfold resetPassword.
  rewrite resetPassword_query_ok by assumption. fold found. simpl. split.
  - intros Hlen. destruct found as [|u [|u' r]]; try reflexivity.
    now destruct Hlen.
  - intros user expires -> Hexp Hlt.
    assert (Hgt : (now >? expires) = true) by (apply Z.gtb_lt; lia).
    destruct Hexp as [Hexp | Hexp];
      apply path2_object in Hexp as (p & Hq & He); try discriminate;
      rewrite Hq; simpl; rewrite He; unfold gt; simpl; rewrite Hgt;
      reflexivity.
Qed.

Lemma queryEq_undef_truthy tok : truthy tok = true -> queryEq VUndef tok = false.
Proof. destruct tok; simpl; try discriminate; reflexivity. Qed.

Lemma find_singleton_others (sel : obj -> bool) (db : list obj) (u : obj) :
  find sel db = [u] ->
  forall d, In d db -> sel d = true -> d = u.
Proof.
  intros H d Hin Hd.
  assert (Hf : In d (find sel db)) by (apply filter_In; auto).
  rewrite H in Hf. destruct Hf as [<- | []]. reflexivity.
Qed.

(** X23.  A reset token works once.  After a [resetPassword] whose save the
    store accepted, answered with 204, the same request is refused with
    400 "Token invalid", and the store stays as the first one left it. *)
Theorem resetPassword_token_once
    (now later : Z) (reqBody : obj) (w : World) (user : obj) (expires : Z)
    (hashed : value) :
  truthy (lookup "password" reqBody) = true ->
  truthy (lookup "token" reqBody) = true ->
  isStrongPassword (lookup "password" reqBody) = true ->
  find (hasResetToken (lookup "token" reqBody)) (users w) = [user] ->
  path2 user "resetPassword" "expires" = VNum expires
  \/ path2 user "resetPassword" "expires" = VDate expires ->
  now <= expires ->
  hashPassword shared (lookup "password" reqBody) = Resolved hashed ->
  saveChanged (users w) (resetUser hashed user)
  = Resolved (resetUser hashed user) ->
  let w' := snd (resetPassword now reqBody w) in
  fst (resetPassword now reqBody w) = send 204 VUndef
  /\ users w' = replaceById (lookup "_id" user) (resetUser hashed user)
                            (users w)
  /\ resetPassword later reqBody w'
     = (send 400 (VObj [("error", VStr "Token invalid")]), w').
Proof.
  intros Hp Ht Hs Hfind Hexp Hnow Hhash Hsave w'.
  assert (Hid : lookup "_id" (resetUser hashed user) = lookup "_id" user).
  { unfold resetUser. now rewrite !lookup_assign_neq by discriminate. }
  assert (Hfirst : resetPassword now reqBody w
                   = (send 204 VUndef,
                      {| users := replaceById (lookup "_id" user)
                                              (resetUser hashed user)
                                              (users w);
                         outbox := outbox w |})).
  { unfold resetPassword.
    rewrite resetPassword_query_ok by assumption. rewrite Hfind. simpl.
    assert (Hm : member (lookup "resetPassword" user) "expires"
                 = Some (path2 user "resetPassword" "expires")).
    { destruct Hexp as [H | H];
        apply path2_object in H as (p & Hq & He); try discriminate;
        unfold path2; rewrite Hq; reflexivity. }
    rewrite Hm, (gt_not_past now expires) by assumption.
    rewrite Hhash. cbn [then_]. now rewrite Hsave, Hid. }
  unfold w'. rewrite Hfirst. simpl. split; [reflexivity|].
  split; [reflexivity|].
  unfold resetPassword. rewrite resetPassword_query_ok by assumption.
  simpl.
  assert (Hnone : find (hasResetToken (lookup "token" reqBody))
                    (replaceById (lookup "_id" user) (resetUser hashed user)
                                 (users w)) = []).
  { rewrite replaceById_spec. unfold find.
    assert (Hreset : hasResetToken (lookup "token" reqBody)
                       (resetUser hashed user) = false).
    { unfold hasResetToken, resetUser, path2.
      rewrite lookup_assign_neq by discriminate. rewrite lookup_assign_eq.
      simpl. now apply queryEq_undef_truthy. }
    pose proof (find_singleton_others _ _ _ Hfind) as Honly.
    clear Hsave Hfirst w' Hfind.
    revert Honly. generalize (users w) as db.
    induction db as [|d r IH]; intros Honly; simpl; [reflexivity|].
    assert (IHr : filter (hasResetToken (lookup "token" reqBody))
                    (map (fun d0 =>
                            if value_eqb (lookup "_id" d0) (lookup "_id" user)
                            then resetUser hashed user else d0) r) = []).
    { apply IH. intros d' Hd'. apply Honly. now right. }
    rewrite IHr.
    destruct (value_eqb (lookup "_id" d) (lookup "_id" user)) eqn:E.
    - now rewrite Hreset.
    - destruct (hasResetToken (lookup "token" reqBody) d) eqn:Sd;
        [|reflexivity].
      rewrite (Honly d (or_introl eq_refl) Sd) in E.
      rewrite value_eqb_refl in E. discriminate. }
  rewrite Hnone. reflexivity.
Qed.

(** X24.  [requestChangePasswordEmail] refuses a request without an email
    with 400 "Missing email", and an email that selects no user, or more
    than one, with 400 "Email not found"; nothing is stored and nothing is
    mailed. *)
Theorem requestChangePasswordEmail_refusals
    (now : Z) (token : string) (w : World) :
  requestChangePasswordEmail now token None w
  = (send 400 (VObj [("error", VStr "Missing email")]), w)
  /\ requestChangePasswordEmail now token (Some "") w
     = (send 400 (VObj [("error", VStr "Missing email")]), w)
  /\ forall email,
       email <> "" ->
       List.length
         (find (fun d => queryEq (lookup "email" d) (VStr email)) (users w))
       <> 1%nat ->
       requestChangePasswordEmail now token (Some email) w
       = (send 400 (VObj [("error", VStr "Email not found")]), w).
Proof.
  split; [reflexivity|]. split; [reflexivity|].
  intros email Hne Hlen. unfold requestChangePasswordEmail.
  apply String.eqb_neq in Hne. simpl. rewrite Hne. simpl.
  destruct (find _ (users w)) as [|u [|u' r]]; try reflexivity.
  now destruct Hlen.
Qed.

Lemma filter_only {A} (sel : A -> bool) (before after : list A) (u : A) :
  (forall x, In x (before ++ after) -> sel x = false) -> sel u = true ->
  filter sel (before ++ u :: after) = [u].
Proof.
  intros Ho Hu.
  assert (Hnil : forall l, (forall x, In x l -> sel x = false) ->
                           filter sel l = []).
  { induction l as [|a r IH]; simpl; [reflexivity|].
    intros H. rewrite (H a (or_introl eq_refl)). apply IH.
    intros x Hx. apply H. now right. }
  rewrite filter_app. simpl. rewrite Hu.
  rewrite !Hnil; [reflexivity| |];
    intros x Hx; apply Ho, in_or_app; auto.
Qed.

Lemma replaceById_only doc u (before after : list obj) :
  (forall x, In x (before ++ after) ->
             value_eqb (lookup "_id" x) (lookup "_id" u) = false) ->
  replaceById (lookup "_id" u) doc (before ++ u :: after)
  = (before ++ doc :: after)%list.
Proof.
  intros Ho. rewrite replaceById_spec, map_app. cbn [map].
  rewrite value_eqb_refl.
  assert (Hsame : forall l,
             (forall x, In x l ->
                        value_eqb (lookup "_id" x) (lookup "_id" u) = false) ->
             map (fun d => if value_eqb (lookup "_id" d) (lookup "_id" u)
                           then doc else d) l = l).
  { intros l H. rewrite <- (map_id l) at 2. apply map_ext_in.
    intros d Hd. now rewrite (H d Hd). }
  rewrite !Hsame; [reflexivity| |];
    intros x Hx; apply Ho, in_or_app; auto.
Qed.

(** X25.  The reset token is stored whether or not a mail goes out, and
    [resetPassword] accepts it.  For the one user with the email, alone
    under their id, a fresh token no other user has, and a store that
    accepts the two saves: [requestChangePasswordEmail] puts the user
    with the fresh token and an expiry one TTL from now in the store;
    when the user has no
    verification record it answers 500 and mails nothing, the token being
    stored all the same; and a [resetPassword] with that token and a
    password the policy accepts, up to the expiry, answers 204 and stores
    the hash as the user's password. *)
Theorem requestChangePasswordEmail_then_resetPassword
    (now later : Z) (token email : string) (w : World) (user : obj)
    (before after : list obj) (password hashed : value) :
  email <> "" -> token <> "" ->
  users w = (before ++ user :: after)%list ->
  queryEq (lookup "email" user) (VStr email) = true ->
  (forall x, In x (before ++ after) ->
             queryEq (lookup "email" x) (VStr email) = false
             /\ value_eqb (lookup "_id" x) (lookup "_id" user) = false
             /\ hasResetToken (VStr token) x = false) ->
  truthy password = true ->
  isStrongPassword password = true ->
  hashPassword shared password = Resolved hashed ->
  later <= now + emailVerificationTTL config ->
  let saved :=
    assign "resetPassword"
      (VObj [("token", VStr token);
             ("expires", VNum (now + emailVerificationTTL config))]) user in
  saveChanged (users w) saved = Resolved saved ->
  saveChanged (before ++ saved :: after)%list (resetUser hashed saved)
  = Resolved (resetUser hashed saved) ->
  let r := requestChangePasswordEmail now token (Some email) w in
  let w1 := snd r in
  users w1 = (before ++ saved :: after)%list
  /\ (nullish (lookup "verification" user) = true ->
      fst r = send 500 VUndef /\ outbox w1 = outbox w)
  /\ resetPassword later [("password", password); ("token", VStr token)] w1
     = (send 204 VUndef,
        {| users := before ++ resetUser hashed saved :: after;
           outbox := outbox w1 |})
  /\ lookup "password" (resetUser hashed saved) = hashed
  /\ lookup "verified" (resetUser hashed saved) = VBool true.
Proof.
  intros Hemail Htoken Hdb Hsel Hothers Hpw Hstrong Hhash Hlater saved
         Hsave Hsave' r w1.
  assert (Hfind : find (fun d => queryEq (lookup "email" d) (VStr email))
                    (users w) = [user]).
  { rewrite Hdb. apply filter_only; [|exact Hsel].
    intros x Hx. now apply Hothers. }
  assert (Hid : lookup "_id" saved = lookup "_id" user).
  { unfold saved. now rewrite lookup_assign_neq by discriminate. }
  assert (Hstore : replaceById (lookup "_id" user) saved (users w)
                   = (before ++ saved :: after)%list).
  { rewrite Hdb. apply replaceById_only.
    intros x Hx. now apply Hothers. }
  assert (Hr : r = match passwordChangeEmail saved with
                   | Some m =>
                       (match sendMail shared m with
                        | Resolved _ => send 204 VUndef
                        | Rejected error =>
                            requestChangePasswordEmailFailed error
                        end,
                        {| users := before ++ saved :: after;
                           outbox := outbox w ++ [m] |})
                   | None =>
                       (send 500 VUndef,
                        {| users := before ++ saved :: after;
                           outbox := outbox w |})
                   end).
  { unfold r, requestChangePasswordEmail.
    apply String.eqb_neq in Hemail. simpl. rewrite Hemail. simpl.
    rewrite Hfind. fold saved. rewrite Hsave, Hid, Hstore.
    unfold sendPasswordChangeEmail, deliver.
    destruct (passwordChangeEmail saved) as [m|]; simpl; [|reflexivity].
    destruct (sendMail shared m); reflexivity. }
  assert (Hw1 : users w1 = (before ++ saved :: after)%list).
  { unfold w1. rewrite Hr.
    destruct (passwordChangeEmail saved); reflexivity. }
  assert (Hreset : lookup "resetPassword" saved
                   = VObj [("token", VStr token);
                           ("expires",
                            VNum (now + emailVerificationTTL config))])
    by apply lookup_assign_eq.
  split; [exact Hw1|]. split; [|split; [|split]].
  - intros Hnull. unfold w1. rewrite Hr.
    assert (Hnone : passwordChangeEmail saved = None).
    { unfold passwordChangeEmail, saved.
      rewrite lookup_assign_neq by discriminate.
      destruct (lookup "verification" user); try discriminate; reflexivity. }
    rewrite Hnone. split; reflexivity.
  - unfold resetPassword, resetPasswordQuery. simpl lookup.
    rewrite Hpw, Hstrong. simpl truthy.
    apply String.eqb_neq in Htoken. rewrite Htoken. simpl negb. cbv iota.
    change (fun d : obj =>
              queryEq (path2 d "resetPassword" "token") (VStr token))
      with (hasResetToken (VStr token)).
    rewrite Hw1. unfold find at 1.
    rewrite filter_only.
    + simpl. rewrite Hreset. simpl.
      rewrite (gt_not_past later (now + emailVerificationTTL config))
        by auto.
      rewrite Hhash. cbn [then_]. rewrite Hsave'. f_equal. f_equal.
      assert (Hid' : lookup "_id" (resetUser hashed saved)
                     = lookup "_id" saved).
      { unfold resetUser. now rewrite !lookup_assign_neq by discriminate. }
      rewrite Hid'. apply replaceById_only.
      intros x Hx. rewrite Hid. now apply Hothers.
    + intros x Hx. now apply Hothers.
    + unfold hasResetToken, path2. rewrite Hreset. simpl.
      apply queryEq_str. now left.
  - unfold resetUser. rewrite !lookup_assign_neq by discriminate.
    apply lookup_assign_eq.
  - apply lookup_assign_eq.
Qed.

(* ------------------------------------------------------------------ *)
(** ** changePassword *)

Lemma changePasswordFailed_plain message :
  changePasswordFailed (Error message)
  = Some (if (message =? "Invalid password")%string
          then send 400
                 (VObj [("message",
                         VStr ("Invalid password: "
                               ++ invalidPasswordMessage config))])
          else if (message =? "Incorrect password")%string
          then send 400
                 (VObj [("message", VStr "Incorrect Username/Password")])
          else send 500 VUndef).
Proof. reflexivity. Qed.

(** X26.  [changePassword] checks the old password first: when the helper
    finds no match the answer is 400 "Incorrect Username/Password", however
    strong or weak the new password is; with a match, a new password the
    policy refuses gets 400 with the policy message.  Neither reaches the
    hash or the store. *)
Theorem changePassword_refusals
    (user reqBody : obj) (w : World) (matched : value) :
  verifyPassword (lookup "password" user) (lookup "oldPassword" reqBody)
  = Resolved matched ->
  (truthy matched = false ->
   changePassword user reqBody w
   = (Some (send 400
              (VObj [("message", VStr "Incorrect Username/Password")])), w))
  /\ (truthy matched = true ->
      isStrongPassword (lookup "newPassword" reqBody) = false ->
      changePassword user reqBody w
      = (Some (send 400
                 (VObj [("message",
                         VStr ("Invalid password: "
                               ++ invalidPasswordMessage config))])), w)).
Proof.
  intros Hv. unfold changePassword, changePasswordSave. rewrite Hv. simpl.
  split.
  - intros ->. reflexivity.
  - intros -> ->. reflexivity.
Qed.

(** X27.  A [changePassword] that goes through hands the store the acting
    user with the hash of the new password in place of the old one, every
    other field as it was, and never the new password as it came; the 200
    body is the saved user as the store returns it, not a sanitized copy,
    so when the store returns the document it was given the body shows the
    new hash. *)
Theorem changePassword_saves_and_shows_hash
    (user reqBody : obj) (w : World) (matched hash : value) (savedUser : obj) :
  let doc := assign "password" hash user in
  verifyPassword (lookup "password" user) (lookup "oldPassword" reqBody)
  = Resolved matched ->
  truthy matched = true ->
  isStrongPassword (lookup "newPassword" reqBody) = true ->
  hashPassword shared (lookup "newPassword" reqBody) = Resolved hash ->
  saveChanged (users w) doc = Resolved savedUser ->
  changePassword user reqBody w
  = (Some (send 200 (VObj savedUser)),
     {| users := replaceById (lookup "_id" user) savedUser (users w);
        outbox := outbox w |})
  /\ lookup "password" doc = hash
  /\ (forall k, k <> "password" -> lookup k doc = lookup k user)
  /\ (savedUser = doc -> hash <> VUndef -> ~ noSecrets savedUser).
Proof.
  intros doc Hv Hm Hs Hh Hsave.
  split; [|split; [|split]].
  - unfold changePassword, changePasswordSave.
    rewrite Hv. simpl. rewrite Hm, Hs. simpl. rewrite Hh. simpl.
    fold doc. rewrite Hsave. reflexivity.
  - apply lookup_assign_eq.
  - intros k Hk. now apply lookup_assign_neq.
  - intros -> Hne [Hpw _]. unfold doc in Hpw.
    rewrite lookup_assign_eq in Hpw. now destruct Hne.
Qed.

(* ------------------------------------------------------------------ *)
(** ** The deep copy, and the validation errors of changePassword *)

Lemma has_key_remove_key_false k k' o :
  has_key k o = false -> has_key k (remove_key k' o) = false.
Proof.
  intros H. destruct (String.eqb_spec k k') as [-> | Hne].
  - apply has_key_remove_key_eq.
  - now rewrite has_key_remove_key_neq.
Qed.

Lemma plain_obj_cons k v r :
  plain (VObj ((k, v) :: r))
  = plain v && negb (has_key k r) && plain (VObj r).
Proof. reflexivity. Qed.

Lemma plain_remove_key k o :
  plain (VObj o) = true -> plain (VObj (remove_key k o)) = true.
Proof.
  induction o as [|[k' v] r IH]; [reflexivity|].
  rewrite plain_obj_cons. intros H.
  apply andb_prop in H as [H Hr]. apply andb_prop in H as [Hv Hk].
  simpl remove_key. destruct (k =? k')%string; [now apply IH|].
  rewrite plain_obj_cons, Hv, (IH Hr).
  apply negb_true_iff in Hk.
  now rewrite (has_key_remove_key_false k' k r Hk).
Qed.

Lemma jsonValue_plain v : forall y, jsonValue v = Some y -> plain y = true.
Proof.
  induction v as [ | | b | n | s | ms | xs IH | ps IH] using value_ind;
    intros y H; simpl in H; try discriminate;
    try (injection H as <-; reflexivity).
  - injection H as <-. simpl.
    induction IH as [|x xs Hx _ IHxs]; [reflexivity|].
    simpl. rewrite IHxs, andb_true_r.
    destruct (jsonValue x) as [y|] eqn:E; [now apply Hx | reflexivity].
  - injection H as <-.
    induction IH as [|[k v] r Hv _ IHr]; [reflexivity|].
    simpl in Hv. simpl copyProps.
    destruct (jsonValue v) as [y|] eqn:E.
    + rewrite plain_obj_cons, (Hv y eq_refl), has_key_remove_key_eq.
      simpl. now apply plain_remove_key.
    + now apply plain_remove_key.
Qed.

(** X28.  The deep copy [sanitizeUser] starts from is plain JSON data: no
    [undefined] and no date anywhere in it, and every key once.  Copying
    it again gives the same object, and a property of the copy is either
    missing or plain data itself. *)
Theorem jsonCopy_plain_and_stable (o : obj) :
  plain (VObj (jsonCopy o)) = true
  /\ jsonCopy (jsonCopy o) = jsonCopy o
  /\ forall k,
       lookup k (jsonCopy o) = VUndef
       \/ plain (lookup k (jsonCopy o)) = true.
Proof.
  assert (Hp : plain (VObj (jsonCopy o)) = true).
  { apply (jsonValue_plain (VObj o)). reflexivity. }
  split; [exact Hp|]. split.
  - apply plain_jsonValue in Hp. simpl in Hp. now injection Hp.
  - intros k. rewrite lookup_jsonCopy.
    destruct (jsonValue (lookup k o)) as [y|] eqn:E; [|now left].
    right. now apply (jsonValue_plain (lookup k o)).
Qed.

Lemma validatorErrors_objects (errors : list value) :
  Forall (fun o => exists p, o = VObj p) errors ->
  validatorErrors errors
  = Some (filter (fun o => match o with
                           | VObj p => is_str (lookup "name" p) "ValidatorError"
                           | _ => false
                           end) errors).
Proof.
  induction 1 as [|o r (p & ->) _ IH]; [reflexivity|].
  simpl. rewrite IH. reflexivity.
Qed.

(** X29.  When the store rejects the save of [changePassword] with
    validation errors, one record per field and at least one of them a
    ValidatorError, the answer is 400 with the message of the rejection,
    and nothing is stored. *)
Theorem changePassword_validation_error
    (user reqBody : obj) (w : World) (matched hash : value)
    (error errors : obj) (field : string) (failure : obj) :
  verifyPassword (lookup "password" user) (lookup "oldPassword" reqBody)
  = Resolved matched ->
  truthy matched = true ->
  isStrongPassword (lookup "newPassword" reqBody) = true ->
  hashPassword shared (lookup "newPassword" reqBody) = Resolved hash ->
  saveChanged (users w) (assign "password" hash user) = Rejected error ->
  lookup "errors" error = VObj errors ->
  Forall (fun kv => exists p, snd kv = VObj p) errors ->
  In (field, VObj failure) errors ->
  lookup "name" failure = VStr "ValidatorError" ->
  changePassword user reqBody w
  = (Some (send 400 (VObj [("message", lookup "message" error)])), w).
Proof.
  intros Hv Hm Hs Hh Hsave Herr Hobjs Hin Hname.
  unfold changePassword, changePasswordSave.
  rewrite Hv. simpl. rewrite Hm, Hs. simpl. rewrite Hh. simpl.
  rewrite Hsave. unfold changePasswordFailed. rewrite Herr. simpl.
  rewrite validatorErrors_objects.
  2:{ apply Forall_forall. intros o Ho.
      apply in_map_iff in Ho as (kv & <- & Hkv).
      rewrite Forall_forall in Hobjs. now apply Hobjs. }
  set (validation := filter _ _).
  assert (Hv' : In (VObj failure) validation).
  { apply filter_In. split.
    - apply in_map_iff. now exists (field, VObj failure).
    - rewrite Hname. reflexivity. }
  destruct validation; [destruct Hv' | reflexivity].
Qed.

(* ------------------------------------------------------------------ *)
(** ** A save the store rejects *)

(** X30.  When a [resetPassword] request passes every check and the store
    then rejects the save, the [.catch] answers for the store's error and
    nothing is stored: the user keeps the old password and the reset
    token.  For an error whose message is none of the five the handler
    knows, the answer is 500 with no body. *)
Theorem resetPassword_save_rejected
    (now : Z) (reqBody : obj) (w : World) (user : obj) (expires : Z)
    (hashed : value) (error : obj) :
  truthy (lookup "password" reqBody) = true ->
  truthy (lookup "token" reqBody) = true ->
  isStrongPassword (lookup "password" reqBody) = true ->
  find (hasResetToken (lookup "token" reqBody)) (users w) = [user] ->
  path2 user "resetPassword" "expires" = VNum expires
  \/ path2 user "resetPassword" "expires" = VDate expires ->
  now <= expires ->
  hashPassword shared (lookup "password" reqBody) = Resolved hashed ->
  saveChanged (users w) (resetUser hashed user) = Rejected error ->
  resetPassword now reqBody w = (resetPasswordFailed error, w)
  /\ ((forall m,
         In m ["Missing token"; "Missing password"; "Token invalid";
               "Password invalid"; "Token has expired"] ->
         lookup "message" error <> VStr m) ->
      resetPassword now reqBody w = (send 500 VUndef, w)).
Proof.
  intros Hp Ht Hs Hfind Hexp Hnow Hhash Hsave.
  assert (Hfirst : resetPassword now reqBody w
                   = (resetPasswordFailed error, w)).
  { unfold resetPassword.
    rewrite resetPassword_query_ok by assumption. rewrite Hfind. simpl.
    assert (Hm : member (lookup "resetPassword" user) "expires"
                 = Some (path2 user "resetPassword" "expires")).
    { destruct Hexp as [H | H];
        apply path2_object in H as (p & Hq & He); try discriminate;
        unfold path2; rewrite Hq; reflexivity. }
    rewrite Hm, (gt_not_past now expires) by assumption.
    rewrite Hhash. cbn [then_]. now rewrite Hsave. }
  split; [exact Hfirst|].
  intros Hunknown. rewrite Hfirst. f_equal.
  assert (Hno : forall m,
             In m ["Missing token"; "Missing password"; "Token invalid";
                   "Password invalid"; "Token has expired"] ->
             is_str (lookup "message" error) m = false).
  { intros m Hin. specialize (Hunknown m Hin). unfold is_str.
    destruct (lookup "message" error) as [ | | | |t| | | ]; try reflexivity.
    apply String.eqb_neq. intros ->. now destruct Hunknown. }
  unfold resetPasswordFailed.
  rewrite !Hno; [reflexivity| | | | |]; simpl; auto 6.
Qed.

End Controllers.

(* ================================================================== *)
(** * The handlers on the sample installation *)

Local Abbreviation demo_sanitizeUser := (sanitizeUser Demo.toISOString).
Local Abbreviation demo_read := (read Demo.toISOString).
Local Abbreviation demo_list :=
  (list_ Demo.toISOString Demo.dateToString Demo.usernameRegExp).
Local Abbreviation demo_mapUser := (mapUser Demo.schemaFields Demo.newUsers).
Local Abbreviation demo_register :=
  (register Demo.dateToString Demo.config Demo.shared Demo.schemaFields
     Demo.newUsers Demo.saveNew Demo.md5).
Local Abbreviation closed_register :=
  (register Demo.dateToString Demo.closedConfig Demo.shared Demo.schemaFields
     Demo.newUsers Demo.saveNew Demo.md5).
Local Abbreviation demo_verifyEmail :=
  (verifyEmail Demo.dateToString Demo.saveChanged).
Local Abbreviation demo_resetPassword :=
  (resetPassword Demo.dateToString Demo.config Demo.shared Demo.saveChanged).
Local Abbreviation demo_requestChangePasswordEmail :=
  (requestChangePasswordEmail Demo.dateToString Demo.config Demo.shared
     Demo.saveChanged).

(** The sanitized copy of a user with both tokens, as it is sent. *)
Example sanitizeUser_bob :
  jsonCopy Demo.toISOString (demo_sanitizeUser Demo.bob)
  = [("_id", VStr "b2"); ("username", VStr "bob");
     ("email", VStr "bob@example.org");
     ("role", VStr "editor"); ("subroles", VArr [VStr "user"]);
     ("verified", VBool false);
     ("verification", VObj [("expires", VNum 1000)]);
     ("resetPassword", VObj [("expires", VNum 9000)])].
Proof. reflexivity. Qed.

(** C2.  An admin reads another user, who is in the store: the response is
    200, and its body is the sanitized record of the admin who asked, not
    of the user that was looked up. *)
Theorem read_answers_with_caller_record :
  target (users Demo.world) "b2" = Some Demo.bob
  /\ demo_read (users Demo.world) Demo.alice (Some "b2")
     = send 200 (VObj (demo_sanitizeUser Demo.alice))
  /\ lookup "username" (demo_sanitizeUser Demo.alice) = VStr "alice"
  /\ lookup "username" (demo_sanitizeUser Demo.bob) = VStr "bob".
Proof. repeat split; reflexivity. Qed.

Lemma read_gate_self_or_admin_witness :
  demo_read (users Demo.world) Demo.carol (Some "b2") = send 403 VUndef.
Proof.
  destruct (read_gate_self_or_admin Demo.toISOString (users Demo.world)
              Demo.carol "b2" [VStr "user"])
    as (_ & Hforbidden & _); [discriminate | reflexivity |].
  apply Hforbidden. intros [H | [H | []]]; discriminate.
Defined.

(** A user reads their own record without any admin subrole. *)
Example read_self :
  status (demo_read (users Demo.world) Demo.carol (Some "c3")) = 200.
Proof. reflexivity. Qed.

Lemma list_page_two_witness :
  demo_list Demo.crowd (Some "2") None
  = Some (send 200
            (VArr (map (fun u => VObj (demo_sanitizeUser u))
                     (firstn 25 (skipn 25 (sortBy "username" Demo.crowd)))))).
Proof.
  apply (list_page_two Demo.toISOString Demo.dateToString Demo.usernameRegExp
           Demo.crowd None).
  - apply Nat.leb_le. reflexivity.
  - left. reflexivity.
Defined.

(** The second page of the sixty sample users runs from the 26th username
    to the 50th. *)
Example list_page_two_usernames :
  map (lookup "username") (firstn 25 (skipn 25 (sortBy "username" Demo.crowd)))
  = map (fun k => VStr ("user" ++ Z_to_string (Z.of_nat k))) (seq 125 25).
Proof. vm_compute. reflexivity. Qed.

(** C5, as stated, fails where registration is switched off: the password
    "abc" fails the policy and the response is 500 with no body. *)
Lemma register_weak_password_while_closed :
  isStrongPassword Demo.closedConfig
    (lookup "password" (demo_mapUser 5000 Demo.weakBody)) = false
  /\ closed_register 5000 "t0" Demo.weakBody Demo.world
     = (Some (send 500 VUndef), Demo.world).
Proof. split; reflexivity. Qed.

Lemma register_weak_password_rejected_witness :
  demo_register 5000 "t0" Demo.weakBody Demo.world
  = (Some (send 400
             (VObj [("error",
                     VStr "Invalid password: use upper case, lower case, a digit and a symbol")])),
     Demo.world).
Proof.
  apply (register_weak_password_rejected Demo.dateToString Demo.config
           Demo.shared Demo.schemaFields Demo.newUsers Demo.saveNew Demo.md5
           5000 "t0" Demo.weakBody Demo.world "Dave@Example.org");
    reflexivity.
Defined.

Lemma register_duplicate_key_witness :
  demo_register 5000 "t0" Demo.takenBody Demo.world
  = (Some (send 400 (VObj [("error", VStr "Username is taken")])), Demo.world).
Proof.
  apply (register_duplicate_key Demo.dateToString Demo.config
           Demo.shared Demo.schemaFields Demo.newUsers Demo.saveNew Demo.md5
           5000 "t0" Demo.takenBody Demo.world
           "https://gravatar.com/avatar/md5:robert@example.org?d=identicon"
           (VStr "hashed:NewStrongP@ss1")
           [("name", VStr "MongoError"); ("code", VNum 11000);
            ("errmsg",
             VStr (dupKeyMessage "mean.users" "username_1" "{ : bob }"))]
           "mean.users" "username_1" "{ : bob }");
    try reflexivity.
  discriminate.
Defined.

(** A registration without an email throws while the avatar address is
    built, before the registration switch and the password are looked at:
    no response is sent, and nothing is saved. *)
Example register_without_email :
  demo_register 5000 "t0"
    [("username", VStr "dave"); ("password", VStr "abc")] Demo.world
  = (None, Demo.world).
Proof. reflexivity. Qed.

(** A new username with an email that is taken: 500, and nothing saved. *)
Example register_duplicate_email :
  demo_register 5000 "t0"
    [("username", VStr "bobby"); ("email", VStr "bob@example.org");
     ("password", VStr "NewStrongP@ss1")] Demo.world
  = (Some (send 500 VUndef), Demo.world).
Proof. reflexivity. Qed.

Lemma verifyEmail_expired_token_witness :
  demo_verifyEmail 5000 "verify-bob" Demo.world
  = (send 400 (VObj [("message", VStr "Token has expired")]), Demo.world).
Proof.
  apply (verifyEmail_expired_token Demo.dateToString Demo.saveChanged 5000
           "verify-bob" Demo.world Demo.bob 1000).
  - reflexivity.
  - left. reflexivity.
  - reflexivity.
Defined.

Lemma resetPassword_replaces_password_witness :
  demo_resetPassword 5000 Demo.resetBody Demo.world
  = (send 204 VUndef,
     {| users :=
          [Demo.carol; Demo.alice;
           resetUser (VStr "hashed:NewStrongP@ss1") Demo.bob];
        outbox := [] |}).
Proof.
  apply (resetPassword_replaces_password Demo.dateToString Demo.config
           Demo.shared Demo.saveChanged 5000 Demo.resetBody Demo.world
           Demo.bob 9000 (VStr "hashed:NewStrongP@ss1")); try reflexivity.
  - left. reflexivity.
  - discriminate.
Defined.

Lemma requestChangePasswordEmail_links_verification_token_witness :
  map (lookup "text")
    (outbox (snd (demo_requestChangePasswordEmail 5000 "fresh-token"
                    (Some "bob@example.org") Demo.world)))
  = [VStr "Change your password by going here: https://example.org/reset-password;token=verify-bob"]
  /\ queryEq (VStr "fresh-token") (VStr "verify-bob") = false.
Proof.
  destruct (requestChangePasswordEmail_links_verification_token
              Demo.dateToString Demo.config Demo.shared Demo.saveChanged
              5000 "fresh-token" "bob@example.org" Demo.world Demo.bob
              (VStr "verify-bob"))
    as (_ & _ & _ & (mail & Hout & _ & Htext) & Hmiss);
    [discriminate | reflexivity | reflexivity | reflexivity |].
  split.
  - rewrite Hout. simpl. rewrite Htext. reflexivity.
  - apply Hmiss. discriminate.
Defined.

(** The sample editors get the new subroles, the others keep theirs. *)
Example flushSubroles_editor :
  map (lookup "subroles")
    (flushSubroles "editor" ["content"; "review"] (users Demo.world))
  = [VArr [VStr "user"]; VArr [VStr "admin"; VStr "user"];
     VArr [VStr "content"; VStr "review"]].
Proof. reflexivity. Qed.

(* ------------------------------------------------------------------ *)
(** ** The other handlers on the sample installation *)

Local Abbreviation demo_create :=
  (create Demo.toISOString Demo.schemaFields Demo.newUsers Demo.saveNew
     Demo.md5).
Local Abbreviation demo_update :=
  (update Demo.toISOString Demo.schemaFields Demo.saveChanged).
Local Abbreviation demo_adminUpdate :=
  (adminUpdate Demo.dateToString Demo.shared Demo.roleConfigAdmin
     (Some Demo.determineSubroles)).
Local Abbreviation demo_changePassword :=
  (changePassword Demo.config Demo.shared Demo.saveChanged
     Demo.verifyPassword).
Local Abbreviation demo_requestVerifcationEmail :=
  (requestVerifcationEmail Demo.dateToString Demo.config Demo.shared
     Demo.saveChanged).
Local Abbreviation nomail_register :=
  (register Demo.dateToString Demo.config Demo.sharedNoMail Demo.schemaFields
     Demo.newUsers Demo.saveNew Demo.md5).
Local Abbreviation demo_registrant :=
  (registrant Demo.config Demo.schemaFields Demo.newUsers).

Lemma read_not_found_witness :
  demo_read (users Demo.world) Demo.alice (Some "zz") = send 404 VUndef.
Proof.
  apply (read_not_found Demo.toISOString (users Demo.world) Demo.alice "zz"
           [VStr "admin"; VStr "user"]).
  - discriminate.
  - reflexivity.
  - right. left. reflexivity.
  - intros d [<- | [<- | [<- | []]]]; discriminate.
  - intros d xs [<- | [<- | [<- | []]]]; discriminate.
Defined.

Lemma list_any_page_witness :
  demo_list Demo.crowd (Some "3") None
  = Some (send 200
            (VArr (map (fun u => VObj (demo_sanitizeUser u))
                     (firstn 25 (skipn 50 (sortBy "username" Demo.crowd)))))).
Proof.
  apply (list_any_page Demo.toISOString Demo.dateToString Demo.usernameRegExp
           Demo.crowd 3 None).
  - discriminate.
  - left. reflexivity.
Defined.

(** The third page of the sixty sample users holds the last ten. *)
Example list_page_three_usernames :
  map (lookup "username") (firstn 25 (skipn 50 (sortBy "username" Demo.crowd)))
  = map (fun k => VStr ("user" ++ Z_to_string (Z.of_nat k))) (seq 150 10).
Proof. vm_compute. reflexivity. Qed.

Lemma list_bounded_and_sanitized_witness :
  send 200
    (VArr (map (fun u => VObj (demo_sanitizeUser u))
             [Demo.alice; Demo.bob; Demo.carol]))
  = send 500 VUndef
  \/ exists found,
       send 200
         (VArr (map (fun u => VObj (demo_sanitizeUser u))
                  [Demo.alice; Demo.bob; Demo.carol]))
       = send 200 (VArr (map (fun u => VObj (demo_sanitizeUser u)) found))
       /\ (List.length found <= 25)%nat
       /\ incl found (users Demo.world)
       /\ Forall (fun u => noSecrets (demo_sanitizeUser u)) found.
Proof.
  apply (list_bounded_and_sanitized Demo.toISOString Demo.dateToString
           Demo.usernameRegExp (users Demo.world) None None).
  reflexivity.
Defined.

(** An unlisted field, a role and a password in the body of [create]: the
    field is dropped; the role and the password are kept as they came. *)
Example create_by_admin :
  let saved :=
    last (snd (demo_create 5000 Demo.alice Demo.daveBody (users Demo.world)))
         [] in
  lookup "nickname" saved = VUndef
  /\ lookup "role" saved = VStr "admin"
  /\ lookup "password" saved = VStr "Dav3#Strong"
  /\ status (fst (demo_create 5000 Demo.alice Demo.daveBody
                    (users Demo.world))) = 201.
Proof. repeat split; reflexivity. Qed.

(** Any caller can change another user through [update]: here a plain user
    makes themselves admin of record and sets a password in clear. *)
Example update_by_anyone :
  let r :=
    demo_update 5000 Demo.carol
      [("_id", VStr "b2"); ("role", VStr "admin");
       ("password", VStr "clear")] (users Demo.world) in
  status (fst r) = 200
  /\ map (lookup "role") (snd r)
     = [VStr "user"; VStr "admin"; VStr "admin"]
  /\ map (lookup "password") (snd r)
     = [VStr "hashed:Carol#22"; VStr "hashed:Alice#2020"; VStr "clear"].
Proof. repeat split; reflexivity. Qed.

Lemma deleteUser_removes_that_id_witness :
  deleteUser Demo.alice "b2" (users Demo.world)
  = (send 204 VUndef, [Demo.carol; Demo.alice])
  /\ deleteUser Demo.carol "b2" (users Demo.world)
     = (send 403 VUndef, users Demo.world).
Proof.
  split.
  - destruct (deleteUser_removes_that_id Demo.toISOString Demo.alice "b2"
                (users Demo.world) [VStr "admin"; VStr "user"] eq_refl)
      as [_ H].
    destruct H as (H & _); [left; reflexivity|].
    apply injective_projections; [exact H | reflexivity].
  - destruct (deleteUser_removes_that_id Demo.toISOString Demo.carol "b2"
                (users Demo.world) [VStr "user"] eq_refl)
      as [H _].
    apply H. intros [E | []]. discriminate.
Defined.

Lemma adminUpdate_checks_role_witness :
  demo_adminUpdate Demo.bob [("_id", VStr "c3"); ("role", VStr "admin")]
    (users Demo.world)
  = (Some (send 403 VUndef), users Demo.world).
Proof.
  apply (adminUpdate_checks_role Demo.dateToString Demo.shared
           Demo.roleConfigAdmin (Some Demo.determineSubroles) Demo.bob
           [("_id", VStr "c3"); ("role", VStr "admin")] (users Demo.world)
           "editor").
  - reflexivity.
  - discriminate.
Defined.

(** The admin makes carol an editor and sets her password: the subroles
    are the role's, the password is stored hashed. *)
Example adminUpdate_by_admin :
  let r :=
    demo_adminUpdate Demo.alice
      [("_id", VStr "c3"); ("role", VStr "editor");
       ("subroles", VArr [VStr "admin"]); ("password", VStr "Carol#2023")]
      (users Demo.world) in
  fst r = Some (send 204 VUndef)
  /\ map (lookup "subroles") (snd r)
     = [VArr [VStr "editor"]; VArr [VStr "admin"; VStr "user"];
        VArr [VStr "user"]]
  /\ map (lookup "password") (snd r)
     = [VStr "hashed:Carol#2023"; VStr "hashed:Alice#2020";
        VStr "hashed:Bob#2021x"].
Proof. repeat split; reflexivity. Qed.

Lemma removeSubroles_pulls_labels_witness :
  List.length (removeSubroles ["user"] (users Demo.world))
  = List.length (users Demo.world).
Proof.
  apply (removeSubroles_pulls_labels ["user"] (users Demo.world)).
  repeat constructor; intros t; discriminate.
Defined.

Example removeSubroles_user :
  map (lookup "subroles") (removeSubroles ["user"] (users Demo.world))
  = [VArr []; VArr [VStr "admin"]; VArr []].
Proof. reflexivity. Qed.

Lemma updateUserRoles_first_user_only_witness :
  exists d',
    updateUserRoles "b2" "admin" ["admin"; "user"] (users Demo.world)
    = [Demo.carol; Demo.alice; d']
    /\ lookup "role" d' = VStr "admin".
Proof.
  destruct (updateUserRoles_first_user_only "b2" "admin" ["admin"; "user"]
              [Demo.carol; Demo.alice] [] Demo.bob) as [H _].
  - intros x [<- | [<- | []]]; discriminate.
  - destruct H as (d' & He & Hr & _); [reflexivity|].
    exists d'. split; [exact He | exact Hr].
Defined.

Lemma verifyEmail_unknown_token_witness :
  demo_verifyEmail 500 "no-such-token" Demo.world
  = (send 400 (VObj [("message", VStr "Token invalid")]), Demo.world).
Proof.
  apply (verifyEmail_unknown_token Demo.dateToString Demo.saveChanged 500
           "no-such-token" Demo.world).
  intros d [<- | [<- | [<- | []]]]; reflexivity.
Defined.

Lemma verifyEmail_token_stays_valid_witness :
  demo_verifyEmail 999999999 "verify-bob"
    (snd (demo_verifyEmail 500 "verify-bob" Demo.world))
  = (send 204 VUndef, snd (demo_verifyEmail 500 "verify-bob" Demo.world)).
Proof.
  apply (verifyEmail_token_stays_valid Demo.dateToString Demo.saveChanged
           500 "verify-bob" Demo.world Demo.bob 1000).
  - reflexivity.
  - left. reflexivity.
  - discriminate.
  - reflexivity.
  - reflexivity.
Defined.

Lemma register_mail_failure_keeps_user_witness :
  exists savedUser mail,
    nomail_register 5000 "t0" Demo.daveBody Demo.world
    = (Some (send 201
               (VObj [("user", VObj savedUser);
                      ("message", VStr "Verification email not sent")])),
       {| users := [Demo.carol; Demo.alice; Demo.bob; savedUser];
          outbox := [mail] |}).
Proof.
  do 2 eexists.
  apply (register_mail_failure_keeps_user Demo.dateToString Demo.config
           Demo.sharedNoMail Demo.schemaFields Demo.newUsers Demo.saveNew
           Demo.md5 5000 "t0" Demo.daveBody Demo.world
           "https://gravatar.com/avatar/md5:dave@example.org?d=identicon"
           (VStr "hashed:Dav3#Strong") _ _
           (Error "connect ECONNREFUSED"));
    reflexivity.
Defined.

Lemma register_then_verifyEmail_witness :
  fst (demo_verifyEmail 6000 "t0"
         (snd (demo_register 5000 "t0" Demo.daveBody Demo.world)))
  = send 204 VUndef.
Proof.
  destruct (register_then_verifyEmail Demo.dateToString Demo.config
              Demo.shared Demo.schemaFields Demo.newUsers Demo.saveNew
              Demo.md5 Demo.saveChanged 5000 6000 "t0" Demo.daveBody
              Demo.world
              "https://gravatar.com/avatar/md5:dave@example.org?d=identicon"
              (VStr "hashed:Dav3#Strong"))
    as (_ & H & _);
    [reflexivity | reflexivity | reflexivity | reflexivity | reflexivity
    | reflexivity
    | intros d [<- | [<- | [<- | []]]]; split; reflexivity | ].
  destruct H as [H _]; [discriminate|]. now rewrite H.
Defined.

(** The role the body asked for is not the role that is registered. *)
Example register_role_is_default :
  map (lookup "role")
    (users (snd (demo_register 5000 "t0" Demo.daveBody Demo.world)))
  = [VStr "user"; VStr "admin"; VStr "editor"; VStr "user"].
Proof. reflexivity. Qed.


(** Without a verification record the handler throws before it answers. *)
Example requestVerifcationEmail_without_record :
  demo_requestVerifcationEmail 5000 "t1" Demo.carol Demo.world
  = (None, Demo.world).
Proof. reflexivity. Qed.

Lemma resetPassword_refuses_token_witness :
  demo_resetPassword 5000
    [("password", VStr "NewStrongP@ss1"); ("token", VStr "no-such-token")]
    Demo.world
  = (send 400 (VObj [("error", VStr "Token invalid")]), Demo.world).
Proof.
  apply (resetPassword_refuses_token Demo.dateToString Demo.config
           Demo.shared Demo.saveChanged 5000
           [("password", VStr "NewStrongP@ss1");
            ("token", VStr "no-such-token")] Demo.world);
    try reflexivity.
  discriminate.
Defined.

Lemma resetPassword_token_once_witness :
  demo_resetPassword 6000 Demo.resetBody
    (snd (demo_resetPassword 5000 Demo.resetBody Demo.world))
  = (send 400 (VObj [("error", VStr "Token invalid")]),
     snd (demo_resetPassword 5000 Demo.resetBody Demo.world)).
Proof.
  apply (resetPassword_token_once Demo.dateToString Demo.config Demo.shared
           Demo.saveChanged 5000 6000 Demo.resetBody Demo.world Demo.bob
           9000 (VStr "hashed:NewStrongP@ss1")); try reflexivity.
  - left. reflexivity.
  - discriminate.
Defined.

Lemma requestChangePasswordEmail_then_resetPassword_witness :
  fst (demo_resetPassword 6000
         [("password", VStr "NewStrongP@ss1"); ("token", VStr "fresh-token")]
         (snd (demo_requestChangePasswordEmail 5000 "fresh-token"
                 (Some "bob@example.org") Demo.world)))
  = send 204 VUndef.
Proof.
  destruct (requestChangePasswordEmail_then_resetPassword Demo.dateToString
              Demo.config Demo.shared Demo.saveChanged 5000 6000
              "fresh-token" "bob@example.org" Demo.world Demo.bob
              [Demo.carol; Demo.alice] [] (VStr "NewStrongP@ss1")
              (VStr "hashed:NewStrongP@ss1"))
    as (_ & _ & H & _);
    [discriminate | discriminate | reflexivity | reflexivity
    | intros x [<- | [<- | []]]; repeat split; reflexivity
    | reflexivity | reflexivity | reflexivity | discriminate
    | reflexivity | reflexivity | ].
  now rewrite H.
Defined.

(** A user an admin created has no verification record: the reset request
    is answered 500 and mails nothing, and the reset token is stored. *)
Example requestChangePasswordEmail_without_record :
  let r :=
    demo_requestChangePasswordEmail 5000 "fresh-token"
      (Some "carol@example.org") Demo.world in
  fst r = send 500 VUndef
  /\ outbox (snd r) = []
  /\ map (fun d => path2 d "resetPassword" "token") (users (snd r))
     = [VStr "fresh-token"; VUndef; VStr "reset-bob"].
Proof. repeat split; reflexivity. Qed.

Lemma changePassword_refusals_witness :
  demo_changePassword Demo.bob
    [("oldPassword", VStr "guess"); ("newPassword", VStr "abc")] Demo.world
  = (Some (send 400 (VObj [("message", VStr "Incorrect Username/Password")])),
     Demo.world).
Proof.
  apply (changePassword_refusals Demo.config Demo.shared Demo.saveChanged
           Demo.verifyPassword Demo.bob
           [("oldPassword", VStr "guess"); ("newPassword", VStr "abc")]
           Demo.world (VBool false)); reflexivity.
Defined.

Lemma changePassword_saves_and_shows_hash_witness :
  exists savedUser,
    fst (demo_changePassword Demo.bob
           [("oldPassword", VStr "Bob#2021x");
            ("newPassword", VStr "NewStrongP@ss1")] Demo.world)
    = Some (send 200 (VObj savedUser))
    /\ lookup "password" savedUser = VStr "hashed:NewStrongP@ss1".
Proof.
  exists (assign "password" (VStr "hashed:NewStrongP@ss1") Demo.bob).
  destruct (changePassword_saves_and_shows_hash Demo.config Demo.shared
              Demo.saveChanged Demo.verifyPassword Demo.bob
              [("oldPassword", VStr "Bob#2021x");
               ("newPassword", VStr "NewStrongP@ss1")] Demo.world
              (VBool true) (VStr "hashed:NewStrongP@ss1")
              (assign "password" (VStr "hashed:NewStrongP@ss1") Demo.bob))
    as (H & Hp & _); try reflexivity.
  split; [now rewrite H | exact Hp].
Defined.

(** An acting user whose record has lost its username cannot change the
    password: the store's validation error comes back as 400. *)
Lemma changePassword_validation_error_witness :
  demo_changePassword
    [("_id", VStr "b2"); ("password", VStr "hashed:Bob#2021x")]
    [("oldPassword", VStr "Bob#2021x"); ("newPassword", VStr "NewStrongP@ss1")]
    Demo.world
  = (Some (send 400 (VObj [("message", VStr "User validation failed")])),
     Demo.world).
Proof.
  apply (changePassword_validation_error Demo.config Demo.shared
           Demo.saveChanged Demo.verifyPassword
           [("_id", VStr "b2"); ("password", VStr "hashed:Bob#2021x")]
           [("oldPassword", VStr "Bob#2021x");
            ("newPassword", VStr "NewStrongP@ss1")]
           Demo.world (VBool true) (VStr "hashed:NewStrongP@ss1")
           [("message", VStr "User validation failed");
            ("errors",
             VObj [("username",
                    VObj [("name", VStr "ValidatorError");
                          ("message", VStr "Path `username` is required.")])])]
           [("username",
             VObj [("name", VStr "ValidatorError");
                   ("message", VStr "Path `username` is required.")])]
           "username"
           [("name", VStr "ValidatorError");
            ("message", VStr "Path `username` is required.")]);
    try reflexivity.
  - repeat constructor. eexists. reflexivity.
  - left. reflexivity.
Defined.

Lemma resetPassword_save_rejected_witness :
  demo_resetPassword 5000
    [("password", VStr "NewStrongP@ss1"); ("token", VStr "reset-n9")]
    Demo.strayWorld
  = (send 500 VUndef, Demo.strayWorld).
Proof.
  destruct (resetPassword_save_rejected Demo.dateToString Demo.config
              Demo.shared Demo.saveChanged 5000
              [("password", VStr "NewStrongP@ss1");
               ("token", VStr "reset-n9")]
              Demo.strayWorld Demo.nameless 9000
              (VStr "hashed:NewStrongP@ss1")
              [("message", VStr "User validation failed");
               ("errors",
                VObj [("username",
                       VObj [("name", VStr "ValidatorError");
                             ("message",
                              VStr "Path `username` is required.")])])])
    as [_ H];
    [reflexivity | reflexivity | reflexivity | reflexivity
    | left; reflexivity | discriminate | reflexivity | reflexivity | ].
  apply H. intros m [<- | [<- | [<- | [<- | [<- | []]]]]]; discriminate.
Defined.

(** The other handlers that save a stored user, when the store rejects the
    save: 500, nothing stored, nothing mailed. *)
Example rejected_save_elsewhere :
  demo_verifyEmail 5000 "verify-n9" Demo.strayWorld
  = (send 500 VUndef, Demo.strayWorld)
  /\ demo_requestChangePasswordEmail 5000 "fresh-token"
       (Some "nobody@example.org") Demo.strayWorld
     = (send 500 VUndef, Demo.strayWorld)
  /\ demo_requestVerifcationEmail 5000 "t1" Demo.nameless Demo.strayWorld
     = (Some (send 500 VUndef), Demo.strayWorld).
Proof. repeat split; reflexivity. Qed.

(** [readList] on the sample store: the listed users in store order when
    the query is answered, 500 when it is rejected. *)
Example readList_two_ids :
  readList Demo.toISOString (fun found => Resolved found) "b2,zz,c3"
    (users Demo.world)
  = send 200
      (VArr [VObj (demo_sanitizeUser Demo.carol);
             VObj (demo_sanitizeUser Demo.bob)])
  /\ readList Demo.toISOString
       (fun _ => Rejected (Error "topology was destroyed")) "b2,zz,c3"
       (users Demo.world)
     = send 500 VUndef.
Proof. split; reflexivity. Qed.
